(** * HDPM: hierarchical dual-pathway memory

    A shallow embedding of the Python package [hdpm]
    ([core_structures.py], [memory_processing.py]) and the properties of
    its memory store, retrieval engine and reflection pipeline. *)

From Stdlib Require Import ZArith List Bool Ascii String Lia Permutation Sorted.
From stdpp Require Import base option list sorting gmap sets.

(** * Python values *)

(** A Python [str] is a sequence of Unicode code points. *)
Abbreviation str := (list N).

Definition lit (s : string) : str := N_of_ascii <$> list_ascii_of_string s.
Arguments lit s%_string.

Definition hyphen : N := 45.
Definition space : N := 32.

(** [str(n)] for a non-negative [int]. *)
Fixpoint digits (u : Decimal.uint) : str :=
  match u with
  | Decimal.Nil => []
  | Decimal.D0 u => 48%N :: digits u
  | Decimal.D1 u => 49%N :: digits u
  | Decimal.D2 u => 50%N :: digits u
  | Decimal.D3 u => 51%N :: digits u
  | Decimal.D4 u => 52%N :: digits u
  | Decimal.D5 u => 53%N :: digits u
  | Decimal.D6 u => 54%N :: digits u
  | Decimal.D7 u => 55%N :: digits u
  | Decimal.D8 u => 56%N :: digits u
  | Decimal.D9 u => 57%N :: digits u
  end.

Definition str_of_nat (n : nat) : str := digits (Nat.to_uint n).

(** [needle in hay] *)
Fixpoint str_startswith (prefix s : str) : bool :=
  match prefix, s with
  | [], _ => true
  | _ :: _, [] => false
  | a :: prefix', b :: s' => (a =? b)%N && str_startswith prefix' s'
  end.

Fixpoint str_contains (needle hay : str) : bool :=
  str_startswith needle hay ||
  match hay with
  | [] => false
  | _ :: hay' => str_contains needle hay'
  end.

(** [s.replace(a, b)] for one-character [a] and [b]. *)
Definition str_replace_char (a b : N) (s : str) : str :=
  (fun c => if (c =? a)%N then b else c) <$> s.

(** [s.split(sep)] for a one-character separator: empty fields are kept. *)
Fixpoint str_split_char (sep : N) (s : str) : list str :=
  match s with
  | [] => [[]]
  | c :: s' =>
      if (c =? sep)%N then [] :: str_split_char sep s'
      else match str_split_char sep s' with
           | [] => [[c]]
           | field :: fields => (c :: field) :: fields
           end
  end.

(** [s.split()]: fields are the maximal runs of non-whitespace. *)
Fixpoint str_split_ws (isspace : N -> bool) (s : str) : list str :=
  match s with
  | [] => []
  | c :: s' =>
      if isspace c then str_split_ws isspace s'
      else match s' with
           | [] => [[c]]
           | c' :: _ =>
               if isspace c' then [c] :: str_split_ws isspace s'
               else match str_split_ws isspace s' with
                    | [] => [[c]]
                    | field :: fields => (c :: field) :: fields
                    end
           end
  end.

(** [sep.join(l)] *)
Fixpoint str_join (sep : str) (l : list str) : str :=
  match l with
  | [] => []
  | [s] => s
  | s :: l' => s ++ sep ++ str_join sep l'
  end.

(** A Python [dict] with [str] keys keeps its items in insertion order;
    assigning to a key that is present replaces the value in place. *)
Abbreviation dict V := (list (str * V)).

Fixpoint dict_get {V} (d : dict V) (k : str) : option V :=
  match d with
  | [] => None
  | (k', v) :: d' => if decide (k' = k) then Some v else dict_get d' k
  end.

Fixpoint dict_set {V} (d : dict V) (k : str) (v : V) : dict V :=
  match d with
  | [] => [(k, v)]
  | (k', v') :: d' =>
      if decide (k' = k) then (k', v) :: d' else (k', v') :: dict_set d' k v
  end.

Definition dict_keys {V} (d : dict V) : list str := d.*1.
Definition dict_values {V} (d : dict V) : list V := d.*2.

(** Exceptions that the modelled code can meet. *)
Inductive exn := TypeError | ValueError | AttributeError.

Inductive result (A : Type) :=
  | Ok (a : A)
  | Raise (e : exn).
Arguments Ok {A} a.
Arguments Raise {A} e.

(** ** Sorting

    [list.sort] and [sorted] are stable and compare with [<] only. *)
Section Sorting.
Context {A : Type}.

(** Keys whose [<] cannot raise. *)
Fixpoint sort_insert (lt : A -> A -> bool) (x : A) (l : list A) : list A :=
  match l with
  | [] => [x]
  | y :: l' => if lt y x then y :: sort_insert lt x l' else x :: y :: l'
  end.

Fixpoint sort_stable (lt : A -> A -> bool) (l : list A) : list A :=
  match l with
  | [] => []
  | x :: l' => sort_insert lt x (sort_stable lt l')
  end.

(** [l.sort(key=..., reverse=...)]: with [reverse=True] the list is
    reversed, sorted, and reversed again, which keeps equal keys in
    their original order. *)
Definition list_sort (lt : A -> A -> bool) (reverse : bool) (l : list A)
  : list A :=
  if reverse then rev (sort_stable lt (rev l)) else sort_stable lt l.

(** Keys whose [<] can raise: the exception leaves the sort. *)
Fixpoint sort_insert_raising (lt : A -> A -> result bool) (x : A)
    (l : list A) : result (list A) :=
  match l with
  | [] => Ok [x]
  | y :: l' =>
      match lt y x with
      | Raise e => Raise e
      | Ok false => Ok (x :: y :: l')
      | Ok true =>
          match sort_insert_raising lt x l' with
          | Ok r => Ok (y :: r)
          | Raise e => Raise e
          end
      end
  end.

Fixpoint sorted_raising (lt : A -> A -> result bool) (l : list A)
  : result (list A) :=
  match l with
  | [] => Ok []
  | x :: l' =>
      match sorted_raising lt l' with
      | Ok s => sort_insert_raising lt x s
      | Raise e => Raise e
      end
  end.
End Sorting.

(** ** Dates

    [datetime.datetime]: a naive value carries local wall-clock time, an
    aware one an instant; both are counted here in microseconds.  Ordering
    a naive against an aware value raises [TypeError].  The UTC offset of
    an aware value is not kept: the value stands for its instant, which is
    all that ordering looks at, and the sample runtime below prints it at
    the offset [+00:00]. *)
Record datetime := { dt_aware : bool; dt_micros : Z }.

Definition dt_lt (a b : datetime) : result bool :=
  if eqb (dt_aware a) (dt_aware b)
  then Ok (dt_micros a <? dt_micros b)%Z
  else Raise TypeError.

(** [d - datetime.timedelta(seconds=k)] *)
Definition dt_minus_seconds (d : datetime) (k : Z) : datetime :=
  {| dt_aware := dt_aware d; dt_micros := dt_micros d - k * 1000000 |}.

(** ** Trajectory events

    A trajectory step is meant to be a dict with the optional keys
    ['action_content'], ['agent_type'] and ['timestamp']; any other
    object has no [.get].  The value under ['timestamp'] is a [str] or
    something else, of which only the truth value matters.  The values
    under ['action_content'] and ['agent_type'] are strings, as the
    docstring of [atomize] and the signature of [AtomicEvidenceCard] type
    them: [atomize] passes whatever it finds there on to the card, so a
    step that keeps another object under one of these keys (such as
    [None]) yields a card whose content is not text, which is outside
    these definitions.  What is said below of the contents that the
    strategies distil is said of cards whose content is text. *)
Inductive pyval :=
  | PyStr (s : str)
  | PyOther (truthy : bool).

Definition truthy (v : option pyval) : bool :=
  match v with
  | None => false
  | Some (PyStr s) => negb (bool_decide (s = []))
  | Some (PyOther b) => b
  end.

Inductive event :=
  | EventDict (action_content agent_type : option str)
      (timestamp : option pyval)
  | EventOther.

(** ** The interpreter and its libraries

    What the package takes from Python itself: Unicode tables, the ISO
    8601 codec of [datetime], the layout of [set], the generator behind
    [random], and [str()] of arbitrary objects. *)
Class PyRuntime := {
  (** [s.lower()] *)
  str_lower : str -> str;
  (** the class [\w] of [re] *)
  re_word : N -> bool;
  (** the class [\s] of [re], which is also what [str.split()] splits on *)
  py_isspace : N -> bool;
  (** [d.isoformat()] *)
  isoformat : datetime -> str;
  (** [datetime.fromisoformat(s)], [None] for [ValueError] *)
  fromisoformat : str -> option datetime;
  (** [list(set(l))]: the distinct items of [l] in table order, which is
      fixed within one process and varies from one process to the next
      with the seed of the string hash *)
  set_order : list str -> list str;
  (** one draw below [n] from a generator state, and the next state *)
  randbelow : N -> nat -> nat * N;
  (** [str(event)]; keys of the dict other than the three above are not
      part of [event], so this text stands for Python's up to them *)
  event_str : event -> str;
  (** [str(e)] for the exception raised on an event *)
  error_str : event -> exn -> str
}.

(** ** Effects

    The clock, the UUID source, the state of [random] and standard
    output.  [clock k] is what the [k]-th call of [datetime.now()]
    returns, [uuids k] what the [k]-th call of [uuid.uuid4()] prints as. *)
Record world := {
  clock : nat -> Z;
  ticks : nat;
  uuids : nat -> str;
  drawn : nat;
  rng : N;
  stdout : list str
}.

(** Computations over a state [S] that return or raise; what was done
    to the state before an exception stays done. *)
Definition ST (S A : Type) : Type := S -> result A * S.

Definition ret {S A} (a : A) : ST S A := fun s => (Ok a, s).

Definition bind {S A B} (m : ST S A) (f : A -> ST S B) : ST S B :=
  fun s =>
    match m s with
    | (Ok a, s') => f a s'
    | (Raise e, s') => (Raise e, s')
    end.

Definition raise {S A} (e : exn) : ST S A := fun s => (Raise e, s).

(** [try: m  except Exception as e: h e] *)
Definition try_except {S A} (m : ST S A) (h : exn -> ST S A) : ST S A :=
  fun s =>
    match m s with
    | (Ok a, s') => (Ok a, s')
    | (Raise e, s') => h e s'
    end.

Definition lift {S A} (r : result A) : ST S A := fun s => (r, s).

#[global] Instance ST_ret {S} : MRet (ST S) := @ret S.
#[global] Instance ST_bind {S} : MBind (ST S) := fun A B f m => bind m f.

(** Code that touches nothing but the world. *)
Abbreviation M := (ST world).

(** [datetime.datetime.now()] *)
Definition now : M datetime :=
  fun w =>
    (Ok {| dt_aware := false; dt_micros := clock w (ticks w) |},
     {| clock := clock w; ticks := S (ticks w); uuids := uuids w;
        drawn := drawn w; rng := rng w; stdout := stdout w |}).

(** [str(uuid.uuid4())] *)
Definition uuid4 : M str :=
  fun w =>
    (Ok (uuids w (drawn w)),
     {| clock := clock w; ticks := ticks w; uuids := uuids w;
        drawn := S (drawn w); rng := rng w; stdout := stdout w |}).

Definition print (line : str) : M unit :=
  fun w =>
    (Ok tt,
     {| clock := clock w; ticks := ticks w; uuids := uuids w;
        drawn := drawn w; rng := rng w; stdout := stdout w ++ [line] |}).

Fixpoint print_all (lines : list str) : M unit :=
  match lines with
  | [] => ret tt
  | line :: lines' => bind (print line) (fun _ => print_all lines')
  end.

(** [random.choice(seq)] for a non-empty [seq]. *)
Definition random_choice `{PyRuntime} {A} (x : A) (seq : list A) : M A :=
  fun w =>
    let '(k, g) := randbelow (rng w) (length (x :: seq)) in
    (Ok (nth (k mod length (x :: seq)) (x :: seq) x),
     {| clock := clock w; ticks := ticks w; uuids := uuids w;
        drawn := drawn w; rng := g; stdout := stdout w |}).


(** * Core data structures *)

(** [given if given else prefix + uuid4()] *)
Definition id_or_fresh (prefix : str) (given : option str) : M str :=
  match given with
  | Some (c :: s) => ret (c :: s)
  | _ => u ← uuid4; ret (prefix ++ u)
  end.

Module AtomicEvidenceCard.
Record t := {
  id : str;
  content : str;
  agent_type : str;
  timestamp : datetime
}.

(** [AtomicEvidenceCard(content, agent_type, timestamp, id)] *)
Definition init (content agent_type : str) (timestamp : option datetime)
    (id : option str) : M t :=
  id ← id_or_fresh (lit "aec_") id;
  timestamp ← match timestamp with
               | Some d => ret d
               | None => now
               end;
  ret {| id := id; content := content; agent_type := agent_type;
         timestamp := timestamp |}.

(** The dict made by [to_dict]. *)
Record data := {
  d_id : str;
  d_content : str;
  d_agent_type : str;
  d_timestamp : str
}.

Definition to_dict `{PyRuntime} (self : t) : data :=
  {| d_id := id self;
     d_content := content self;
     d_agent_type := agent_type self;
     d_timestamp := isoformat (timestamp self) |}.

Definition from_dict `{PyRuntime} (d : data) : M t :=
  timestamp ← match fromisoformat (d_timestamp d) with
               | Some ts => ret ts
               | None => raise ValueError
               end;
  init (d_content d) (d_agent_type d) (Some timestamp) (Some (d_id d)).
End AtomicEvidenceCard.

Module PolicyPathway.
Record t := {
  id : str;
  evidence_card_ids : list str;
  linked_insight_id : option str
}.

(** [PolicyPathway(evidence_card_ids, pathway_id, linked_insight_id)] *)
Definition init (evidence_card_ids : list str) (pathway_id : option str)
    (linked_insight_id : option str) : M t :=
  id ← id_or_fresh (lit "pp_") pathway_id;
  ret {| id := id; evidence_card_ids := evidence_card_ids;
         linked_insight_id := linked_insight_id |}.

(** [pathway.linked_insight_id = v] *)
Definition set_linked_insight_id (p : t) (v : option str) : t :=
  {| id := id p;
     evidence_card_ids := evidence_card_ids p;
     linked_insight_id := v |}.

Record data := {
  d_id : str;
  d_evidence_card_ids : list str;
  d_linked_insight_id : option str
}.

Definition to_dict (self : t) : data :=
  {| d_id := id self;
     d_evidence_card_ids := evidence_card_ids self;
     d_linked_insight_id := linked_insight_id self |}.

Definition from_dict (d : data) : M t :=
  init (d_evidence_card_ids d) (Some (d_id d)) (d_linked_insight_id d).
End PolicyPathway.

Module Insight.
Record t := {
  id : str;
  content : str;
  source_pathway_id : str
}.

(** [Insight(content, source_pathway_id, insight_id)] *)
Definition init (content source_pathway_id : str) (insight_id : option str)
    : M t :=
  id ← id_or_fresh (lit "insight_") insight_id;
  ret {| id := id; content := content;
         source_pathway_id := source_pathway_id |}.

Record data := {
  d_id : str;
  d_content : str;
  d_source_pathway_id : str
}.

Definition to_dict (self : t) : data :=
  {| d_id := id self;
     d_content := content self;
     d_source_pathway_id := source_pathway_id self |}.

Definition from_dict (d : data) : M t :=
  init (d_content d) (d_source_pathway_id d) (Some (d_id d)).
End Insight.

(** [sorted(cards, key=lambda c: c.timestamp)], and
    [cards.sort(key=lambda x: x.timestamp)] *)
Definition sorted_by_timestamp (cards : list AtomicEvidenceCard.t)
  : result (list AtomicEvidenceCard.t) :=
  sorted_raising
    (fun a b => dt_lt (AtomicEvidenceCard.timestamp a)
                  (AtomicEvidenceCard.timestamp b))
    cards.

(** ** MemoryStore

    The three dicts hold objects by reference.  The store files an
    object under its own id, and no code of the package assigns to an
    id, so an object that reaches a store through its methods sits under
    one key of it; the one update in place, of a pathway's link, is
    written here as an update of the value under that key.  A loop that
    appends to a list is written as a recursion that builds the list in
    the same order. *)

Module MemoryStore.
Record t := {
  insights : dict Insight.t;
  pathways : dict PolicyPathway.t;
  evidence : dict AtomicEvidenceCard.t
}.

(** [MemoryStore()] *)
Definition new : t := {| insights := []; pathways := []; evidence := [] |}.

Definition add_evidence_card (card : AtomicEvidenceCard.t) (self : t) : t :=
  {| insights := insights self;
     pathways := pathways self;
     evidence := dict_set (evidence self) (AtomicEvidenceCard.id card) card |}.

Definition add_policy_pathway (pathway : PolicyPathway.t) (self : t) : t :=
  {| insights := insights self;
     pathways := dict_set (pathways self) (PolicyPathway.id pathway) pathway;
     evidence := evidence self |}.

Definition link_warning (insight : Insight.t) : str :=
  lit "Warning: Source pathway " ++ Insight.source_pathway_id insight
  ++ lit " not found in this store for insight " ++ Insight.id insight
  ++ lit " during linking.".

(** Returns the updated store and the lines printed. *)
Definition add_insight (insight : Insight.t) (self : t) : t * list str :=
  let stored := dict_set (insights self) (Insight.id insight) insight in
  match dict_get (pathways self) (Insight.source_pathway_id insight) with
  | Some pathway =>
      ({| insights := stored;
          pathways :=
            dict_set (pathways self) (Insight.source_pathway_id insight)
              (PolicyPathway.set_linked_insight_id pathway
                 (Some (Insight.id insight)));
          evidence := evidence self |}, [])
  | None =>
      ({| insights := stored;
          pathways := pathways self;
          evidence := evidence self |}, [link_warning insight])
  end.

Definition get_evidence_card (self : t) (card_id : str) :=
  dict_get (evidence self) card_id.
Definition get_policy_pathway (self : t) (pathway_id : str) :=
  dict_get (pathways self) pathway_id.
Definition get_insight (self : t) (insight_id : str) :=
  dict_get (insights self) insight_id.

Definition missing_card_warning (card_id pathway_id : str) : str :=
  lit "Warning: Evidence card with ID '" ++ card_id
  ++ lit "' referenced in pathway '" ++ pathway_id
  ++ lit "' not found in memory store.".

(** The loop of [get_evidence_cards_for_pathway]: the cards found, in
    the order of the ids, and the warnings printed. *)
Fixpoint collect_cards (self : t) (pathway_id : str) (card_ids : list str)
  : list AtomicEvidenceCard.t * list str :=
  match card_ids with
  | [] => ([], [])
  | card_id :: rest =>
      let '(cards, out) := collect_cards self pathway_id rest in
      match get_evidence_card self card_id with
      | Some card => (card :: cards, out)
      | None => (cards, missing_card_warning card_id pathway_id :: out)
      end
  end.

(** Returns the outcome and the lines printed before it. *)
Definition get_evidence_cards_for_pathway (self : t) (pathway_id : str)
  : result (list AtomicEvidenceCard.t) * list str :=
  match get_policy_pathway self pathway_id with
  | None => (Ok [], [])
  | Some pathway =>
      let '(cards, out) :=
        collect_cards self pathway_id
          (PolicyPathway.evidence_card_ids pathway) in
      (sorted_by_timestamp cards, out)
  end.

(** The dict made by [to_dict]; [from_dict] reads each section with
    [data.get(section, {})]. *)
Record data := {
  d_insights : option (dict Insight.data);
  d_pathways : option (dict PolicyPathway.data);
  d_evidence : option (dict AtomicEvidenceCard.data)
}.

Definition to_dict `{PyRuntime} (self : t) : data :=
  {| d_insights := Some (prod_map id Insight.to_dict <$> insights self);
     d_pathways :=
       Some (prod_map id PolicyPathway.to_dict <$> pathways self);
     d_evidence :=
       Some (prod_map id AtomicEvidenceCard.to_dict <$> evidence self) |}.

Fixpoint load_evidence `{PyRuntime} (items : dict AtomicEvidenceCard.data)
    (store : t) : M t :=
  match items with
  | [] => ret store
  | (_, card_data) :: rest =>
      card ← AtomicEvidenceCard.from_dict card_data;
      load_evidence rest (add_evidence_card card store)
  end.

Fixpoint load_pathways (items : dict PolicyPathway.data) (store : t)
  : M t :=
  match items with
  | [] => ret store
  | (_, pathway_data) :: rest =>
      pathway ← PolicyPathway.from_dict pathway_data;
      load_pathways rest (add_policy_pathway pathway store)
  end.

Fixpoint load_insights (items : dict Insight.data) (store : t) : M t :=
  match items with
  | [] => ret store
  | (_, insight_data) :: rest =>
      insight ← Insight.from_dict insight_data;
      let '(store', out) := add_insight insight store in
      _ ← print_all out;
      load_insights rest store'
  end.

Definition from_dict `{PyRuntime} (d : data) : M t :=
  store ← load_evidence (default [] (d_evidence d)) new;
  store ← load_pathways (default [] (d_pathways d)) store;
  load_insights (default [] (d_insights d)) store.
End MemoryStore.


(** ** HDPM *)

Module HDPM.
Record t := {
  positive_memory : MemoryStore.t;
  negative_memory : MemoryStore.t
}.

(** [HDPM()] *)
Definition new : t :=
  {| positive_memory := MemoryStore.new;
     negative_memory := MemoryStore.new |}.

Section Retrieval.
Context `{PyRuntime}.

(** [set(re.sub(r'[^\w\s-]', '', text.lower()).replace('-', ' ').split())] *)
Definition terms (text : str) : gset str :=
  list_to_set
    (str_split_ws py_isspace
       (str_replace_char hyphen space
          (List.filter
             (fun c => re_word c || py_isspace c || (c =? hyphen)%N)
             (str_lower text)))).

(** The scoring loop over [memory_store.insights.items()]. *)
Fixpoint score_insights (query_terms : gset str) (items : dict Insight.t)
  : list (nat * Insight.t) :=
  match items with
  | [] => []
  | (_, insight) :: rest =>
      let insight_terms := terms (Insight.content insight) in
      let score := size (query_terms ∩ insight_terms) in
      if (0 <? score)%nat
      then (score, insight) :: score_insights query_terms rest
      else score_insights query_terms rest
  end.

(** [top_insights], for [top_k > 0]. *)
Definition top_insights (query : str) (memory_store : MemoryStore.t)
    (top_k : Z) : list Insight.t :=
  let scored_insights :=
    score_insights (terms query) (MemoryStore.insights memory_store) in
  let scored_insights :=
    list_sort (fun a b => (a.1 <? b.1)%nat) true scored_insights in
  (take (Z.to_nat top_k) scored_insights).*2.

Definition missing_pathway_warning (insight : Insight.t) : str :=
  lit "Warning: Pathway ID " ++ Insight.source_pathway_id insight
  ++ lit " for insight " ++ Insight.id insight
  ++ lit " not found in store.".

(** The loop that fetches the pathway of each top insight: the
    insights kept, their pathways, and the warnings printed. *)
Fixpoint resolve_pathways (memory_store : MemoryStore.t)
    (top : list Insight.t)
  : list Insight.t * list PolicyPathway.t * list str :=
  match top with
  | [] => ([], [], [])
  | insight :: rest =>
      let '(valid_top_insights, retrieved_pathways, out) :=
        resolve_pathways memory_store rest in
      match MemoryStore.get_policy_pathway memory_store
              (Insight.source_pathway_id insight) with
      | Some pathway =>
          (insight :: valid_top_insights, pathway :: retrieved_pathways,
           out)
      | None =>
          (valid_top_insights, retrieved_pathways,
           missing_pathway_warning insight :: out)
      end
  end.

(** Returns [(valid_top_insights, retrieved_pathways)] and the lines
    printed. *)
Definition _retrieve_relevant_items_from_store (query : str)
    (memory_store : MemoryStore.t) (top_k : Z)
  : list Insight.t * list PolicyPathway.t * list str :=
  if (top_k <=? 0)%Z then ([], [], [])
  else resolve_pathways memory_store (top_insights query memory_store top_k).

Definition global_co_retrieval (self : t) (query : str) (top_k : Z)
  : list Insight.t * list PolicyPathway.t
    * list Insight.t * list PolicyPathway.t * list str :=
  let '(pos_insights, pos_pathways, out1) :=
    _retrieve_relevant_items_from_store query (positive_memory self) top_k in
  let '(neg_insights, neg_pathways, out2) :=
    _retrieve_relevant_items_from_store query (negative_memory self) top_k in
  (pos_insights, pos_pathways, neg_insights, neg_pathways, out1 ++ out2).
End Retrieval.

(** ** Saving and loading

    [from_dict] reads each memory with [data.get(name, {})]. *)
Record data := {
  d_positive_memory : option MemoryStore.data;
  d_negative_memory : option MemoryStore.data
}.

Definition to_dict `{PyRuntime} (self : t) : data :=
  {| d_positive_memory := Some (MemoryStore.to_dict (positive_memory self));
     d_negative_memory := Some (MemoryStore.to_dict (negative_memory self)) |}.

(** The dict [{}]: no section is present. *)
Definition no_sections : MemoryStore.data :=
  {| MemoryStore.d_insights := None;
     MemoryStore.d_pathways := None;
     MemoryStore.d_evidence := None |}.

Definition from_dict `{PyRuntime} (d : data) : M t :=
  positive ← MemoryStore.from_dict (default no_sections (d_positive_memory d));
  negative ← MemoryStore.from_dict (default no_sections (d_negative_memory d));
  ret {| positive_memory := positive; negative_memory := negative |}.

(** ** Scaffolds

    The scaffold builders print through the store lookups they make and
    pass on what these raise: each returns its outcome and the lines
    printed before it. *)
Definition and_then {A B} (m : result A * list str)
    (f : A -> result B * list str) : result B * list str :=
  match m with
  | (Ok a, out) => let '(r, out') := f a in (r, out ++ out')
  | (Raise e, out) => (Raise e, out)
  end.

(** The line feed and the double quote. *)
Definition nl : str := [10%N].
Definition quote : str := [34%N].

Definition insight_bullet (insight : Insight.t) : str :=
  lit "- " ++ Insight.content insight ++ lit " (Source Pathway: "
  ++ Insight.source_pathway_id insight ++ lit ")" ++ nl.

Definition build_planner_scaffold
    (positive_insights negative_insights : list Insight.t) (query : str)
  : str :=
  let scaffold := lit "### Planner Strategic Briefing ###" ++ nl in
  let scaffold :=
    match positive_insights with
    | _ :: _ =>
        fold_left (fun scaffold insight => scaffold ++ insight_bullet insight)
          positive_insights
          (scaffold ++ lit "# Success Principles (from past experiences):"
           ++ nl)
    | [] =>
        scaffold
        ++ lit "# No specific success principles retrieved for this query."
        ++ nl
    end in
  let scaffold :=
    match negative_insights with
    | _ :: _ =>
        fold_left (fun scaffold insight => scaffold ++ insight_bullet insight)
          negative_insights
          (scaffold ++ nl
           ++ lit "# Failure Traps to Avoid (from past experiences):" ++ nl)
    | [] =>
        scaffold
        ++ lit "# No specific failure traps retrieved for this query." ++ nl
    end in
  scaffold ++ nl
  ++ lit "# Based on the above, and your general knowledge, formulate a high-level strategic plan for the query: "
  ++ quote ++ query ++ quote ++ nl.

Section Scaffolds.
Context `{PyRuntime}.

(** [d.strftime('%Y-%m-%d %H:%M')] *)
Variable strftime : datetime -> str.

Definition max_cards_per_role : nat := 3.

Definition example_line (card : AtomicEvidenceCard.t) : str :=
  lit "  - Tool/Action: " ++ AtomicEvidenceCard.content card
  ++ lit " (Timestamp: " ++ strftime (AtomicEvidenceCard.timestamp card)
  ++ lit ")" ++ nl.

Definition pathway_separator (pathway : PolicyPathway.t) : str :=
  lit "    (Above from Pathway: " ++ PolicyPathway.id pathway ++ lit ")"
  ++ nl.

Definition no_examples : str :=
  lit "  - No specific examples of this type retrieved." ++ nl.

(** The inner loop of [_format_evidence_for_scaffold], over the cards
    of one pathway. *)
Fixpoint format_cards (agent_role : str)
    (evidence_cards : list AtomicEvidenceCard.t) (text : str)
    (card_count : nat) : str * nat :=
  match evidence_cards with
  | [] => (text, card_count)
  | card :: rest =>
      if (max_cards_per_role <=? card_count)%nat then (text, card_count)
      else if bool_decide (AtomicEvidenceCard.agent_type card = agent_role)
      then format_cards agent_role rest (text ++ example_line card)
             (S card_count)
      else format_cards agent_role rest text card_count
  end.

(** The outer loop, over the pathways. *)
Fixpoint format_pathways (memory_store : MemoryStore.t) (agent_role : str)
    (pathways : list PolicyPathway.t) (text : str) (card_count : nat)
  : result (str * nat) * list str :=
  match pathways with
  | [] => (Ok (text, card_count), [])
  | pathway :: rest =>
      if (max_cards_per_role <=? card_count)%nat
      then (Ok (text, card_count), [])
      else
        and_then
          (MemoryStore.get_evidence_cards_for_pathway memory_store
             (PolicyPathway.id pathway))
          (fun evidence_cards =>
             let '(text, card_count) :=
               format_cards agent_role evidence_cards text card_count in
             let text :=
               match evidence_cards with
               | _ :: _ =>
                   if (card_count <? max_cards_per_role)%nat
                   then text ++ pathway_separator pathway
                   else text
               | [] => text
               end in
             format_pathways memory_store agent_role rest text card_count)
  end.

Definition _format_evidence_for_scaffold (pathways : list PolicyPathway.t)
    (memory_store : MemoryStore.t) (agent_role : str)
  : result str * list str :=
  and_then (format_pathways memory_store agent_role pathways [] 0)
    (fun '(text, _) =>
       (Ok match text with
           | [] => no_examples
           | _ :: _ => text
           end, [])).

Definition build_assistant_scaffold (self : t)
    (positive_pathways negative_pathways : list PolicyPathway.t)
  : result str * list str :=
  let scaffold := lit "### Assistant Execution Handbook ###" ++ nl in
  let scaffold :=
    scaffold
    ++ lit "# Successful Tool Usage Examples (from positive pathways):"
    ++ nl in
  and_then
    (_format_evidence_for_scaffold positive_pathways (positive_memory self)
       (lit "Assistant"))
    (fun examples =>
       let scaffold := scaffold ++ examples in
       let scaffold :=
         scaffold ++ nl
         ++ lit "# Caution - Past Issues & Failed Tool Usage (from negative pathways):"
         ++ nl in
       and_then
         (_format_evidence_for_scaffold negative_pathways
            (negative_memory self) (lit "Assistant"))
         (fun examples =>
            let scaffold := scaffold ++ examples in
            (Ok (scaffold ++ nl
                 ++ lit "# When executing the new plan, aim to replicate successful patterns and strictly avoid known failure modes related to tool usage or parameters."
                 ++ nl), []))).

Definition build_critic_scaffold (self : t)
    (positive_pathways negative_pathways : list PolicyPathway.t)
  : result str * list str :=
  let scaffold := lit "### Critic Evaluation Essentials ###" ++ nl in
  let scaffold :=
    scaffold
    ++ lit "# Key Indicators from Successful Evaluations (from positive pathways):"
    ++ nl in
  and_then
    (_format_evidence_for_scaffold positive_pathways (positive_memory self)
       (lit "Critic"))
    (fun examples =>
       let scaffold := scaffold ++ examples in
       let scaffold :=
         scaffold ++ nl
         ++ lit "# Common Pitfalls & Defect Signatures from Failed Cases (from negative pathways):"
         ++ nl in
       and_then
         (_format_evidence_for_scaffold negative_pathways
            (negative_memory self) (lit "Critic"))
         (fun examples =>
            let scaffold := scaffold ++ examples in
            (Ok (scaffold ++ nl
                 ++ lit "# During your evaluation, pay close attention to replicating conditions that led to success and be vigilant for any signs of previously observed failure characteristics."
                 ++ nl), []))).

(** The dict of prompts, with the keys in the order of the display. *)
Definition generate_role_specific_prompts (self : t) (query : str)
    (top_k_retrieval : Z) : result (dict str) * list str :=
  let top_k_retrieval :=
    if (top_k_retrieval <=? 0)%Z then 1%Z else top_k_retrieval in
  let '(pos_insights, pos_pathways, neg_insights, neg_pathways, out) :=
    global_co_retrieval self query top_k_retrieval in
  and_then (Ok tt, out)
    (fun _ =>
       let planner := build_planner_scaffold pos_insights neg_insights query in
       and_then (build_assistant_scaffold self pos_pathways neg_pathways)
         (fun assistant =>
            and_then (build_critic_scaffold self pos_pathways neg_pathways)
              (fun critic =>
                 (Ok [(lit "Planner", planner);
                      (lit "Assistant", assistant);
                      (lit "Critic", critic)], [])))).
End Scaffolds.
End HDPM.


(** ** ReflectAgent *)

Module ReflectAgent.
Record t := { llm_simulation_mode : str }.

(** The four lists gathered by the keyword scan. *)
Record keywords := {
  success : list str;
  failure : list str;
  tool_used : list str;
  critical_feedback : list str
}.

Section Pipeline.
Context `{PyRuntime}.

Definition parse_warning (ev : event) (e : exn) : str :=
  lit "Warning: Could not parse event in trajectory: " ++ event_str ev
  ++ lit ". Error: " ++ error_str ev e.

(** [now() - timedelta(seconds=len(trajectory)-i)] *)
Definition synthetic_timestamp (n i : nat) : M datetime :=
  d ← now; ret (dt_minus_seconds d (Z.of_nat n - Z.of_nat i)).

(** One turn of the loop of [atomize] over a trajectory of [n] steps:
    the card appended for step [i]. *)
Definition atomize_event (n i : nat) (ev : event)
  : M AtomicEvidenceCard.t :=
  try_except
    (match ev with
     | EventOther => raise AttributeError
     | EventDict action_content agent_type timestamp_str =>
         let content :=
           default (lit "Step " ++ str_of_nat (i + 1)
                    ++ lit " content missing") action_content in
         let agent_type := default (lit "UnknownAgent") agent_type in
         timestamp ←
           (if truthy timestamp_str then
              match timestamp_str with
              | Some (PyStr s) =>
                  match fromisoformat s with
                  | Some d => ret d
                  | None => raise ValueError
                  end
              | _ => raise TypeError
              end
            else synthetic_timestamp n i);
         AtomicEvidenceCard.init content agent_type (Some timestamp) None
     end)
    (fun e =>
       _ ← print (parse_warning ev e);
       timestamp ← synthetic_timestamp n i;
       AtomicEvidenceCard.init
         (lit "Error parsing event: " ++ take 100 (event_str ev))
         (lit "SystemError") (Some timestamp) None).

Fixpoint atomize_loop (n i : nat) (trajectory : list event)
  : M (list AtomicEvidenceCard.t) :=
  match trajectory with
  | [] => ret []
  | ev :: rest =>
      card ← atomize_event n i ev;
      cards ← atomize_loop n (S i) rest;
      ret (card :: cards)
  end.

Definition atomize (trajectory : list event)
  : M (list AtomicEvidenceCard.t) :=
  evidence_cards ← atomize_loop (length trajectory) 0 trajectory;
  lift (sorted_by_timestamp evidence_cards).

Definition serialize (evidence_cards : list AtomicEvidenceCard.t)
  : M PolicyPathway.t :=
  match evidence_cards with
  | [] => PolicyPathway.init [] None None
  | _ =>
      sorted_cards ← lift (sorted_by_timestamp evidence_cards);
      PolicyPathway.init (AtomicEvidenceCard.id <$> sorted_cards)
        None None
  end.

(** [memory_store.get_evidence_cards_for_pathway(pathway.id)] with
    its output sent to the world. *)
Definition fetch_cards (memory_store : MemoryStore.t) (pathway_id : str)
  : M (list AtomicEvidenceCard.t) :=
  let '(r, out) :=
    MemoryStore.get_evidence_cards_for_pathway memory_store pathway_id in
  _ ← print_all out; lift r.

Definition mentions (words : list str) (text : str) : bool :=
  existsb (fun w => str_contains w (str_lower text)) words.

(** The body of the scan loop for one card. *)
Definition scan_card (kw : keywords) (card : AtomicEvidenceCard.t)
  : keywords :=
  let content := AtomicEvidenceCard.content card in
  let agent := AtomicEvidenceCard.agent_type card in
  let parts := str_split_char space content in
  {| success :=
       if mentions [lit "success"; lit "good"; lit "resolved"] content
       then success kw ++ [content] else success kw;
     failure :=
       if mentions [lit "fail"; lit "error"; lit "issue"] content
       then failure kw ++ [content] else failure kw;
     tool_used :=
       if bool_decide (agent = lit "Assistant")
          && (1 <? length parts)%nat
          && mentions [lit "tool"; lit "used"] (nth 0 parts [])
       then tool_used kw
            ++ [if (1 <? length parts)%nat then nth 1 parts []
                else content]
       else tool_used kw;
     critical_feedback :=
       if bool_decide (agent = lit "Critic")
          && mentions [lit "warning"; lit "problem"; lit "bad"] content
       then critical_feedback kw ++ [content]
       else critical_feedback kw |}.

Definition is_empty {A} (l : list A) : bool :=
  match l with [] => true | _ => false end.

(** The text composed from the cards of a pathway that has some. *)
Definition compose_keywords (pathway_cards : list AtomicEvidenceCard.t)
    (result : Z) : str :=
  let kw :=
    fold_left scan_card pathway_cards
      {| success := []; failure := []; tool_used := [];
         critical_feedback := [] |} in
  let outcome_prefix :=
    if (result =? 1)%Z then lit "Success Principle: "
    else lit "Failure Trap: " in
  let planner_card_content :=
    if is_empty pathway_cards then []
    else
      match List.find
              (fun card =>
                 bool_decide
                   (AtomicEvidenceCard.agent_type card = lit "Planner"))
              pathway_cards with
      | Some first_planner_card =>
          lit "Context: "
          ++ AtomicEvidenceCard.content first_planner_card ++ lit ". "
      | None => []
      end in
  let distilled_text := outcome_prefix ++ planner_card_content in
  let distilled_text :=
    if (result =? 1)%Z && negb (is_empty (success kw)) then
      distilled_text ++ lit "Key success factors: "
      ++ str_join (lit "; ") (take 1 (success kw)) ++ lit ". "
    else if (result =? -1)%Z && negb (is_empty (failure kw)) then
      distilled_text ++ lit "Key failure points: "
      ++ str_join (lit "; ") (take 1 (failure kw)) ++ lit ". "
    else distilled_text in
  let distilled_text :=
    if negb (is_empty (tool_used kw)) then
      distilled_text ++ lit "Tools of note: "
      ++ str_join (lit ", ") (take 1 (set_order (tool_used kw)))
      ++ lit ". "
    else distilled_text in
  let distilled_text :=
    if (result =? -1)%Z && negb (is_empty (critical_feedback kw)) then
      distilled_text ++ lit "Critical feedback: "
      ++ str_join (lit "; ") (take 1 (critical_feedback kw)) ++ lit ". "
    else distilled_text in
  let initial_meaningful_length :=
    (length outcome_prefix + length planner_card_content)%nat in
  let distilled_text :=
    if (length distilled_text <=? initial_meaningful_length + 5)%nat then
      if is_empty pathway_cards then
        distilled_text ++ lit "General pathway recorded (no cards)."
      else if is_empty (success kw) && is_empty (failure kw)
              && is_empty (tool_used kw)
              && is_empty (critical_feedback kw) then
        distilled_text
        ++ lit "General observation from path. First step: "
        ++ take 50
             (match pathway_cards with
              | card :: _ => AtomicEvidenceCard.content card
              | [] => []
              end)
        ++ lit "..."
      else
        distilled_text ++ lit "Summary based on "
        ++ str_of_nat (length pathway_cards) ++ lit " steps."
    else distilled_text in
  take 300 distilled_text.

Definition _distill_insight_content_simple_keywords
    (pathway : PolicyPathway.t) (memory_store : MemoryStore.t)
    (result : Z) : M str :=
  pathway_cards ← fetch_cards memory_store (PolicyPathway.id pathway);
  if is_empty pathway_cards
  then ret (lit "No evidence cards found for this pathway to distill insight.")
  else ret (compose_keywords pathway_cards result).

Definition _distill_insight_content_random_choice
    (pathway : PolicyPathway.t) (memory_store : MemoryStore.t)
    (result : Z) : M str :=
  pathway_cards ← fetch_cards memory_store (PolicyPathway.id pathway);
  match pathway_cards with
  | [] => ret (lit "No cards in pathway to distill insight from.")
  | card :: cards =>
      chosen_card ← random_choice card cards;
      let outcome_prefix :=
        if (result =? 1)%Z then lit "Success Principle (random pick): "
        else lit "Failure Trap (random pick): " in
      ret (outcome_prefix
           ++ take 150 (AtomicEvidenceCard.content chosen_card))
  end.

Definition distill (self : t) (policy_pathway : PolicyPathway.t)
    (memory_store_for_pathway_cards : MemoryStore.t) (result : Z)
  : M Insight.t :=
  content ←
    (if bool_decide (llm_simulation_mode self = lit "simple_keywords")
     then _distill_insight_content_simple_keywords policy_pathway
            memory_store_for_pathway_cards result
     else if bool_decide (llm_simulation_mode self = lit "random_choice")
     then _distill_insight_content_random_choice policy_pathway
            memory_store_for_pathway_cards result
     else ret (lit "Distillation mode '" ++ llm_simulation_mode self
               ++ lit "' not recognized. Default insight generated."));
  Insight.init content (PolicyPathway.id policy_pathway) None.

(** ** update_memory

    The state is the HDPM instance together with the world. *)
Definition on_world {A} (m : M A) : ST (HDPM.t * world) A :=
  fun '(h, w) => let '(r, w') := m w in (r, (h, w')).

(** [hdpm.positive_memory if result == 1 else hdpm.negative_memory] *)
Definition target_memory_store (result : Z) (h : HDPM.t) : MemoryStore.t :=
  if (result =? 1)%Z then HDPM.positive_memory h
  else HDPM.negative_memory h.

Definition set_target_memory_store (result : Z) (store : MemoryStore.t)
    (h : HDPM.t) : HDPM.t :=
  if (result =? 1)%Z
  then {| HDPM.positive_memory := store;
          HDPM.negative_memory := HDPM.negative_memory h |}
  else {| HDPM.positive_memory := HDPM.positive_memory h;
          HDPM.negative_memory := store |}.

Definition read_target (result : Z) : ST (HDPM.t * world) MemoryStore.t :=
  fun '(h, w) => (Ok (target_memory_store result h), (h, w)).

Definition write_target (result : Z) (store : MemoryStore.t)
  : ST (HDPM.t * world) unit :=
  fun '(h, w) => (Ok tt, (set_target_memory_store result store h, w)).

Definition updated_message (result : Z) (insight : Insight.t)
    (policy_pathway : PolicyPathway.t) (count : nat) : str :=
  lit "ReflectAgent: Updated "
  ++ (if (result =? 1)%Z then lit "Positive" else lit "Negative")
  ++ lit " Memory. Added: 1 Insight (ID: " ++ Insight.id insight
  ++ lit "), 1 Pathway (ID: " ++ PolicyPathway.id policy_pathway
  ++ lit "), " ++ str_of_nat count ++ lit " Evidence Cards.".

Definition update_memory (self : t) (trajectory : list event)
    (result : Z)
  : ST (HDPM.t * world)
      (option Insight.t * option PolicyPathway.t
       * list AtomicEvidenceCard.t) :=
  if is_empty trajectory then
    _ ← on_world
          (print (lit "Warning: Empty trajectory provided. Nothing to update in memory."));
    ret (None, None, [])
  else
    evidence_cards ← on_world (atomize trajectory);
    if is_empty evidence_cards then
      _ ← on_world
            (print (lit "Warning: Atomization resulted in no evidence cards. Memory not updated."));
      ret (None, None, [])
    else
      policy_pathway ← on_world (serialize evidence_cards);
      store ← read_target result;
      _ ← write_target result
            (fold_left (fun s card => MemoryStore.add_evidence_card card s)
               evidence_cards store);
      store ← read_target result;
      _ ← write_target result
            (MemoryStore.add_policy_pathway policy_pathway store);
      store ← read_target result;
      insight ← on_world (distill self policy_pathway store result);
      store ← read_target result;
      let '(store', out) := MemoryStore.add_insight insight store in
      _ ← write_target result store';
      _ ← on_world (print_all out);
      _ ← on_world
            (print (updated_message result insight policy_pathway
                      (length evidence_cards)));
      (* the pathway returned is the object held by the store, which
         [add_insight] has just linked *)
      ret (Some insight,
           Some (PolicyPathway.set_linked_insight_id policy_pathway
                   (Some (Insight.id insight))),
           evidence_cards).
End Pipeline.
End ReflectAgent.


(** * Notions used by the properties *)

(** ** Sequences of store operations *)

Inductive store_op :=
  | AddEvidenceCard (card : AtomicEvidenceCard.t)
  | AddPolicyPathway (pathway : PolicyPathway.t)
  | AddInsight (insight : Insight.t).

Definition apply_op (s : MemoryStore.t) (op : store_op) : MemoryStore.t :=
  match op with
  | AddEvidenceCard card => MemoryStore.add_evidence_card card s
  | AddPolicyPathway pathway => MemoryStore.add_policy_pathway pathway s
  | AddInsight insight => (MemoryStore.add_insight insight s).1
  end.

Definition run_ops (ops : list store_op) (s : MemoryStore.t) : MemoryStore.t :=
  fold_left apply_op ops s.

(** The insight-link of the pathway filed under [pathway_id]: [None] when
    there is no such pathway, [Some None] when it is not linked. *)
Definition link_of (s : MemoryStore.t) (pathway_id : str)
  : option (option str) :=
  PolicyPathway.linked_insight_id <$> MemoryStore.get_policy_pathway s pathway_id.

(** An operation that cannot move the link of [pathway_id] away from
    [link]. *)
Definition keeps_link (pathway_id link : str) (op : store_op) : Prop :=
  match op with
  | AddEvidenceCard _ => True
  | AddPolicyPathway pathway => PolicyPathway.id pathway ≠ pathway_id
  | AddInsight insight =>
      Insight.source_pathway_id insight = pathway_id →
      Insight.id insight = link
  end.

(** ** Stores as the operations build them

    Every entity is filed under its own id, ids are not empty (the
    constructors replace an empty id by a fresh one), and a dict holds a
    key once. *)
Definition filed_by_id {V} (id_of : V → str) (d : dict V) : Prop :=
  NoDup (dict_keys d) ∧ Forall (fun kv => kv.1 = id_of kv.2 ∧ kv.1 ≠ []) d.

Definition store_wf (s : MemoryStore.t) : Prop :=
  filed_by_id Insight.id (MemoryStore.insights s)
  ∧ filed_by_id PolicyPathway.id (MemoryStore.pathways s)
  ∧ filed_by_id AtomicEvidenceCard.id (MemoryStore.evidence s).

(** The timestamps of the store survive [isoformat] and
    [fromisoformat], as those of Python do. *)
Definition timestamps_round_trip `{PyRuntime} (s : MemoryStore.t) : Prop :=
  Forall
    (fun card =>
       fromisoformat (isoformat (AtomicEvidenceCard.timestamp card))
       = Some (AtomicEvidenceCard.timestamp card))
    (dict_values (MemoryStore.evidence s)).

(** The id of the last insight, in the order of the insights dict, whose
    source is [pathway_id]. *)
Definition last_insight_naming (insights : dict Insight.t) (pathway_id : str)
  : option str :=
  Insight.id <$>
    last (List.filter
            (fun insight =>
               bool_decide (Insight.source_pathway_id insight = pathway_id))
            (dict_values insights)).

(** The link a pathway carries after a reload. *)
Definition reloaded_link (s : MemoryStore.t) (pathway : PolicyPathway.t)
  : option str :=
  match last_insight_naming (MemoryStore.insights s)
          (PolicyPathway.id pathway) with
  | Some insight_id => Some insight_id
  | None => PolicyPathway.linked_insight_id pathway
  end.

(** The operations that [from_dict] replays for a store. *)
Definition replay_ops (s : MemoryStore.t) : list store_op :=
  (AddEvidenceCard <$> dict_values (MemoryStore.evidence s))
  ++ (AddPolicyPathway <$> dict_values (MemoryStore.pathways s))
  ++ (AddInsight <$> dict_values (MemoryStore.insights s)).

(** ** Timestamps of a trajectory *)

(** The timestamp a step supplies, when [atomize] can read one. *)
Definition supplied_timestamp `{PyRuntime} (ev : event) : option datetime :=
  match ev with
  | EventDict _ _ (Some (PyStr (c :: s))) => fromisoformat (c :: s)
  | _ => None
  end.

(** The exception that ends the [try] block of [atomize] on a step:
    the step is not a dict, or its timestamp does not parse. *)
Definition step_error `{PyRuntime} (ev : event) : option exn :=
  match ev with
  | EventOther => Some AttributeError
  | EventDict _ _ ts =>
      if truthy ts then
        match ts with
        | Some (PyStr s) =>
            match fromisoformat s with
            | Some _ => None
            | None => Some ValueError
            end
        | _ => Some TypeError
        end
      else None
  end.

(** A step that [atomize] cannot process. *)
Definition unprocessable `{PyRuntime} (ev : event) : bool :=
  match step_error ev with
  | Some _ => true
  | None => false
  end.

(** A step with a missing or unparseable timestamp. *)
Definition lacks_timestamp `{PyRuntime} (ev : event) : bool :=
  match supplied_timestamp ev with
  | Some _ => false
  | None => true
  end.

(** How many of the steps read the clock. *)
Definition clock_reads `{PyRuntime} (steps : list event) : nat :=
  length (List.filter lacks_timestamp steps).

Definition naive (micros : Z) : datetime :=
  {| dt_aware := false; dt_micros := micros |}.

(** The timestamp of the card for step [i] of [n]: the one supplied, or
    else the clock reading less [n - i] seconds. *)
Definition step_timestamp `{PyRuntime} (n i : nat) (ev : event) (reading : Z)
  : datetime :=
  match supplied_timestamp ev with
  | Some d => d
  | None => naive (reading - (Z.of_nat n - Z.of_nat i) * 1000000)
  end.

(** Trajectories whose cards can be ordered: the timestamps supplied
    carry no UTC offset, or every step supplies one that does. *)
Definition comparable_timestamps `{PyRuntime} (trajectory : list event)
  : Prop :=
  (∀ ev d, ev ∈ trajectory → supplied_timestamp ev = Some d →
           dt_aware d = false)
  ∨ (∀ ev, ev ∈ trajectory →
           ∃ d, supplied_timestamp ev = Some d ∧ dt_aware d = true).

(** A clock that does not run backwards. *)
Definition monotone_clock (w : world) : Prop :=
  ∀ a b : nat, a ≤ b → (clock w a ≤ clock w b)%Z.

(** ** The retrieval algorithm of the specification *)

Module Reference.
Section Reference.
Context `{PyRuntime}.

(** Lowercase; strip every character other than word characters,
    whitespace and hyphen; replace hyphens by spaces; split on
    whitespace into a set of terms. *)
Definition kept (c : N) : bool :=
  re_word c || py_isspace c || bool_decide (c = hyphen).

Definition normalize (text : str) : gset str :=
  list_to_set
    (str_split_ws py_isspace
       ((fun c => if bool_decide (c = hyphen) then space else c)
          <$> List.filter kept (str_lower text))).

(** The size of the intersection of the term set of the content with
    the term set of the query. *)
Definition score (query : str) (insight : Insight.t) : nat :=
  size (normalize (Insight.content insight) ∩ normalize query).

(** The insights of the store, in iteration order, without those of
    score 0. *)
Definition candidates (query : str) (store : MemoryStore.t)
  : list Insight.t :=
  List.filter (fun insight => negb (score query insight =? 0)%nat)
    (dict_values (MemoryStore.insights store)).

(** [ranked] is [found] sorted by score descending, ties keeping the
    order they have in [found]. *)
Definition ranking (query : str) (found ranked : list Insight.t) : Prop :=
  Sorted (fun a b => score query b ≤ score query a) ranked
  ∧ ∀ v : nat,
      List.filter (fun insight => (score query insight =? v)%nat) ranked
      = List.filter (fun insight => (score query insight =? v)%nat) found.
End Reference.
End Reference.

Definition has_pathway (store : MemoryStore.t) (insight : Insight.t) : bool :=
  bool_decide
    (is_Some (MemoryStore.get_policy_pathway store
                (Insight.source_pathway_id insight))).

(** ** Sorting cards by timestamp *)

Definition micros_lt (a b : AtomicEvidenceCard.t) : bool :=
  (dt_micros (AtomicEvidenceCard.timestamp a)
   <? dt_micros (AtomicEvidenceCard.timestamp b))%Z.

Definition micros_of (card : AtomicEvidenceCard.t) : Z :=
  dt_micros (AtomicEvidenceCard.timestamp card).

(** All timestamps naive ([aware = false]) or all aware. *)
Definition awareness (aware : bool) (cards : list AtomicEvidenceCard.t)
  : Prop :=
  Forall (fun card => dt_aware (AtomicEvidenceCard.timestamp card) = aware)
    cards.

(** The order [list.sort] is given for the scored insights. *)
Definition score_lt `{PyRuntime} (query : str) (a b : Insight.t) : bool :=
  (Reference.score query a <? Reference.score query b)%nat.

(** ** Worlds *)

(** The world after [lines] have been printed. *)
Definition printed (lines : list str) (w : world) : world :=
  {| clock := clock w; ticks := ticks w; uuids := uuids w; drawn := drawn w;
     rng := rng w; stdout := stdout w ++ lines |}.

(** ** Filing and linking, as folds *)

(** [d[id_of v] = v] for each [v] in turn. *)
Definition file_all {V} (id_of : V → str) (vs : list V) (d : dict V) : dict V :=
  fold_left (fun acc v => dict_set acc (id_of v) v) vs d.

(** The linking side of [add_insight] on the pathways. *)
Definition link_one (pathways : dict PolicyPathway.t) (insight : Insight.t)
  : dict PolicyPathway.t :=
  match dict_get pathways (Insight.source_pathway_id insight) with
  | Some pathway =>
      dict_set pathways (Insight.source_pathway_id insight)
        (PolicyPathway.set_linked_insight_id pathway
           (Some (Insight.id insight)))
  | None => pathways
  end.

(** Every pathway named by a stored insight is linked to the last
    insight that names it. *)
Definition links_settled (s : MemoryStore.t) : Prop :=
  Forall
    (fun kv => reloaded_link s kv.2 = PolicyPathway.linked_insight_id kv.2)
    (MemoryStore.pathways s).

(** An operation whose entity has an id. *)
Definition op_has_id (op : store_op) : Prop :=
  match op with
  | AddEvidenceCard card => AtomicEvidenceCard.id card ≠ []
  | AddPolicyPathway pathway => PolicyPathway.id pathway ≠ []
  | AddInsight insight => Insight.id insight ≠ []
  end.

(** ** What a sequence of operations files *)

Definition added_cards (ops : list store_op) : list AtomicEvidenceCard.t :=
  omap (fun op => match op with AddEvidenceCard card => Some card | _ => None end)
    ops.

Definition added_insights (ops : list store_op) : list Insight.t :=
  omap (fun op => match op with AddInsight insight => Some insight | _ => None end)
    ops.

(** The last of [vs] whose id is [k], or else [old]. *)
Definition last_filed {V} (id_of : V → str) (k : str) (vs : list V)
    (old : option V) : option V :=
  match last (List.filter (fun v => bool_decide (id_of v = k)) vs) with
  | Some v => Some v
  | None => old
  end.

(** Where an assignment to [d[k]] leaves the keys. *)
Definition keys_after_set {V} (d : dict V) (k : str) : list str :=
  if bool_decide (k ∈ dict_keys d) then dict_keys d else dict_keys d ++ [k].

(** The world after one more UUID has been drawn. *)
Definition drew (w : world) : world :=
  {| clock := clock w; ticks := ticks w; uuids := uuids w;
     drawn := S (drawn w); rng := rng w; stdout := stdout w |}.

(** The id a constructor assigns: the one given unless it is missing or
    empty, and else the prefix of the class followed by a fresh UUID. *)
Definition assigned_id (prefix : str) (given : option str) (w : world) : str :=
  match given with
  | Some (c :: s) => c :: s
  | _ => prefix ++ uuids w (drawn w)
  end.

Definition after_id (given : option str) (w : world) : world :=
  match given with
  | Some (_ :: _) => w
  | _ => drew w
  end.
(** ** What retrieval looks at *)

(** The number of terms that an insight shares with a query. *)
Definition overlap `{PyRuntime} (query : str) (insight : Insight.t) : nat :=
  size (HDPM.terms query ∩ HDPM.terms (Insight.content insight)).

(** The insights that retrieval ranks highest, none for [top_k <= 0]. *)
Definition ranked_top `{PyRuntime} (query : str) (store : MemoryStore.t)
    (top_k : Z) : list Insight.t :=
  if (top_k <=? 0)%Z then [] else HDPM.top_insights query store top_k.
(** ** The cards of a trajectory *)

(** The content and the role of the card for step [i] (from 0): those
    of the step, with the fillers of [atomize] for a missing one, and
    those of the placeholder for a step that cannot be processed. *)
Definition step_content `{PyRuntime} (i : nat) (ev : event) : str :=
  match ev with
  | EventDict action_content _ _ =>
      if unprocessable ev
      then lit "Error parsing event: " ++ take 100 (event_str ev)
      else default (lit "Step " ++ str_of_nat (i + 1)
                    ++ lit " content missing") action_content
  | EventOther => lit "Error parsing event: " ++ take 100 (event_str ev)
  end.

Definition step_agent `{PyRuntime} (ev : event) : str :=
  match ev with
  | EventDict _ agent_type _ =>
      if unprocessable ev then lit "SystemError"
      else default (lit "UnknownAgent") agent_type
  | EventOther => lit "SystemError"
  end.

(** The card for step [j] of a trajectory atomized in world [w]: its id
    comes from the [j]-th UUID drawn, its timestamp from the step or from
    the clock as read after the readings of the steps before. *)
Definition step_card `{PyRuntime} (w : world) (trajectory : list event)
    (j : nat) (ev : event) : AtomicEvidenceCard.t :=
  {| AtomicEvidenceCard.id := lit "aec_" ++ uuids w (drawn w + j);
     AtomicEvidenceCard.content := step_content j ev;
     AtomicEvidenceCard.agent_type := step_agent ev;
     AtomicEvidenceCard.timestamp :=
       step_timestamp (length trajectory) j ev
         (clock w (ticks w + clock_reads (take j trajectory))) |}.

Definition step_cards `{PyRuntime} (w : world) (trajectory : list event)
  : list AtomicEvidenceCard.t :=
  imap (step_card w trajectory) trajectory.

(** The warnings for the steps that cannot be processed. *)
Definition step_warnings `{PyRuntime} (trajectory : list event) : list str :=
  omap (fun ev => ReflectAgent.parse_warning ev <$> step_error ev) trajectory.

(** The world after a trajectory has been atomized: one UUID drawn for
    each step, the clock read for each step without a timestamp, and the
    warnings printed. *)
Definition after_atomize `{PyRuntime} (w : world) (trajectory : list event)
  : world :=
  {| clock := clock w;
     ticks := ticks w + clock_reads trajectory;
     uuids := uuids w;
     drawn := drawn w + length trajectory;
     rng := rng w;
     stdout := stdout w ++ step_warnings trajectory |}.

(** A step stamped with a UTC offset, and a step that is not. *)
Definition stamped_aware `{PyRuntime} (ev : event) : Prop :=
  ∃ d, supplied_timestamp ev = Some d ∧ dt_aware d = true.

Definition stamped_naive `{PyRuntime} (ev : event) : Prop :=
  ∀ d, supplied_timestamp ev = Some d → dt_aware d = false.
(** ** Distilled contents *)

(** The label that opens a distilled content. *)
Definition outcome_prefix (result : Z) : str :=
  if (result =? 1)%Z then lit "Success Principle: " else lit "Failure Trap: ".

Definition random_pick_prefix (result : Z) : str :=
  if (result =? 1)%Z then lit "Success Principle (random pick): "
  else lit "Failure Trap (random pick): ".

(** The world after the generator has moved on to state [g]. *)
Definition reseeded (g : N) (w : world) : world :=
  {| clock := clock w; ticks := ticks w; uuids := uuids w; drawn := drawn w;
     rng := g; stdout := stdout w |}.
(** ** What [update_memory] files *)

(** The operations by which [update_memory] files an experience. *)
Definition filing_ops (cards : list AtomicEvidenceCard.t)
    (pathway : PolicyPathway.t) (insight : Insight.t) : list store_op :=
  (AddEvidenceCard <$> cards)
  ++ [AddPolicyPathway pathway; AddInsight insight].

(** The store that [update_memory] leaves alone. *)
Definition other_memory_store (result : Z) (h : HDPM.t) : MemoryStore.t :=
  if (result =? 1)%Z then HDPM.negative_memory h else HDPM.positive_memory h.

(** The pathway and the insight that [update_memory] makes of the cards
    of a trajectory atomized in world [w]: their ids come from the two
    UUIDs drawn after those of the cards. *)
Definition experience_pathway (w : world) (trajectory : list event)
    (cards : list AtomicEvidenceCard.t) : PolicyPathway.t :=
  {| PolicyPathway.id := lit "pp_" ++ uuids w (drawn w + length trajectory);
     PolicyPathway.evidence_card_ids := AtomicEvidenceCard.id <$> cards;
     PolicyPathway.linked_insight_id := None |}.

Definition experience_insight (w : world) (trajectory : list event)
    (content : str) : Insight.t :=
  {| Insight.id :=
       lit "insight_" ++ uuids w (drawn w + length trajectory + 1);
     Insight.content := content;
     Insight.source_pathway_id :=
       lit "pp_" ++ uuids w (drawn w + length trajectory) |}.
(** ** The pieces of a scaffold *)

(** What [_format_evidence_for_scaffold] appends: the line of a card,
    or the line that closes the cards of a pathway. *)
Inductive chunk :=
  | ExampleLine (card : AtomicEvidenceCard.t)
  | SeparatorLine (pathway : PolicyPathway.t).

Definition render (strftime : datetime → str) (c : chunk) : str :=
  match c with
  | ExampleLine card => HDPM.example_line strftime card
  | SeparatorLine pathway => HDPM.pathway_separator pathway
  end.

Definition examples (chunks : list chunk) : list AtomicEvidenceCard.t :=
  omap (fun c => match c with ExampleLine card => Some card | _ => None end)
    chunks.

(** The cards a store returns for a pathway, none when the lookup
    raises. *)
Definition evidence_of (store : MemoryStore.t) (pathway : PolicyPathway.t)
  : list AtomicEvidenceCard.t :=
  match (MemoryStore.get_evidence_cards_for_pathway store
           (PolicyPathway.id pathway)).1 with
  | Ok cards => cards
  | Raise _ => []
  end.

Definition of_role (agent_role : str) (cards : list AtomicEvidenceCard.t)
  : list AtomicEvidenceCard.t :=
  List.filter
    (fun card => bool_decide (AtomicEvidenceCard.agent_type card = agent_role))
    cards.

(** ** Stores that a reload returns as they are *)

(** Every entity under its own id, timestamps that survive the ISO
    codec, and every pathway that a stored insight names linked to the
    last such insight. *)
Definition reloadable `{PyRuntime} (s : MemoryStore.t) : Prop :=
  store_wf s ∧ timestamps_round_trip s ∧ links_settled s.

(** A UUID source that gives each step of a trajectory an id of its
    own. *)
Definition distinct_uuids (w : world) (n : nat) : Prop :=
  ∀ i j, i < n → j < n → uuids w (drawn w + i) = uuids w (drawn w + j) → i = j.

(** ** Records of a saved store *)

(** The entity a record of a saved store loads to, when the record
    carries an id. *)
Definition card_of_record `{PyRuntime} (r : AtomicEvidenceCard.data)
  : option AtomicEvidenceCard.t :=
  timestamp ← fromisoformat (AtomicEvidenceCard.d_timestamp r);
  Some {| AtomicEvidenceCard.id := AtomicEvidenceCard.d_id r;
          AtomicEvidenceCard.content := AtomicEvidenceCard.d_content r;
          AtomicEvidenceCard.agent_type := AtomicEvidenceCard.d_agent_type r;
          AtomicEvidenceCard.timestamp := timestamp |}.

Definition pathway_of_record (r : PolicyPathway.data) : PolicyPathway.t :=
  {| PolicyPathway.id := PolicyPathway.d_id r;
     PolicyPathway.evidence_card_ids := PolicyPathway.d_evidence_card_ids r;
     PolicyPathway.linked_insight_id := PolicyPathway.d_linked_insight_id r |}.

Definition insight_of_record (r : Insight.data) : Insight.t :=
  {| Insight.id := Insight.d_id r;
     Insight.content := Insight.d_content r;
     Insight.source_pathway_id := Insight.d_source_pathway_id r |}.

(** The records of the three sections of a saved store, in their order. *)
Definition card_records (d : MemoryStore.data)
  : list AtomicEvidenceCard.data :=
  dict_values (default [] (MemoryStore.d_evidence d)).

Definition pathway_records (d : MemoryStore.data) : list PolicyPathway.data :=
  dict_values (default [] (MemoryStore.d_pathways d)).

Definition insight_records (d : MemoryStore.data) : list Insight.data :=
  dict_values (default [] (MemoryStore.d_insights d)).

(** Every record carries an id. *)
Definition records_have_ids (d : MemoryStore.data) : Prop :=
  Forall (fun r => AtomicEvidenceCard.d_id r ≠ []) (card_records d)
  ∧ Forall (fun r => PolicyPathway.d_id r ≠ []) (pathway_records d)
  ∧ Forall (fun r => Insight.d_id r ≠ []) (insight_records d).

(** The operations that [from_dict] runs for the records, given the
    cards that the card records load to. *)
Definition record_ops (cards : list AtomicEvidenceCard.t)
    (d : MemoryStore.data) : list store_op :=
  (AddEvidenceCard <$> cards)
  ++ (AddPolicyPathway <$> (pathway_of_record <$> pathway_records d))
  ++ (AddInsight <$> (insight_of_record <$> insight_records d)).

(** * A runtime to evaluate examples with

    ASCII tables for the character classes, ISO 8601 text of the shape
    [YYYY-MM-DDTHH:MM:SS[.ffffff][Z|+HH:MM|-HH:MM]], first-occurrence
    order for sets and a linear congruential generator. *)

Module AsciiRuntime.
Definition between (lo hi c : N) : bool := ((lo <=? c) && (c <=? hi))%N.

Definition lower (s : str) : str :=
  (fun c => if between 65 90 c then (c + 32)%N else c) <$> s.

Definition word (c : N) : bool :=
  between 48 57 c || between 65 90 c || between 97 122 c || (c =? 95)%N.

Definition isspace (c : N) : bool :=
  between 9 13 c || between 28 32 c.

Definition digit (c : N) : option Z :=
  if between 48 57 c then Some (Z.of_N c - 48)%Z else None.

Fixpoint number (acc : Z) (s : str) : option Z :=
  match s with
  | [] => Some acc
  | c :: s' => d ← digit c; number (acc * 10 + d)%Z s'
  end.

(** Days since 1970-01-01 of a civil date. *)
Definition days_from_civil (y m d : Z) : Z :=
  let y := if (m <=? 2)%Z then (y - 1)%Z else y in
  let era := (y / 400)%Z in
  let yoe := (y - era * 400)%Z in
  let mp := if (2 <? m)%Z then (m - 3)%Z else (m + 9)%Z in
  let doy := ((153 * mp + 2) / 5 + d - 1)%Z in
  let doe := (yoe * 365 + yoe / 4 - yoe / 100 + doy)%Z in
  (era * 146097 + doe - 719468)%Z.

Definition civil_from_days (z : Z) : Z * Z * Z :=
  let z := (z + 719468)%Z in
  let era := (z / 146097)%Z in
  let doe := (z - era * 146097)%Z in
  let yoe := ((doe - doe / 1460 + doe / 36524 - doe / 146096) / 365)%Z in
  let doy := (doe - (365 * yoe + yoe / 4 - yoe / 100))%Z in
  let mp := ((5 * doy + 2) / 153)%Z in
  let d := (doy - (153 * mp + 2) / 5 + 1)%Z in
  let m := if (mp <? 10)%Z then (mp + 3)%Z else (mp - 9)%Z in
  let y := (yoe + era * 400)%Z in
  (if (m <=? 2)%Z then (y + 1)%Z else y, m, d).

Definition field (s : str) (from len : nat) : option Z :=
  let f := take len (drop from s) in
  if (length f =? len)%nat then number 0 f else None.

Definition sep (s : str) (at_ : nat) (c : N) : option unit :=
  match s !! at_ with
  | Some c' => if (c' =? c)%N then Some tt else None
  | None => None
  end.

(** The offset suffix: seconds east of UTC, [None] inside for naive. *)
Definition zone (s : str) : option (option Z) :=
  match s with
  | [] => Some None
  | [90%N] => Some (Some 0%Z)
  | sign :: _ =>
      hh ← field s 1 2; _ ← sep s 3 58; mm ← field s 4 2;
      if (length s =? 6)%nat then
        if (sign =? 43)%N then Some (Some (hh * 3600 + mm * 60)%Z)
        else if (sign =? 45)%N then Some (Some (- (hh * 3600 + mm * 60))%Z)
        else None
      else None
  end.

Definition parse_iso (s : str) : option datetime :=
  y ← field s 0 4; _ ← sep s 4 45; m ← field s 5 2; _ ← sep s 7 45;
  d ← field s 8 2; _ ← sep s 10 84; hh ← field s 11 2; _ ← sep s 13 58;
  mi ← field s 14 2; _ ← sep s 16 58; ss ← field s 17 2;
  '(us, rest) ← match s !! 19%nat with
                 | Some 46%N => us ← field s 20 6; Some (us, drop 26 s)
                 | _ => Some (0%Z, drop 19 s)
                 end;
  off ← zone rest;
  let seconds :=
    (days_from_civil y m d * 86400 + hh * 3600 + mi * 60 + ss)%Z in
  Some
    match off with
    | None => {| dt_aware := false; dt_micros := seconds * 1000000 + us |}
    | Some east =>
        {| dt_aware := true; dt_micros := (seconds - east) * 1000000 + us |}
    end.

Definition padded (width : nat) (z : Z) : str :=
  let ds := digits (N.to_uint (Z.to_N z)) in
  replicate (width - length ds) 48%N ++ ds.

Definition print_iso (d : datetime) : str :=
  let us := (dt_micros d mod 1000000)%Z in
  let seconds := (dt_micros d / 1000000)%Z in
  let '(y, m, dd) := civil_from_days (seconds / 86400) in
  let sod := (seconds mod 86400)%Z in
  padded 4 y ++ [45%N] ++ padded 2 m ++ [45%N] ++ padded 2 dd ++ [84%N]
  ++ padded 2 (sod / 3600) ++ [58%N] ++ padded 2 (sod mod 3600 / 60)
  ++ [58%N] ++ padded 2 (sod mod 60)
  ++ (if (us =? 0)%Z then [] else 46%N :: padded 6 us)
  ++ (if dt_aware d then lit "+00:00" else []).

Definition render_event (ev : event) : str :=
  match ev with
  | EventDict _ _ _ => lit "{...}"
  | EventOther => lit "None"
  end.

Definition render_error (ev : event) (e : exn) : str :=
  match e with
  | TypeError => lit "fromisoformat: argument must be str"
  | ValueError => lit "Invalid isoformat string"
  | AttributeError => lit "object has no attribute 'get'"
  end.

Definition lcg (g : N) (n : nat) : nat * N :=
  let g' := ((g * 1103515245 + 12345) mod 2147483648)%N in
  (N.to_nat (g' mod N.of_nat n), g').

#[global] Instance runtime : PyRuntime := {|
  str_lower := lower;
  re_word := word;
  py_isspace := isspace;
  isoformat := print_iso;
  fromisoformat := parse_iso;
  set_order := remove_dups;
  randbelow := lcg;
  event_str := render_event;
  error_str := render_error
|}.
End AsciiRuntime.

(** * Sample data *)

Definition world0 : world :=
  {| clock := fun k => (1700000000000000 + Z.of_nat k)%Z;
     ticks := 0;
     uuids := fun k => lit "0000-" ++ str_of_nat k;
     drawn := 0;
     rng := 42;
     stdout := [] |}.

Definition sample_pathway : PolicyPathway.t :=
  {| PolicyPathway.id := lit "p1";
     PolicyPathway.evidence_card_ids := [];
     PolicyPathway.linked_insight_id := None |}.

Definition sample_insight (insight_id source : string) : Insight.t :=
  {| Insight.id := lit insight_id;
     Insight.content := lit "SuperFold works for protein Alpha";
     Insight.source_pathway_id := lit source |}.

Definition sample_card (card_id : string) (ts : datetime)
  : AtomicEvidenceCard.t :=
  {| AtomicEvidenceCard.id := lit card_id;
     AtomicEvidenceCard.content := lit "Used SuperFold";
     AtomicEvidenceCard.agent_type := lit "Assistant";
     AtomicEvidenceCard.timestamp := ts |}.

(** A pathway, then an insight distilled from it. *)
Definition linked_store : MemoryStore.t :=
  run_ops [AddPolicyPathway sample_pathway;
           AddInsight (sample_insight "i1" "p1")] MemoryStore.new.

(** Two cards of one pathway, the first stamped with an offset
    ([2023-01-01T10:00:00+00:00]) and the second without
    ([2023-01-01T10:05:00]). *)
Definition mixed_store : MemoryStore.t :=
  run_ops
    [AddEvidenceCard
       (sample_card "e1" {| dt_aware := true; dt_micros := 1672567200000000 |});
     AddEvidenceCard (sample_card "e2" (naive 1672567500000000));
     AddPolicyPathway
       {| PolicyPathway.id := lit "p1";
          PolicyPathway.evidence_card_ids := [lit "e1"; lit "e2"];
          PolicyPathway.linked_insight_id := None |}]
    MemoryStore.new.

(** Three insights and two pathways: the source pathway of [i3] is not
    in the store. *)
Definition retrieval_store : MemoryStore.t :=
  run_ops
    [AddPolicyPathway sample_pathway;
     AddPolicyPathway
       {| PolicyPathway.id := lit "p2";
          PolicyPathway.evidence_card_ids := [];
          PolicyPathway.linked_insight_id := None |};
     AddInsight
       {| Insight.id := lit "i2";
          Insight.content := lit "Energy minimization helps protein Beta.";
          Insight.source_pathway_id := lit "p2" |};
     AddInsight
       {| Insight.id := lit "i3";
          Insight.content := lit "Protein Alpha forms an alpha-helix";
          Insight.source_pathway_id := lit "p9" |};
     AddInsight (sample_insight "i1" "p1")]
    MemoryStore.new.

(** A pathway of three cards, as a reflected trajectory leaves it. *)
Definition card_at (card_id agent text : string) (micros : Z)
  : AtomicEvidenceCard.t :=
  {| AtomicEvidenceCard.id := lit card_id;
     AtomicEvidenceCard.content := lit text;
     AtomicEvidenceCard.agent_type := lit agent;
     AtomicEvidenceCard.timestamp := naive micros |}.

Definition evidence_store : MemoryStore.t :=
  run_ops
    [AddEvidenceCard
       (card_at "e1" "Planner" "Plan: fold protein Alpha" 1672567200000000);
     AddEvidenceCard
       (card_at "e2" "Assistant" "Used SuperFold with success" 1672567500000000);
     AddEvidenceCard
       (card_at "e3" "Critic" "Outcome is good" 1672567800000000);
     AddPolicyPathway
       {| PolicyPathway.id := lit "p1";
          PolicyPathway.evidence_card_ids := [lit "e3"; lit "e1"; lit "e2"];
          PolicyPathway.linked_insight_id := None |}]
    MemoryStore.new.

(** Another world: later, with output already printed, and the same
    generator state as [world0]. *)
Definition world1 : world :=
  {| clock := fun k => (1800000000000000 + 2 * Z.of_nat k)%Z;
     ticks := 7;
     uuids := fun k => lit "ffff-" ++ str_of_nat k;
     drawn := 3;
     rng := 42;
     stdout := [lit "earlier output"] |}.

(** A trajectory of three steps: one with a timestamp, one without,
    and one that is not a dict. *)
Definition sample_trajectory : list event :=
  [EventDict (Some (lit "Plan the fold")) (Some (lit "Planner"))
     (Some (PyStr (lit "2023-01-01T10:00:00")));
   EventDict (Some (lit "Used SuperFold")) None None;
   EventOther].

(** The evidence store after the insight of its pathway is added. *)
Definition reflected_store : MemoryStore.t :=
  run_ops [AddInsight (sample_insight "i1" "p1")] evidence_store.

(** An insight added before the pathway it names. *)
Definition orphan_store : MemoryStore.t :=
  run_ops [AddInsight (sample_insight "i1" "p1");
           AddPolicyPathway sample_pathway] MemoryStore.new.

(** [strftime('%Y-%m-%d %H:%M')] for the sample runtime: the first
    sixteen characters of the ISO text, with a space for the [T]. *)
Definition strftime_minutes (d : datetime) : str :=
  <[10%nat := space]> (take 16 (AsciiRuntime.print_iso d)).

(** A memory whose positive store holds the pathway of [mixed_store]
    together with an insight distilled from it. *)
Definition mixed_memory : HDPM.t :=
  {| HDPM.positive_memory :=
       run_ops [AddInsight (sample_insight "i1" "p1")] mixed_store;
     HDPM.negative_memory := MemoryStore.new |}.

(** Another process: the same tables, codec and generator, and another
    string-hash seed, under which [list(set(l))] comes out in the opposite
    order. *)
Definition other_seed : PyRuntime := {|
  str_lower := AsciiRuntime.lower;
  re_word := AsciiRuntime.word;
  py_isspace := AsciiRuntime.isspace;
  isoformat := AsciiRuntime.print_iso;
  fromisoformat := AsciiRuntime.parse_iso;
  set_order := fun l => rev (remove_dups l);
  randbelow := AsciiRuntime.lcg;
  event_str := AsciiRuntime.render_event;
  error_str := AsciiRuntime.render_error
|}.

(** A pathway on which the assistant used two tools. *)
Definition tools_store : MemoryStore.t :=
  run_ops
    [AddEvidenceCard
       (card_at "e1" "Assistant" "Used ToolA on the target" 1672567200000000);
     AddEvidenceCard
       (card_at "e2" "Assistant" "Used ToolB on the target" 1672567500000000);
     AddPolicyPathway
       {| PolicyPathway.id := lit "p1";
          PolicyPathway.evidence_card_ids := [lit "e1"; lit "e2"];
          PolicyPathway.linked_insight_id := None |}]
    MemoryStore.new.

(** A trajectory of two steps, the first stamped with a UTC offset and
    the second not stamped. *)
Definition mixed_trajectory : list event :=
  [EventDict (Some (lit "Plan the fold")) (Some (lit "Planner"))
     (Some (PyStr (lit "2023-01-01T10:00:00Z")));
   EventDict (Some (lit "Run SuperFold")) (Some (lit "Assistant")) None].

(** A saved store whose one pathway record is kept under a key that is
    not its id. *)
Definition misfiled_data : MemoryStore.data :=
  {| MemoryStore.d_insights := None;
     MemoryStore.d_pathways :=
       Some [(lit "some key", PolicyPathway.to_dict sample_pathway)];
     MemoryStore.d_evidence := None |}.


(** * Properties *)

(** ** Dicts *)

Lemma dict_get_set_eq {V} (d : dict V) k v :
  dict_get (dict_set d k v) k = Some v.
Proof.
  induction d as [|[k' v'] d IH]; simpl.
  - by rewrite decide_True.
  - destruct (decide (k' = k)) as [->|Hne]; simpl.
    + by rewrite decide_True.
    + by rewrite decide_False.
Qed.

Lemma dict_get_set_ne {V} (d : dict V) k k' v :
  k ≠ k' → dict_get (dict_set d k v) k' = dict_get d k'.
Proof.
  intros Hne. induction d as [|[k0 v0] d IH]; simpl.
  - by rewrite decide_False.
  - destruct (decide (k0 = k)) as [->|Hk]; simpl.
    + by rewrite !decide_False.
    + destruct (decide (k0 = k')); [done | apply IH].
Qed.

Lemma dict_keys_set_present {V} (d : dict V) k v :
  is_Some (dict_get d k) → dict_keys (dict_set d k v) = dict_keys d.
Proof.
  unfold dict_keys. induction d as [|[k0 v0] d IH]; simpl.
  - by intros [? ?].
  - destruct (decide (k0 = k)) as [->|Hk]; simpl; [done|].
    intros Hs. f_equal. by apply IH.
Qed.

Lemma dict_keys_set_absent {V} (d : dict V) k v :
  dict_get d k = None → dict_keys (dict_set d k v) = dict_keys d ++ [k].
Proof.
  unfold dict_keys. induction d as [|[k0 v0] d IH]; simpl; [done|].
  destruct (decide (k0 = k)) as [->|Hk]; simpl; [done|].
  intros Hs. f_equal. by apply IH.
Qed.

Lemma dict_get_None_keys {V} (d : dict V) k :
  dict_get d k = None ↔ k ∉ dict_keys d.
Proof.
  unfold dict_keys. induction d as [|[k0 v0] d IH]; simpl.
  - split; [intros _; apply not_elem_of_nil | done].
  - rewrite not_elem_of_cons. destruct (decide (k0 = k)) as [->|Hk].
    + split; [done | intros [? _]; done].
    + rewrite IH. split; [by intros ? | by intros [_ ?]].
Qed.

Lemma dict_get_Some_elem {V} (d : dict V) k v :
  dict_get d k = Some v → (k, v) ∈ d.
Proof.
  induction d as [|[k0 v0] d IH]; simpl; [done|].
  destruct (decide (k0 = k)) as [->|Hk].
  - intros [= ->]. apply elem_of_cons; by left.
  - intros Hg. apply elem_of_cons; right; by apply IH.
Qed.

(** Assigning to a key that is present rewrites the first item with
    that key and leaves every other item as it is. *)
Lemma dict_set_items {V} (P : V → Prop) (d : dict V) k v :
  (∀ x, dict_get d k = Some x → P x) →
  is_Some (dict_get d k) →
  Forall2 (fun old new => new = old ∨ (old.1 = k ∧ new = (k, v) ∧ P old.2))
    d (dict_set d k v).
Proof.
  induction d as [|[k0 v0] d IH]; simpl.
  - by intros _ [? ?].
  - destruct (decide (k0 = k)) as [->|Hk]; simpl; intros HP Hs.
    + constructor; [right; auto|].
      apply Forall_Forall2_diag, Forall_forall. by left.
    + constructor; [by left | by apply IH].
Qed.

(** ** MemoryStore.add_insight *)

(** C3.  [add_insight] files the insight under its id.  When the source
    pathway is a key of the pathways, the pathway filed there gets the
    insight's id as its link and nothing is printed; otherwise the
    pathways stay as they are and one warning is printed.  The function
    is total: it returns in both cases. *)
Theorem add_insight_stores_and_links (s : MemoryStore.t) (i : Insight.t) :
  MemoryStore.get_insight (MemoryStore.add_insight i s).1 (Insight.id i)
  = Some i
  ∧ match MemoryStore.get_policy_pathway s (Insight.source_pathway_id i) with
    | Some p =>
        MemoryStore.get_policy_pathway (MemoryStore.add_insight i s).1
          (Insight.source_pathway_id i)
        = Some (PolicyPathway.set_linked_insight_id p (Some (Insight.id i)))
        ∧ link_of (MemoryStore.add_insight i s).1 (Insight.source_pathway_id i)
          = Some (Some (Insight.id i))
        ∧ (MemoryStore.add_insight i s).2 = []
    | None =>
        MemoryStore.pathways (MemoryStore.add_insight i s).1
        = MemoryStore.pathways s
        ∧ (MemoryStore.add_insight i s).2 = [MemoryStore.link_warning i]
    end.
Proof.
  unfold MemoryStore.add_insight, MemoryStore.get_insight, link_of,
    MemoryStore.get_policy_pathway.
  destruct (dict_get (MemoryStore.pathways s) (Insight.source_pathway_id i))
    as [p|] eqn:Hp; simpl; rewrite !dict_get_set_eq; auto.
Qed.


(** C10.  Frame of [add_insight]: the evidence is untouched; every
    insight filed under another id is untouched; every pathway filed
    under another key than the source pathway id is untouched; the
    pathways keep their keys and order, and each of them, the linked one
    too, keeps its id and its list of evidence ids. *)
Theorem add_insight_frame (s : MemoryStore.t) (i : Insight.t) :
  MemoryStore.evidence (MemoryStore.add_insight i s).1 = MemoryStore.evidence s
  ∧ (∀ k, k ≠ Insight.id i →
       MemoryStore.get_insight (MemoryStore.add_insight i s).1 k
       = MemoryStore.get_insight s k)
  ∧ (∀ k, k ≠ Insight.source_pathway_id i →
       MemoryStore.get_policy_pathway (MemoryStore.add_insight i s).1 k
       = MemoryStore.get_policy_pathway s k)
  ∧ Forall2
      (fun old new =>
         new.1 = old.1
         ∧ PolicyPathway.id new.2 = PolicyPathway.id old.2
         ∧ PolicyPathway.evidence_card_ids new.2
           = PolicyPathway.evidence_card_ids old.2
         ∧ (old.1 ≠ Insight.source_pathway_id i → new = old))
      (MemoryStore.pathways s)
      (MemoryStore.pathways (MemoryStore.add_insight i s).1).
Proof.
  unfold MemoryStore.add_insight, MemoryStore.get_insight,
    MemoryStore.get_policy_pathway.
  destruct (dict_get (MemoryStore.pathways s) (Insight.source_pathway_id i))
    as [p|] eqn:Hp; simpl.
  - split; [done|]. split; [intros k Hk; by apply dict_get_set_ne|].
    split; [intros k Hk; by apply dict_get_set_ne|].
    eapply Forall2_impl.
    + apply (dict_set_items (fun x => x = p)); [|by rewrite Hp].
      intros x Hx. congruence.
    + intros [k0 p0] [k1 p1] [->|(Hk & -> & Hq)]; simpl in *; [done|].
      subst. done.
  - split; [done|]. split; [intros k Hk; by apply dict_get_set_ne|].
    split; [done|].
    apply Forall_Forall2_diag, Forall_forall. done.
Qed.

(** ** The insight-link over sequences of operations *)

Lemma link_of_apply_op (s : MemoryStore.t) (op : store_op) (pid : str) :
  link_of (apply_op s op) pid
  = match op with
    | AddEvidenceCard _ => link_of s pid
    | AddPolicyPathway p =>
        if decide (PolicyPathway.id p = pid)
        then Some (PolicyPathway.linked_insight_id p)
        else link_of s pid
    | AddInsight i =>
        if decide (Insight.source_pathway_id i = pid)
        then (fun _ => Some (Insight.id i)) <$> link_of s pid
        else link_of s pid
    end.
Proof.
  unfold link_of, MemoryStore.get_policy_pathway.
  destruct op as [c|p|i]; simpl.
  - done.
  - destruct (decide (PolicyPathway.id p = pid)) as [<-|Hne].
    + by rewrite dict_get_set_eq.
    + by rewrite dict_get_set_ne.
  - unfold MemoryStore.add_insight.
    destruct (dict_get (MemoryStore.pathways s) (Insight.source_pathway_id i))
      as [p|] eqn:Hp; simpl.
    + destruct (decide (Insight.source_pathway_id i = pid)) as [<-|Hne].
      * by rewrite dict_get_set_eq, Hp.
      * by rewrite dict_get_set_ne.
    + destruct (decide (Insight.source_pathway_id i = pid)) as [<-|Hne];
        [by rewrite Hp | done].
Qed.

(** C4, as the code has it.  The link is not written once only: each
    [add_insight] naming the pathway overwrites it.  What holds is that a
    link set to [l] stays [l] over every sequence of operations in which
    no [add_insight] names the pathway with another insight id and no
    [add_policy_pathway] files a pathway under the same id again. *)
Theorem link_kept_unless_relinked (s : MemoryStore.t) (pid l : str)
    (ops : list store_op) :
  link_of s pid = Some (Some l) →
  Forall (keeps_link pid l) ops →
  link_of (run_ops ops s) pid = Some (Some l).
Proof.
  unfold run_ops. intros Hl Hops. revert s Hl.
  induction Hops as [|op ops Hop _ IH]; intros s Hl; simpl; [done|].
  apply IH. rewrite link_of_apply_op.
  destruct op as [c|p|i]; simpl in Hop.
  - done.
  - by rewrite decide_False.
  - destruct (decide (Insight.source_pathway_id i = pid)) as [Heq|Hne];
      [|done].
    rewrite Hl. simpl. by rewrite (Hop Heq).
Qed.

Lemma link_kept_unless_relinked_witness :
  link_of
    (run_ops
       [AddEvidenceCard (sample_card "e1" (naive 0));
        AddInsight (sample_insight "i9" "p2");
        AddInsight (sample_insight "i1" "p1")]
       linked_store)
    (lit "p1")
  = Some (Some (lit "i1")).
Proof.
  apply link_kept_unless_relinked.
  - reflexivity.
  - repeat constructor; simpl; intros Heq; vm_compute in Heq; congruence.
Defined.

(** C4, as the claim has it, fails: a second [add_insight] naming the
    pathway replaces the link written by the first. *)
Lemma link_overwritten_by_later_insight :
  link_of linked_store (lit "p1") = Some (Some (lit "i1"))
  ∧ link_of (apply_op linked_store (AddInsight (sample_insight "i2" "p1")))
      (lit "p1")
    = Some (Some (lit "i2"))
  ∧ lit "i2" ≠ lit "i1".
Proof. split; [reflexivity|]. split; [reflexivity|]. by vm_compute. Qed.

(** ** Sorting *)

Section SortingFacts.
Context {A : Type} (key : A → Z) (lt : A → A → bool).
Hypothesis lt_key : ∀ a b, lt a b = (key a <? key b)%Z.

Lemma sort_insert_perm x l : sort_insert lt x l ≡ₚ x :: l.
Proof.
  induction l as [|y l IH]; simpl; [done|].
  destruct (lt y x); [|done].
  rewrite IH. apply perm_swap.
Qed.

Lemma sort_stable_perm l : sort_stable lt l ≡ₚ l.
Proof.
  induction l as [|x l IH]; simpl; [done|].
  by rewrite sort_insert_perm, IH.
Qed.

Lemma sort_insert_sorted x l :
  Sorted (fun a b => (key a ≤ key b)%Z) l →
  Sorted (fun a b => (key a ≤ key b)%Z) (sort_insert lt x l).
Proof using lt_key.
  induction l as [|y l IH]; simpl; intros Hs.
  - repeat constructor.
  - rewrite lt_key. destruct (Z.ltb_spec (key y) (key x)) as [Hlt|Hge].
    + apply Sorted_inv in Hs as [Hs Hhd]. constructor; [by apply IH|].
      destruct l as [|z l]; simpl.
      * constructor; lia.
      * rewrite lt_key. apply HdRel_inv in Hhd.
        destruct (Z.ltb_spec (key z) (key x)); constructor; lia.
    + constructor; [done | constructor; lia].
Qed.

Lemma sort_stable_sorted l :
  Sorted (fun a b => (key a ≤ key b)%Z) (sort_stable lt l).
Proof using lt_key.
  induction l as [|x l IH]; simpl; [constructor | by apply sort_insert_sorted].
Qed.

(** Stability: the items of one key keep their order. *)
Lemma sort_insert_filter_key v x l :
  List.filter (fun a => (key a =? v)%Z) (sort_insert lt x l)
  = List.filter (fun a => (key a =? v)%Z) (x :: l).
Proof using lt_key.
  induction l as [|y l IH]; [done|].
  cbn [sort_insert]. rewrite lt_key.
  destruct (Z.ltb_spec (key y) (key x)) as [Hlt|Hge]; [|done].
  cbn [List.filter] in *. rewrite IH.
  destruct (Z.eqb_spec (key x) v), (Z.eqb_spec (key y) v); try done; lia.
Qed.

Lemma sort_stable_filter_key v l :
  List.filter (fun a => (key a =? v)%Z) (sort_stable lt l)
  = List.filter (fun a => (key a =? v)%Z) l.
Proof using lt_key.
  induction l as [|x l IH]; [done|].
  cbn [sort_stable]. rewrite sort_insert_filter_key.
  cbn [List.filter]. by rewrite IH.
Qed.

(** A comparison that does not raise on the items sorts as [lt] does. *)
Lemma sort_insert_raising_ok (ltr : A → A → result bool) x l :
  (∀ y, y ∈ l → ltr y x = Ok (lt y x)) →
  sort_insert_raising ltr x l = Ok (sort_insert lt x l).
Proof.
  induction l as [|y l IH]; simpl; intros Hok; [done|].
  rewrite Hok by (apply elem_of_cons; by left).
  destruct (lt y x); [|done].
  rewrite IH; [done|]. intros z Hz. apply Hok, elem_of_cons; by right.
Qed.

Lemma sorted_raising_ok (ltr : A → A → result bool) l :
  (∀ x y, x ∈ l → y ∈ l → ltr x y = Ok (lt x y)) →
  sorted_raising ltr l = Ok (sort_stable lt l).
Proof.
  induction l as [|x l IH]; simpl; intros Hok; [done|].
  rewrite IH.
  - apply sort_insert_raising_ok. intros y Hy. apply Hok.
    + apply elem_of_cons; right. by rewrite <-(sort_stable_perm l).
    + apply elem_of_cons; by left.
  - intros a b Ha Hb. apply Hok; apply elem_of_cons; by right.
Qed.
End SortingFacts.



Lemma sorted_by_timestamp_ok aware cards :
  awareness aware cards →
  sorted_by_timestamp cards = Ok (sort_stable micros_lt cards).
Proof.
  intros Hsame. unfold sorted_by_timestamp.
  apply sorted_raising_ok. intros a b Ha Hb. unfold dt_lt, micros_lt.
  unfold awareness in Hsame. rewrite Forall_forall in Hsame.
  rewrite (Hsame a Ha), (Hsame b Hb). by destruct aware.
Qed.

Lemma sort_insert_raising_other_awareness x y l :
  dt_aware (AtomicEvidenceCard.timestamp y)
  ≠ dt_aware (AtomicEvidenceCard.timestamp x) →
  sort_insert_raising
    (fun a b => dt_lt (AtomicEvidenceCard.timestamp a)
                  (AtomicEvidenceCard.timestamp b)) x (y :: l)
  = Raise TypeError.
Proof.
  intros Hne. simpl. unfold dt_lt.
  destruct (dt_aware (AtomicEvidenceCard.timestamp y)),
    (dt_aware (AtomicEvidenceCard.timestamp x)); done.
Qed.

(** A list with a naive and an aware timestamp cannot be sorted. *)
Lemma sorted_by_timestamp_mixed cards :
  Exists (fun c => dt_aware (AtomicEvidenceCard.timestamp c) = true) cards →
  Exists (fun c => dt_aware (AtomicEvidenceCard.timestamp c) = false) cards →
  sorted_by_timestamp cards = Raise TypeError.
Proof.
  induction cards as [|x l IH]; intros Ha Hn.
  - by apply Exists_nil in Ha.
  - unfold sorted_by_timestamp in *. simpl.
    destruct (decide (Exists
                (fun c => dt_aware (AtomicEvidenceCard.timestamp c) = true) l))
      as [Hla|Hla];
    destruct (decide (Exists
                (fun c => dt_aware (AtomicEvidenceCard.timestamp c) = false) l))
      as [Hln|Hln].
    + by rewrite IH.
    + (* the rest is aware, so [x] is naive *)
      apply Exists_cons in Hn as [Hx|?]; [|done].
      assert (awareness true l) as Hl.
      { apply Forall_forall. intros c Hc.
        destruct (dt_aware (AtomicEvidenceCard.timestamp c)) eqn:E; [done|].
        exfalso. apply Hln, Exists_exists. eauto. }
      pose proof (sorted_by_timestamp_ok _ _ Hl) as Hok.
      unfold sorted_by_timestamp in Hok. rewrite Hok.
      apply Exists_exists in Hla as (c & Hc & _).
      rewrite <-(sort_stable_perm micros_lt l) in Hc.
      destruct (sort_stable micros_lt l) as [|y s] eqn:Es;
        [by apply elem_of_nil in Hc|].
      apply sort_insert_raising_other_awareness.
      unfold awareness in Hl. rewrite Forall_forall in Hl.
      rewrite (Hl y), Hx; [done|].
      rewrite <-(sort_stable_perm micros_lt l), Es. apply elem_of_cons; by left.
    + apply Exists_cons in Ha as [Hx|?]; [|done].
      assert (awareness false l) as Hl.
      { apply Forall_forall. intros c Hc.
        destruct (dt_aware (AtomicEvidenceCard.timestamp c)) eqn:E; [|done].
        exfalso. apply Hla, Exists_exists. eauto. }
      pose proof (sorted_by_timestamp_ok _ _ Hl) as Hok.
      unfold sorted_by_timestamp in Hok. rewrite Hok.
      apply Exists_exists in Hln as (c & Hc & _).
      rewrite <-(sort_stable_perm micros_lt l) in Hc.
      destruct (sort_stable micros_lt l) as [|y s] eqn:Es;
        [by apply elem_of_nil in Hc|].
      apply sort_insert_raising_other_awareness.
      unfold awareness in Hl. rewrite Forall_forall in Hl.
      rewrite (Hl y), Hx; [done|].
      rewrite <-(sort_stable_perm micros_lt l), Es. apply elem_of_cons; by left.
    + exfalso. apply Exists_cons in Ha as [Hx|?]; [|done].
      apply Exists_cons in Hn as [Hx'|?]; [|done]. congruence.
Qed.


(** ** MemoryStore.get_evidence_cards_for_pathway *)

Lemma collect_cards_found (s : MemoryStore.t) (pid : str) (ids : list str) :
  (MemoryStore.collect_cards s pid ids).1
  = omap (MemoryStore.get_evidence_card s) ids.
Proof.
  induction ids as [|card_id ids IH]; [done|].
  cbn [MemoryStore.collect_cards]. csimpl.
  destruct (MemoryStore.collect_cards s pid ids) as [cards out].
  simpl in IH. rewrite <-IH.
  by destruct (MemoryStore.get_evidence_card s card_id).
Qed.

Lemma collect_cards_warnings (s : MemoryStore.t) (pid : str) (ids : list str) :
  (MemoryStore.collect_cards s pid ids).2
  = (fun card_id => MemoryStore.missing_card_warning card_id pid)
      <$> List.filter
            (fun card_id =>
               bool_decide (MemoryStore.get_evidence_card s card_id = None))
            ids.
Proof.
  induction ids as [|card_id ids IH]; simpl; [done|].
  destruct (MemoryStore.collect_cards s pid ids) as [cards out].
  simpl in IH. rewrite IH.
  by destruct (MemoryStore.get_evidence_card s card_id).
Qed.

Lemma get_evidence_cards_unknown_pathway (s : MemoryStore.t) (pid : str) :
  MemoryStore.get_policy_pathway s pid = None →
  MemoryStore.get_evidence_cards_for_pathway s pid = (Ok [], []).
Proof.
  intros Hp. unfold MemoryStore.get_evidence_cards_for_pathway. by rewrite Hp.
Qed.

(** When the cards of the pathway are all naive or all aware, the
    result is the cards found, dangling ids left out, sorted by
    timestamp ascending, cards of one timestamp in the order of the
    ids. *)
Lemma get_evidence_cards_comparable (s : MemoryStore.t) (pid : str)
    (p : PolicyPathway.t) (aware : bool) :
  MemoryStore.get_policy_pathway s pid = Some p →
  awareness aware
    (omap (MemoryStore.get_evidence_card s) (PolicyPathway.evidence_card_ids p)) →
  ∃ cards,
    (MemoryStore.get_evidence_cards_for_pathway s pid).1 = Ok cards
    ∧ cards ≡ₚ omap (MemoryStore.get_evidence_card s)
                 (PolicyPathway.evidence_card_ids p)
    ∧ Sorted (fun a b => (micros_of a ≤ micros_of b)%Z) cards
    ∧ ∀ v, List.filter (fun c => (micros_of c =? v)%Z) cards
           = List.filter (fun c => (micros_of c =? v)%Z)
               (omap (MemoryStore.get_evidence_card s)
                  (PolicyPathway.evidence_card_ids p)).
Proof.
  intros Hp Haware. unfold MemoryStore.get_evidence_cards_for_pathway.
  rewrite Hp.
  pose proof (collect_cards_found s pid (PolicyPathway.evidence_card_ids p))
    as Hfound.
  destruct (MemoryStore.collect_cards s pid (PolicyPathway.evidence_card_ids p))
    as [cards out].
  simpl in *. subst cards.
  rewrite (sorted_by_timestamp_ok _ _ Haware).
  eexists; split; [done|].
  split; [apply sort_stable_perm|].
  split; [by apply (sort_stable_sorted micros_of)|].
  intros v. by apply (sort_stable_filter_key micros_of).
Qed.

(** When the cards of the pathway hold a naive and an aware timestamp,
    the sort raises and nothing is returned. *)
Lemma get_evidence_cards_incomparable (s : MemoryStore.t) (pid : str)
    (p : PolicyPathway.t) :
  MemoryStore.get_policy_pathway s pid = Some p →
  Exists (fun c => dt_aware (AtomicEvidenceCard.timestamp c) = true)
    (omap (MemoryStore.get_evidence_card s) (PolicyPathway.evidence_card_ids p)) →
  Exists (fun c => dt_aware (AtomicEvidenceCard.timestamp c) = false)
    (omap (MemoryStore.get_evidence_card s) (PolicyPathway.evidence_card_ids p)) →
  (MemoryStore.get_evidence_cards_for_pathway s pid).1 = Raise TypeError.
Proof.
  intros Hp Haware Hnaive. unfold MemoryStore.get_evidence_cards_for_pathway.
  rewrite Hp.
  pose proof (collect_cards_found s pid (PolicyPathway.evidence_card_ids p))
    as Hfound.
  destruct (MemoryStore.collect_cards s pid (PolicyPathway.evidence_card_ids p))
    as [cards out].
  simpl in *. subst cards. by apply sorted_by_timestamp_mixed.
Qed.

(** C5 fails on the code: with one card stamped with an offset and one
    without, the sort compares an aware with a naive [datetime] and
    [get_evidence_cards_for_pathway] raises [TypeError]. *)
Lemma get_evidence_cards_mixed_raises :
  MemoryStore.get_evidence_cards_for_pathway mixed_store (lit "p1")
  = (Raise TypeError, []).
Proof. reflexivity. Qed.

(** ** HDPM._retrieve_relevant_items_from_store *)

Lemma resolve_pathways_aligned (store : MemoryStore.t) (top : list Insight.t) :
  Forall2
    (fun insight pathway =>
       MemoryStore.get_policy_pathway store (Insight.source_pathway_id insight)
       = Some pathway)
    (HDPM.resolve_pathways store top).1.1
    (HDPM.resolve_pathways store top).1.2.
Proof.
  induction top as [|insight top IH]; simpl; [constructor|].
  destruct (HDPM.resolve_pathways store top) as [[valid pathways] out].
  destruct (MemoryStore.get_policy_pathway store _) eqn:Hp; simpl in *;
    [by constructor | done].
Qed.

Lemma resolve_pathways_kept (store : MemoryStore.t) (top : list Insight.t) :
  (HDPM.resolve_pathways store top).1.1 = List.filter (has_pathway store) top.
Proof.
  induction top as [|insight top IH]; simpl; [done|].
  destruct (HDPM.resolve_pathways store top) as [[valid pathways] out].
  simpl in IH. subst valid.
  destruct (MemoryStore.get_policy_pathway store _) eqn:Hp.
  - assert (has_pathway store insight = true) as ->; [|done].
    unfold has_pathway. rewrite Hp. apply bool_decide_eq_true_2. eauto.
  - assert (has_pathway store insight = false) as ->; [|done].
    unfold has_pathway. rewrite Hp. apply bool_decide_eq_false_2.
    by intros [??].
Qed.

Lemma filter_length_le {A} (f : A → bool) (l : list A) :
  length (List.filter f l) ≤ length l.
Proof. induction l; simpl; [done|]. destruct (f _); simpl; lia. Qed.

Section RetrievalFacts.
Context `{PyRuntime}.

Lemma top_insights_length (query : str) (store : MemoryStore.t) (top_k : Z) :
  length (HDPM.top_insights query store top_k) ≤ Z.to_nat top_k.
Proof.
  unfold HDPM.top_insights. rewrite length_fmap, length_take. lia.
Qed.

(** C2.  The two lists returned have the same length and are aligned:
    each pathway is the one the store holds under the source pathway id
    of the insight at the same index.  They have at most [top_k] items,
    and none when [top_k <= 0].  The insights returned are the top
    insights without those whose source pathway is absent. *)
Theorem retrieval_lists_aligned (query : str) (store : MemoryStore.t)
    (top_k : Z) :
  Forall2
    (fun insight pathway =>
       MemoryStore.get_policy_pathway store (Insight.source_pathway_id insight)
       = Some pathway)
    (HDPM._retrieve_relevant_items_from_store query store top_k).1.1
    (HDPM._retrieve_relevant_items_from_store query store top_k).1.2
  ∧ length (HDPM._retrieve_relevant_items_from_store query store top_k).1.1
    = length (HDPM._retrieve_relevant_items_from_store query store top_k).1.2
  ∧ (Z.of_nat
       (length (HDPM._retrieve_relevant_items_from_store query store top_k).1.1)
     ≤ Z.max 0 top_k)%Z
  ∧ if (top_k <=? 0)%Z
    then HDPM._retrieve_relevant_items_from_store query store top_k
         = ([], [], [])
    else (HDPM._retrieve_relevant_items_from_store query store top_k).1.1
         = List.filter (has_pathway store)
             (HDPM.top_insights query store top_k).
Proof.
  unfold HDPM._retrieve_relevant_items_from_store.
  destruct (Z.leb_spec top_k 0) as [Hle|Hgt].
  - simpl. split; [constructor|]. split; [done|]. split; [lia | done].
  - pose proof (resolve_pathways_aligned store
                  (HDPM.top_insights query store top_k)) as Hal.
    split; [done|]. split; [by eapply Forall2_length|].
    split; [|apply resolve_pathways_kept].
    rewrite resolve_pathways_kept.
    pose proof (filter_length_le (has_pathway store)
                  (HDPM.top_insights query store top_k)).
    pose proof (top_insights_length query store top_k). lia.
Qed.
End RetrievalFacts.

(** *** Sorting and maps *)

Lemma sort_insert_fmap {A B} (f : A → B) (lt : B → B → bool) x l :
  sort_insert lt (f x) (f <$> l)
  = f <$> sort_insert (fun a b => lt (f a) (f b)) x l.
Proof.
  induction l as [|y l IH]; [done|].
  cbn [sort_insert fmap list_fmap]. destruct (lt (f y) (f x)); [|done].
  cbn. f_equal. apply IH.
Qed.

Lemma sort_stable_fmap {A B} (f : A → B) (lt : B → B → bool) l :
  sort_stable lt (f <$> l) = f <$> sort_stable (fun a b => lt (f a) (f b)) l.
Proof.
  induction l as [|x l IH]; [done|].
  cbn [sort_stable fmap list_fmap]. rewrite IH. apply sort_insert_fmap.
Qed.

Lemma fmap_rev {A B} (f : A → B) l : f <$> rev l = rev (f <$> l).
Proof. rewrite !rev_alt. apply fmap_reverse. Qed.

Lemma list_sort_fmap {A B} (f : A → B) (lt : B → B → bool) reverse l :
  list_sort lt reverse (f <$> l)
  = f <$> list_sort (fun a b => lt (f a) (f b)) reverse l.
Proof.
  unfold list_sort. destruct reverse; [|apply sort_stable_fmap].
  by rewrite <-(fmap_rev f l), sort_stable_fmap, fmap_rev.
Qed.

Lemma Sorted_rev_flip {A} (R : relation A) l :
  Sorted R l → Sorted (flip R) (rev l).
Proof. rewrite rev_alt. apply Sorted_reverse. Qed.

Lemma Sorted_weaken {A} (R1 R2 : relation A) l :
  (∀ a b, R1 a b → R2 a b) → Sorted R1 l → Sorted R2 l.
Proof.
  intros HR. induction 1 as [|x l Hs IH Hhd]; constructor; [done|].
  destruct Hhd; constructor; auto.
Qed.

(** [l.sort(key=..., reverse=True)] sorts by key descending and keeps
    the items of one key in their order. *)
Section ReverseSort.
Context {A : Type} (key : A → Z) (lt : A → A → bool).
Hypothesis lt_key : ∀ a b, lt a b = (key a <? key b)%Z.

Lemma list_sort_reverse_sorted l :
  Sorted (fun a b => (key b ≤ key a)%Z) (list_sort lt true l).
Proof using lt_key.
  unfold list_sort.
  apply (Sorted_rev_flip (fun a b => (key a ≤ key b)%Z)).
  by apply sort_stable_sorted.
Qed.

Lemma list_sort_reverse_filter_key v l :
  List.filter (fun a => (key a =? v)%Z) (list_sort lt true l)
  = List.filter (fun a => (key a =? v)%Z) l.
Proof using lt_key.
  unfold list_sort.
  rewrite filter_rev, (sort_stable_filter_key key lt lt_key), filter_rev.
  apply rev_involutive.
Qed.
End ReverseSort.

(** A list sorted by key descending is determined by its items of each
    key, in their order. *)
Lemma sorted_desc_unique {A} (key : A → Z) (l1 l2 : list A) :
  Sorted (fun a b => (key b ≤ key a)%Z) l1 →
  Sorted (fun a b => (key b ≤ key a)%Z) l2 →
  (∀ v, List.filter (fun a => (key a =? v)%Z) l1
        = List.filter (fun a => (key a =? v)%Z) l2) →
  l1 = l2.
Proof.
  assert (Transitive (fun a b : A => (key b ≤ key a)%Z)) as Htrans.
  { intros a b c ??. lia. }
  intros H1 H2. apply Sorted_StronglySorted in H1, H2; try done.
  revert l2 H2. induction H1 as [|x l1 Hs1 IH Hx]; intros l2 H2 Hf.
  - destruct l2 as [|y l2]; [done|].
    specialize (Hf (key y)). simpl in Hf. by rewrite Z.eqb_refl in Hf.
  - destruct l2 as [|y l2].
    { specialize (Hf (key x)). simpl in Hf. by rewrite Z.eqb_refl in Hf. }
    apply StronglySorted_inv in H2 as [Hs2 Hy].
    assert (key x = key y) as Hk.
    { assert (In x (y :: l2)) as Hin2.
      { eapply (proj1 (filter_In _ x (y :: l2))). rewrite <-Hf. simpl.
        rewrite Z.eqb_refl. by left. }
      assert (In y (x :: l1)) as Hin1.
      { eapply (proj1 (filter_In _ y (x :: l1))). rewrite Hf. simpl.
        rewrite Z.eqb_refl. by left. }
      rewrite Forall_forall in Hx, Hy.
      apply Z.le_antisymm.
      - destruct Hin2 as [->|Hin2]; [lia|].
        apply Hy. by apply list_elem_of_In.
      - destruct Hin1 as [->|Hin1]; [lia|].
        apply Hx. by apply list_elem_of_In. }
    assert (x = y) as ->.
    { specialize (Hf (key x)). simpl in Hf.
      rewrite <-Hk, Z.eqb_refl in Hf. congruence. }
    f_equal. apply IH; [done|]. intros v. specialize (Hf v). simpl in Hf.
    destruct (key y =? v)%Z; congruence.
Qed.

Lemma filter_none {A} (l : list A) : List.filter (fun _ => false) l = [].
Proof. by induction l. Qed.

Section ReferenceFacts.
Context `{PyRuntime}.

Lemma eqb_bool_decide (a b : N) : (a =? b)%N = bool_decide (a = b).
Proof.
  destruct (N.eqb_spec a b); symmetry.
  - by apply bool_decide_eq_true_2.
  - by apply bool_decide_eq_false_2.
Qed.

Lemma terms_normalize (text : str) : HDPM.terms text = Reference.normalize text.
Proof.
  unfold HDPM.terms, Reference.normalize, str_replace_char. do 2 f_equal.
  rewrite (filter_ext _ Reference.kept).
  - apply list_fmap_ext. intros _ c _. by rewrite eqb_bool_decide.
  - intros c. unfold Reference.kept. by rewrite eqb_bool_decide.
Qed.

(** The scoring loop yields the candidates of the specification, each
    with its score. *)
Lemma score_insights_candidates (query : str) (store : MemoryStore.t) :
  HDPM.score_insights (HDPM.terms query) (MemoryStore.insights store)
  = (fun insight => (Reference.score query insight, insight))
      <$> Reference.candidates query store.
Proof.
  unfold Reference.candidates, dict_values.
  induction (MemoryStore.insights store) as [|[k insight] items IH]; [done|].
  cbn [HDPM.score_insights fmap list_fmap snd List.filter].
  assert (size (HDPM.terms query ∩ HDPM.terms (Insight.content insight))
          = Reference.score query insight) as ->.
  { unfold Reference.score. rewrite !terms_normalize.
    f_equal. apply (comm_L (∩)). }
  rewrite IH.
  destruct (Reference.score query insight) as [|n] eqn:E; cbn; [done|].
  by rewrite E.
Qed.

Lemma top_insights_ranked (query : str) (store : MemoryStore.t) (top_k : Z) :
  HDPM.top_insights query store top_k
  = take (Z.to_nat top_k)
      (list_sort (score_lt query) true (Reference.candidates query store)).
Proof.
  unfold HDPM.top_insights. rewrite score_insights_candidates.
  rewrite (list_sort_fmap
             (fun insight => (Reference.score query insight, insight))).
  rewrite fmap_take, <-list_fmap_compose. simpl.
  by rewrite list_fmap_id.
Qed.

Lemma score_lt_key (query : str) (a b : Insight.t) :
  score_lt query a b
  = (Z.of_nat (Reference.score query a) <? Z.of_nat (Reference.score query b))%Z.
Proof.
  unfold score_lt.
  destruct (Nat.ltb_spec (Reference.score query a) (Reference.score query b)),
    (Z.ltb_spec (Z.of_nat (Reference.score query a))
       (Z.of_nat (Reference.score query b))); try done; lia.
Qed.

Lemma filter_score_key (query : str) (v : nat) (l : list Insight.t) :
  List.filter (fun insight => (Reference.score query insight =? v)%nat) l
  = List.filter
      (fun insight => (Z.of_nat (Reference.score query insight) =? Z.of_nat v)%Z)
      l.
Proof.
  apply filter_ext. intros a.
  destruct (Nat.eqb_spec (Reference.score query a) v),
    (Z.eqb_spec (Z.of_nat (Reference.score query a)) (Z.of_nat v));
    try done; lia.
Qed.

Lemma list_sort_ranking (query : str) (found : list Insight.t) :
  Reference.ranking query found (list_sort (score_lt query) true found).
Proof.
  split.
  - eapply Sorted_weaken;
      [|apply (list_sort_reverse_sorted
                 (fun a => Z.of_nat (Reference.score query a))
                 (score_lt query) (score_lt_key query))].
    simpl. intros a b. lia.
  - intros v. rewrite !filter_score_key.
    apply (list_sort_reverse_filter_key
             (fun a => Z.of_nat (Reference.score query a))
             (score_lt query) (score_lt_key query)).
Qed.

(** The ranking of the specification names one list. *)
Lemma ranking_unique (query : str) (found r1 r2 : list Insight.t) :
  Reference.ranking query found r1 → Reference.ranking query found r2 →
  r1 = r2.
Proof.
  intros [Hs1 Hf1] [Hs2 Hf2].
  apply (sorted_desc_unique (fun a => Z.of_nat (Reference.score query a))).
  - eapply Sorted_weaken; [|exact Hs1]. simpl. intros a b. lia.
  - eapply Sorted_weaken; [|exact Hs2]. simpl. intros a b. lia.
  - intros v. destruct (Z.le_gt_cases 0 v) as [Hv|Hv].
    + rewrite <-(Z2Nat.id v Hv), <-!filter_score_key. by rewrite Hf1, Hf2.
    + assert (∀ l : list Insight.t,
                List.filter
                  (fun a => (Z.of_nat (Reference.score query a) =? v)%Z) l
                = []) as Hnone.
      { intros l. rewrite (filter_ext _ (fun _ => false)); [apply filter_none|].
        intros a. apply Z.eqb_neq. lia. }
      by rewrite !Hnone.
Qed.

(** C1.  For [top_k > 0], retrieval is the algorithm of the
    specification: the candidates are the insights of the store, in
    iteration order, whose normalized content shares a term with the
    normalized query; they are ranked by the number of shared terms,
    descending, ties in iteration order; the first [top_k] are taken
    (and then resolved to their pathways). *)
Theorem retrieval_is_reference_algorithm (query : str)
    (store : MemoryStore.t) (top_k : Z) :
  (0 < top_k)%Z →
  ∃ ranked,
    Reference.ranking query (Reference.candidates query store) ranked
    ∧ HDPM.top_insights query store top_k = take (Z.to_nat top_k) ranked
    ∧ HDPM._retrieve_relevant_items_from_store query store top_k
      = HDPM.resolve_pathways store (take (Z.to_nat top_k) ranked).
Proof.
  intros Hk.
  exists (list_sort (score_lt query) true (Reference.candidates query store)).
  split; [apply list_sort_ranking|].
  split; [apply top_insights_ranked|].
  unfold HDPM._retrieve_relevant_items_from_store.
  destruct (Z.leb_spec top_k 0); [lia|].
  by rewrite top_insights_ranked.
Qed.
End ReferenceFacts.

Lemma retrieval_is_reference_algorithm_witness :
  ∃ ranked,
    Reference.ranking (lit "protein Alpha SuperFold")
      (Reference.candidates (lit "protein Alpha SuperFold") retrieval_store)
      ranked
    ∧ HDPM.top_insights (lit "protein Alpha SuperFold") retrieval_store 2
      = take (Z.to_nat 2) ranked
    ∧ HDPM._retrieve_relevant_items_from_store (lit "protein Alpha SuperFold")
        retrieval_store 2
      = HDPM.resolve_pathways retrieval_store (take (Z.to_nat 2) ranked).
Proof.
  apply (retrieval_is_reference_algorithm (lit "protein Alpha SuperFold")
           retrieval_store 2).
  reflexivity.
Defined.

(** On the sample store the query ranks [i1] (3 shared terms) before
    [i3] (2) before [i2] (1); of the top two, [i3] has no pathway in the
    store and is dropped with a warning. *)
Example retrieval_sample_ranking :
  Insight.id
    <$> HDPM.top_insights (lit "protein Alpha SuperFold") retrieval_store 3
  = [lit "i1"; lit "i3"; lit "i2"].
Proof. by vm_compute. Qed.

Example retrieval_sample_top_2 :
  (Insight.id
     <$> (HDPM._retrieve_relevant_items_from_store
            (lit "protein Alpha SuperFold") retrieval_store 2).1.1,
   PolicyPathway.id
     <$> (HDPM._retrieve_relevant_items_from_store
            (lit "protein Alpha SuperFold") retrieval_store 2).1.2,
   length (HDPM._retrieve_relevant_items_from_store
             (lit "protein Alpha SuperFold") retrieval_store 2).2)
  = ([lit "i1"], [lit "p1"], 1).
Proof. by vm_compute. Qed.

(** ** Effects *)

Lemma printed_nil (w : world) : printed [] w = w.
Proof. destruct w. unfold printed. simpl. by rewrite app_nil_r. Qed.

Lemma printed_app (a b : list str) (w : world) :
  printed b (printed a w) = printed (a ++ b) w.
Proof. unfold printed. simpl. by rewrite app_assoc. Qed.

Lemma print_run (line : str) (w : world) :
  print line w = (Ok tt, printed [line] w).
Proof. done. Qed.

Lemma print_all_run (lines : list str) (w : world) :
  print_all lines w = (Ok tt, printed lines w).
Proof.
  revert w. induction lines as [|line lines IH]; intros w; simpl.
  - by rewrite printed_nil.
  - unfold bind. rewrite print_run, IH, printed_app. done.
Qed.

Section PipelineFacts.
Context `{PyRuntime}.

Lemma fetch_cards_run (store : MemoryStore.t) (pid : str) (w : world) :
  ReflectAgent.fetch_cards store pid w
  = ((MemoryStore.get_evidence_cards_for_pathway store pid).1,
     printed (MemoryStore.get_evidence_cards_for_pathway store pid).2 w).
Proof.
  unfold ReflectAgent.fetch_cards.
  destruct (MemoryStore.get_evidence_cards_for_pathway store pid) as [r out].
  unfold mbind, ST_bind, bind. by rewrite print_all_run.
Qed.

(** ** ReflectAgent.update_memory *)

(** C8.  With an empty trajectory, whatever the outcome sign and the
    HDPM instance, [update_memory] returns [(None, None, [])] without
    raising, leaves both stores as they are, and prints one warning. *)
Theorem update_memory_empty_trajectory (self : ReflectAgent.t) (result : Z)
    (h : HDPM.t) (w : world) :
  ReflectAgent.update_memory self [] result (h, w)
  = (Ok (None, None, []),
     (h, printed
           [lit "Warning: Empty trajectory provided. Nothing to update in memory."]
           w)).
Proof. reflexivity. Qed.

End PipelineFacts.

(** ** ReflectAgent: distillation *)

(** What the two strategies take from the interpreter: [str.lower] and
    the layout of [set] for the keyword strategy, the generator for the
    random one. *)
Lemma scan_card_agree (R1 R2 : PyRuntime) (kw : ReflectAgent.keywords)
    (card : AtomicEvidenceCard.t) :
  (∀ s, @str_lower R1 s = @str_lower R2 s) →
  @ReflectAgent.scan_card R1 kw card = @ReflectAgent.scan_card R2 kw card.
Proof.
  intros Hlower. unfold ReflectAgent.scan_card, ReflectAgent.mentions.
  by rewrite !Hlower.
Qed.

Lemma scan_cards_agree (R1 R2 : PyRuntime) (cards : list AtomicEvidenceCard.t)
    (kw : ReflectAgent.keywords) :
  (∀ s, @str_lower R1 s = @str_lower R2 s) →
  fold_left (@ReflectAgent.scan_card R1) cards kw
  = fold_left (@ReflectAgent.scan_card R2) cards kw.
Proof.
  intros Hlower. revert kw. induction cards as [|card cards IH]; intros kw;
    [done|].
  cbn [fold_left]. by rewrite (scan_card_agree R1 R2), IH.
Qed.

Lemma compose_keywords_agree (R1 R2 : PyRuntime)
    (cards : list AtomicEvidenceCard.t) (result : Z) :
  (∀ s, @str_lower R1 s = @str_lower R2 s) →
  (∀ l, @set_order R1 l = @set_order R2 l) →
  @ReflectAgent.compose_keywords R1 cards result
  = @ReflectAgent.compose_keywords R2 cards result.
Proof.
  intros Hlower Horder. unfold ReflectAgent.compose_keywords.
  by rewrite (scan_cards_agree R1 R2), !Horder.
Qed.

(** C9.  Distillation is deterministic per strategy within one
    interpreter.  Take two calls on one pathway, one store and one outcome
    sign, in any two worlds (clock, UUID source, generator, output so far)
    and under runtimes that lower-case alike, lay out a [set] alike and draw
    alike, as any two calls in one process do.  The keyword strategy then
    gives one content in both calls, and the random strategy gives one
    content in both calls when they start from one generator state. *)
Theorem distill_content_deterministic (R1 R2 : PyRuntime)
    (pathway : PolicyPathway.t) (store : MemoryStore.t) (result : Z)
    (w1 w2 : world) :
  (∀ s, @str_lower R1 s = @str_lower R2 s) →
  (∀ l, @set_order R1 l = @set_order R2 l) →
  (∀ g n, @randbelow R1 g n = @randbelow R2 g n) →
  (@ReflectAgent._distill_insight_content_simple_keywords R1 pathway store
     result w1).1
  = (@ReflectAgent._distill_insight_content_simple_keywords R2 pathway store
       result w2).1
  ∧ (rng w1 = rng w2 →
     (@ReflectAgent._distill_insight_content_random_choice R1 pathway store
        result w1).1
     = (@ReflectAgent._distill_insight_content_random_choice R2 pathway store
          result w2).1).
Proof.
  intros Hlower Horder Hrandom. split.
  - unfold ReflectAgent._distill_insight_content_simple_keywords.
    unfold mbind, ST_bind, bind. rewrite !fetch_cards_run.
    destruct (MemoryStore.get_evidence_cards_for_pathway store _).1
      as [cards|e]; [|done].
    destruct (ReflectAgent.is_empty cards); [done|].
    cbn. by rewrite (compose_keywords_agree R1 R2).
  - intros Hrng.
    unfold ReflectAgent._distill_insight_content_random_choice.
    unfold mbind, ST_bind, bind. rewrite !fetch_cards_run.
    destruct (MemoryStore.get_evidence_cards_for_pathway store _).1
      as [[|card cards]|e]; [done| |done].
    unfold random_choice, printed. simpl. rewrite Hrng, Hrandom.
    by destruct (randbelow (rng w2) (S (length cards))).
Qed.

Section AtomizeFacts.
Context `{PyRuntime}.

(** ** ReflectAgent.atomize *)

(** One turn of the loop: it always appends a card.  The clock is read
    once when the step lacks a timestamp, and not at all otherwise. *)
Lemma atomize_event_run (n i : nat) (ev : event) (w : world) :
  ∃ card w',
    ReflectAgent.atomize_event n i ev w = (Ok card, w')
    ∧ clock w' = clock w
    ∧ ticks w' = (if lacks_timestamp ev then S (ticks w) else ticks w)
    ∧ AtomicEvidenceCard.timestamp card
      = step_timestamp n i ev (clock w (ticks w))
    ∧ (unprocessable ev = true →
       AtomicEvidenceCard.agent_type card = lit "SystemError").
Proof.
  unfold ReflectAgent.atomize_event, try_except, unprocessable,
    lacks_timestamp, step_timestamp, step_error.
  destruct ev as [ac agent [[[|c s]|[|]]|]|]; simpl.
  - eexists _, _. split; [reflexivity|]. simpl. repeat split; done.
  - unfold mbind, ST_bind, bind.
    destruct (fromisoformat (c :: s)) as [d|] eqn:Hd; simpl.
    + eexists _, _. split; [reflexivity|]. simpl. repeat split; done.
    + eexists _, _. split; [reflexivity|]. simpl. repeat split; done.
  - eexists _, _. split; [reflexivity|]. simpl. repeat split; done.
  - eexists _, _. split; [reflexivity|]. simpl. repeat split; done.
  - eexists _, _. split; [reflexivity|]. simpl. repeat split; done.
  - eexists _, _. split; [reflexivity|]. simpl. repeat split; done.
Qed.

Lemma clock_reads_cons (ev : event) (steps : list event) :
  clock_reads (ev :: steps)
  = ((if lacks_timestamp ev then 1 else 0) + clock_reads steps)%nat.
Proof. unfold clock_reads. simpl. by destruct (lacks_timestamp ev). Qed.

Lemma clock_reads_take_le (steps : list event) (i j : nat) :
  i ≤ j → clock_reads (take i steps) ≤ clock_reads (take j steps).
Proof.
  revert i j. induction steps as [|ev steps IH]; intros i j Hij.
  - by rewrite !take_nil.
  - destruct i as [|i]; [unfold clock_reads at 1; simpl; lia|].
    destruct j as [|j]; [lia|]. simpl. rewrite !clock_reads_cons.
    specialize (IH i j). lia.
Qed.

(** The loop: one card per step, in the order of the steps. *)
Lemma atomize_loop_run (n : nat) (trajectory : list event) (i : nat)
    (w : world) :
  ∃ raw w',
    ReflectAgent.atomize_loop n i trajectory w = (Ok raw, w')
    ∧ clock w' = clock w
    ∧ ticks w' = (ticks w + clock_reads trajectory)%nat
    ∧ length raw = length trajectory
    ∧ ∀ j ev, trajectory !! j = Some ev →
        ∃ card, raw !! j = Some card
          ∧ AtomicEvidenceCard.timestamp card
            = step_timestamp n (i + j) ev
                (clock w (ticks w + clock_reads (take j trajectory)))
          ∧ (unprocessable ev = true →
             AtomicEvidenceCard.agent_type card = lit "SystemError").
Proof.
  revert i w. induction trajectory as [|ev steps IH]; intros i w.
  - exists [], w. simpl. unfold clock_reads. simpl.
    repeat split; try done; lia.
  - destruct (atomize_event_run n i ev w)
      as (card & w1 & Hrun & Hclock & Hticks & Hts & Herr).
    destruct (IH (S i) w1) as (raw & w2 & Hloop & Hclock2 & Hticks2 & Hlen & Hraw).
    exists (card :: raw), w2.
    split.
    { cbn [ReflectAgent.atomize_loop]. unfold mbind, ST_bind, bind.
      by rewrite Hrun, Hloop. }
    split; [congruence|].
    split.
    { rewrite Hticks2, Hticks, clock_reads_cons.
      destruct (lacks_timestamp ev); lia. }
    split; [simpl; lia|].
    intros [|j] ev' Hev; simpl in Hev.
    + injection Hev as <-. exists card. split; [done|].
      split; [|done]. rewrite Hts. simpl.
      unfold clock_reads. simpl. by rewrite !Nat.add_0_r.
    + destruct (Hraw j ev' Hev) as (card' & Hc & Hts' & Herr').
      exists card'. split; [done|]. split; [|done].
      rewrite Hts'. simpl. rewrite clock_reads_cons, Hclock, Hticks.
      f_equal; [lia|]. f_equal. destruct (lacks_timestamp ev); lia.
Qed.

Lemma step_timestamp_lacking (n i : nat) (ev : event) (reading : Z) :
  lacks_timestamp ev = true →
  step_timestamp n i ev reading
  = naive (reading - (Z.of_nat n - Z.of_nat i) * 1000000).
Proof.
  unfold lacks_timestamp, step_timestamp.
  by destruct (supplied_timestamp ev).
Qed.

(** The cards of a trajectory with comparable timestamps are all naive
    or all aware. *)
Lemma atomize_loop_awareness (trajectory : list event) (w : world)
    (raw : list AtomicEvidenceCard.t) (w' : world) :
  comparable_timestamps trajectory →
  ReflectAgent.atomize_loop (length trajectory) 0 trajectory w = (Ok raw, w') →
  ∃ aware, awareness aware raw.
Proof.
  intros Hcmp Hrun.
  destruct (atomize_loop_run (length trajectory) trajectory 0 w)
    as (raw0 & w0 & Hrun0 & _ & _ & Hlen & Hraw).
  rewrite Hrun in Hrun0. injection Hrun0 as <- <-.
  destruct Hcmp as [Hnaive|Haware]; [exists false | exists true];
    apply Forall_forall; intros card Hcard;
    apply list_elem_of_lookup in Hcard as [j Hj];
    destruct (lookup_lt_is_Some_2 trajectory j) as [ev Hev];
    try (rewrite <-Hlen; by eapply lookup_lt_Some);
    destruct (Hraw j ev Hev) as (card' & Hc' & Hts & _);
    rewrite Hj in Hc'; injection Hc' as <-; rewrite Hts;
    unfold step_timestamp.
  - destruct (supplied_timestamp ev) as [d|] eqn:Hd; [|done].
    eapply Hnaive; [|done]. by eapply list_elem_of_lookup_2.
  - destruct (Haware ev) as (d & -> & Hd); [|done].
    by eapply list_elem_of_lookup_2.
Qed.

(** C6, as the code has it.  For a trajectory whose timestamps can be
    ordered, [atomize] returns, and returns the cards of its loop sorted:
    one card per step, a step that cannot be processed giving a card of
    role "SystemError".  A step with a missing or unparseable timestamp
    gets the clock reading of its turn less [n - i] seconds ([n] steps,
    [i] from 0), so these timestamps increase strictly with the step
    index when the clock does not run backwards; for the last step this
    is one second before the reading, not the reading itself. *)
Theorem atomize_one_card_per_step (trajectory : list event) (w : world) :
  comparable_timestamps trajectory →
  monotone_clock w →
  ∃ raw cards w',
    ReflectAgent.atomize_loop (length trajectory) 0 trajectory w = (Ok raw, w')
    ∧ ReflectAgent.atomize trajectory w = (Ok cards, w')
    ∧ cards ≡ₚ raw
    ∧ length cards = length trajectory
    ∧ (∀ i ev, trajectory !! i = Some ev →
         ∃ card, raw !! i = Some card
           ∧ (unprocessable ev = true →
              AtomicEvidenceCard.agent_type card = lit "SystemError")
           ∧ AtomicEvidenceCard.timestamp card
             = step_timestamp (length trajectory) i ev
                 (clock w (ticks w + clock_reads (take i trajectory))))
    ∧ (∀ i j evi evj ci cj,
         i < j →
         trajectory !! i = Some evi → trajectory !! j = Some evj →
         lacks_timestamp evi = true → lacks_timestamp evj = true →
         raw !! i = Some ci → raw !! j = Some cj →
         (micros_of ci < micros_of cj)%Z)
    ∧ (∀ ev card,
         last trajectory = Some ev → lacks_timestamp ev = true →
         last raw = Some card →
         AtomicEvidenceCard.timestamp card
         = naive (clock w (ticks w
                           + clock_reads (take (length trajectory - 1)
                                            trajectory))
                  - 1000000)).
Proof.
  intros Hcmp Hmono.
  destruct (atomize_loop_run (length trajectory) trajectory 0 w)
    as (raw & w' & Hrun & _ & _ & Hlen & Hraw).
  destruct (atomize_loop_awareness _ _ _ _ Hcmp Hrun) as [aware Haware].
  exists raw, (sort_stable micros_lt raw), w'.
  split; [done|].
  split.
  { unfold ReflectAgent.atomize, mbind, ST_bind, bind, lift.
    by rewrite Hrun, (sorted_by_timestamp_ok _ _ Haware). }
  split; [apply sort_stable_perm|].
  split; [by rewrite sort_stable_perm|].
  split.
  { intros i ev Hev. destruct (Hraw i ev Hev) as (card & Hc & Hts & Herr).
    exists card. by repeat split. }
  split.
  - intros i j evi evj ci cj Hij Hi Hj Hli Hlj Hci Hcj.
    destruct (Hraw i evi Hi) as (ci' & Hci' & Htsi & _).
    destruct (Hraw j evj Hj) as (cj' & Hcj' & Htsj & _).
    rewrite Hci in Hci'. injection Hci' as <-.
    rewrite Hcj in Hcj'. injection Hcj' as <-.
    unfold micros_of. rewrite Htsi, Htsj.
    rewrite !step_timestamp_lacking by done. simpl.
    pose proof (clock_reads_take_le trajectory i j ltac:(lia)) as Hreads.
    pose proof (Hmono (ticks w + clock_reads (take i trajectory))%nat
                  (ticks w + clock_reads (take j trajectory))%nat
                  ltac:(lia)) as Hclock.
    lia.
  - intros ev card Hlast Hlack Hlastraw.
    rewrite last_lookup in Hlast. rewrite last_lookup in Hlastraw.
    rewrite Hlen in Hlastraw.
    destruct (Hraw _ ev Hlast) as (card' & Hc & Hts & _).
    rewrite Hlastraw in Hc. injection Hc as <-.
    rewrite Hts, step_timestamp_lacking by done.
    assert (length trajectory ≠ 0%nat) as Hne.
    { destruct trajectory; [done | simpl; lia]. }
    rewrite <-!Nat.sub_1_r. f_equal. lia.
Qed.
End AtomizeFacts.

Lemma atomize_one_card_per_step_witness :
  ∃ cards w',
    ReflectAgent.atomize sample_trajectory world0 = (Ok cards, w')
    ∧ length cards = 3%nat.
Proof.
  destruct (atomize_one_card_per_step sample_trajectory world0)
    as (raw & cards & w' & _ & Hrun & _ & Hlen & _).
  - left. intros ev d Hev Hd.
    repeat (apply elem_of_cons in Hev as [->|Hev]);
      [vm_compute in Hd; by simplify_eq ..|].
    by apply elem_of_nil in Hev.
  - intros a b Hab. simpl. lia.
  - exists cards, w'. split; [exact Hrun | exact Hlen].
Defined.

(** C6, as the claim has it, fails: the synthetic timestamp of the last
    step is the clock reading less one second, not the reading.  Here
    the only step has no timestamp and the clock reads 1700000000 s. *)
Lemma atomize_last_step_not_now :
  (ReflectAgent.atomize
     [EventDict (Some (lit "Run SuperFold")) (Some (lit "Assistant")) None]
     world0).1
  = Ok [{| AtomicEvidenceCard.id := lit "aec_0000-0";
           AtomicEvidenceCard.content := lit "Run SuperFold";
           AtomicEvidenceCard.agent_type := lit "Assistant";
           AtomicEvidenceCard.timestamp := naive 1699999999000000 |}]
  ∧ clock world0 (ticks world0) = 1700000000000000%Z.
Proof. split; reflexivity. Qed.

(** The sample trajectory: the second step has no timestamp, the third
    is not a dict and becomes a "SystemError" card; both are stamped from
    the clock, 2 s and 1 s before its readings. *)
Example atomize_sample_trajectory :
  match (ReflectAgent.atomize sample_trajectory world0).1 with
  | Ok cards =>
      (fun card =>
         (AtomicEvidenceCard.agent_type card,
          AtomicEvidenceCard.timestamp card)) <$> cards
  | Raise _ => []
  end
  = [(lit "Planner", naive 1672567200000000);
     (lit "UnknownAgent", naive 1699999998000000);
     (lit "SystemError", naive 1699999999000001)].
Proof. by vm_compute. Qed.

(** Outside the comparable trajectories: one step stamped with an
    offset and one without make the final sort raise. *)
Example atomize_mixed_timestamps_raises :
  (ReflectAgent.atomize
     [EventDict (Some (lit "Plan the fold")) (Some (lit "Planner"))
        (Some (PyStr (lit "2023-01-01T10:00:00Z")));
      EventDict (Some (lit "Run SuperFold")) (Some (lit "Assistant")) None]
     world0).1
  = Raise TypeError.
Proof. by vm_compute. Qed.

(** ** Serialization *)

Lemma dict_set_absent {V} (d : dict V) k v :
  k ∉ dict_keys d → dict_set d k v = d ++ [(k, v)].
Proof.
  unfold dict_keys. induction d as [|[k0 v0] d IH]; simpl; [done|].
  rewrite not_elem_of_cons. intros [Hne Hnot].
  rewrite decide_False by done. f_equal. by apply IH.
Qed.

(** Filing the values of a dict whose values sit under their ids, one
    after the other, builds the dict again. *)
Lemma file_all_rebuild {V} (id_of : V → str) (d acc : dict V) :
  NoDup (dict_keys acc ++ dict_keys d) →
  Forall (fun kv => kv.1 = id_of kv.2) d →
  file_all id_of (dict_values d) acc = acc ++ d.
Proof.
  unfold file_all, dict_keys, dict_values.
  revert acc. induction d as [|[k v] d IH]; intros acc Hnd Hid; simpl.
  - by rewrite app_nil_r.
  - apply Forall_cons in Hid as [Hk Hid]. simpl in Hk. subst k.
    rewrite dict_set_absent.
    + rewrite IH; [by rewrite <-app_assoc | | done].
      rewrite fmap_app. simpl. by rewrite <-app_assoc.
    + simpl in Hnd. apply NoDup_app in Hnd as (_ & Hdisj & _).
      intros Hin. apply (Hdisj _ Hin). apply elem_of_cons; by left.
Qed.

Lemma file_all_filed {V} (id_of : V → str) (d : dict V) :
  filed_by_id id_of d → file_all id_of (dict_values d) [] = d.
Proof.
  intros [Hnd Hid]. apply (file_all_rebuild id_of d []); [done|].
  eapply Forall_impl; [exact Hid|]. by intros ? [? _].
Qed.

(** *** Entities *)

Section SerializationFacts.
Context `{PyRuntime}.

Lemma card_from_dict_to_dict (card : AtomicEvidenceCard.t) (w : world) :
  AtomicEvidenceCard.id card ≠ [] →
  fromisoformat (isoformat (AtomicEvidenceCard.timestamp card))
  = Some (AtomicEvidenceCard.timestamp card) →
  AtomicEvidenceCard.from_dict (AtomicEvidenceCard.to_dict card) w
  = (Ok card, w).
Proof.
  intros Hid Hts. destruct card as [[|c cid] content agent ts]; [done|].
  unfold AtomicEvidenceCard.from_dict, AtomicEvidenceCard.to_dict.
  simpl in *. unfold mbind, ST_bind, bind. by rewrite Hts.
Qed.

Lemma pathway_from_dict_to_dict (pathway : PolicyPathway.t) (w : world) :
  PolicyPathway.id pathway ≠ [] →
  PolicyPathway.from_dict (PolicyPathway.to_dict pathway) w = (Ok pathway, w).
Proof. intros Hid. by destruct pathway as [[|c pid] ids link]. Qed.

Lemma insight_from_dict_to_dict (insight : Insight.t) (w : world) :
  Insight.id insight ≠ [] →
  Insight.from_dict (Insight.to_dict insight) w = (Ok insight, w).
Proof. intros Hid. by destruct insight as [[|c iid] content source]. Qed.

(** *** The three loops of [from_dict] *)

Lemma load_evidence_run (items : dict AtomicEvidenceCard.t)
    (store : MemoryStore.t) (w : world) :
  Forall
    (fun kv =>
       AtomicEvidenceCard.id kv.2 ≠ []
       ∧ fromisoformat (isoformat (AtomicEvidenceCard.timestamp kv.2))
         = Some (AtomicEvidenceCard.timestamp kv.2))
    items →
  MemoryStore.load_evidence
    (prod_map id AtomicEvidenceCard.to_dict <$> items) store w
  = (Ok (run_ops (AddEvidenceCard <$> dict_values items) store), w).
Proof.
  revert store. induction items as [|[k card] items IH]; intros store Hok;
    [done|].
  apply Forall_cons in Hok as [[Hid Hts] Hok].
  cbn [fmap list_fmap prod_map fst snd MemoryStore.load_evidence].
  unfold mbind, ST_bind, bind.
  rewrite card_from_dict_to_dict by done. by rewrite IH.
Qed.

Lemma load_pathways_run (items : dict PolicyPathway.t)
    (store : MemoryStore.t) (w : world) :
  Forall (fun kv => PolicyPathway.id kv.2 ≠ []) items →
  MemoryStore.load_pathways
    (prod_map id PolicyPathway.to_dict <$> items) store w
  = (Ok (run_ops (AddPolicyPathway <$> dict_values items) store), w).
Proof.
  revert store. induction items as [|[k pathway] items IH]; intros store Hok;
    [done|].
  apply Forall_cons in Hok as [Hid Hok].
  cbn [fmap list_fmap prod_map fst snd MemoryStore.load_pathways].
  unfold mbind, ST_bind, bind.
  rewrite pathway_from_dict_to_dict by done. by rewrite IH.
Qed.

Lemma load_insights_run (items : dict Insight.t) (store : MemoryStore.t)
    (w : world) :
  Forall (fun kv => Insight.id kv.2 ≠ []) items →
  ∃ out,
    MemoryStore.load_insights
      (prod_map id Insight.to_dict <$> items) store w
    = (Ok (run_ops (AddInsight <$> dict_values items) store), printed out w).
Proof.
  revert store w. induction items as [|[k insight] items IH];
    intros store w Hok.
  - exists []. by rewrite printed_nil.
  - apply Forall_cons in Hok as [Hid Hok].
    cbn [fmap list_fmap prod_map fst snd MemoryStore.load_insights].
    unfold mbind, ST_bind, bind.
    rewrite insight_from_dict_to_dict by done.
    destruct (MemoryStore.add_insight insight store) as [store' out] eqn:Hadd.
    rewrite print_all_run.
    destruct (IH store' (printed out w) Hok) as [out' ->].
    exists (out ++ out'). rewrite printed_app.
    unfold run_ops. simpl. by rewrite Hadd.
Qed.

(** [from_dict] replays the operations: evidence, then pathways, then
    insights. *)
Lemma from_dict_replays (s : MemoryStore.t) (w : world) :
  store_wf s → timestamps_round_trip s →
  ∃ out,
    MemoryStore.from_dict (MemoryStore.to_dict s) w
    = (Ok (run_ops (replay_ops s) MemoryStore.new), printed out w).
Proof.
  intros (Hi & Hp & He) Hts.
  unfold MemoryStore.from_dict, MemoryStore.to_dict. simpl.
  unfold mbind, ST_bind, bind.
  rewrite load_evidence_run.
  - rewrite load_pathways_run.
    + destruct (load_insights_run (MemoryStore.insights s)
                  (run_ops (AddPolicyPathway <$> dict_values (MemoryStore.pathways s))
                     (run_ops (AddEvidenceCard <$> dict_values (MemoryStore.evidence s))
                        MemoryStore.new)) w) as [out Hrun].
      * destruct Hi as [_ Hi]. eapply Forall_impl; [exact Hi|].
        intros [k v] [Hk Hne]. simpl in *. congruence.
      * exists out. rewrite Hrun. unfold replay_ops, run_ops.
        by rewrite !fold_left_app.
    + destruct Hp as [_ Hp]. eapply Forall_impl; [exact Hp|].
      intros [k v] [Hk Hne]. simpl in *. congruence.
  - destruct He as [_ He]. unfold timestamps_round_trip, dict_values in Hts.
    rewrite Forall_fmap in Hts. rewrite Forall_forall in He, Hts.
    apply Forall_forall. intros [k v] Hin.
    destruct (He _ Hin) as [Hk Hne]. specialize (Hts _ Hin).
    simpl in *. split; [congruence | done].
Qed.
End SerializationFacts.

(** *** What the replay builds *)

Lemma run_ops_add_evidence (cards : list AtomicEvidenceCard.t)
    (s : MemoryStore.t) :
  run_ops (AddEvidenceCard <$> cards) s
  = {| MemoryStore.insights := MemoryStore.insights s;
       MemoryStore.pathways := MemoryStore.pathways s;
       MemoryStore.evidence :=
         file_all AtomicEvidenceCard.id cards (MemoryStore.evidence s) |}.
Proof.
  unfold run_ops, file_all. revert s.
  induction cards as [|card cards IH]; intros s; [by destruct s|].
  simpl. by rewrite IH.
Qed.

Lemma run_ops_add_pathways (pathways : list PolicyPathway.t)
    (s : MemoryStore.t) :
  run_ops (AddPolicyPathway <$> pathways) s
  = {| MemoryStore.insights := MemoryStore.insights s;
       MemoryStore.pathways :=
         file_all PolicyPathway.id pathways (MemoryStore.pathways s);
       MemoryStore.evidence := MemoryStore.evidence s |}.
Proof.
  unfold run_ops, file_all. revert s.
  induction pathways as [|pathway pathways IH]; intros s; [by destruct s|].
  simpl. by rewrite IH.
Qed.

Lemma add_insight_store (insight : Insight.t) (s : MemoryStore.t) :
  (MemoryStore.add_insight insight s).1
  = {| MemoryStore.insights :=
         dict_set (MemoryStore.insights s) (Insight.id insight) insight;
       MemoryStore.pathways := link_one (MemoryStore.pathways s) insight;
       MemoryStore.evidence := MemoryStore.evidence s |}.
Proof.
  unfold MemoryStore.add_insight, link_one.
  by destruct (dict_get (MemoryStore.pathways s) _).
Qed.

Lemma run_ops_add_insights (insights : list Insight.t) (s : MemoryStore.t) :
  run_ops (AddInsight <$> insights) s
  = {| MemoryStore.insights :=
         file_all Insight.id insights (MemoryStore.insights s);
       MemoryStore.pathways :=
         fold_left link_one insights (MemoryStore.pathways s);
       MemoryStore.evidence := MemoryStore.evidence s |}.
Proof.
  unfold run_ops, file_all. revert s.
  induction insights as [|insight insights IH]; intros s; [by destruct s|].
  cbn [fmap list_fmap fold_left apply_op].
  by rewrite IH, add_insight_store.
Qed.

Lemma set_linked_twice (p : PolicyPathway.t) (a b : option str) :
  PolicyPathway.set_linked_insight_id
    (PolicyPathway.set_linked_insight_id p a) b
  = PolicyPathway.set_linked_insight_id p b.
Proof. done. Qed.

Lemma set_linked_same (p : PolicyPathway.t) :
  PolicyPathway.set_linked_insight_id p (PolicyPathway.linked_insight_id p) = p.
Proof. by destruct p. Qed.

Lemma link_one_keys (pathways : dict PolicyPathway.t) (insight : Insight.t) :
  dict_keys (link_one pathways insight) = dict_keys pathways.
Proof.
  unfold link_one.
  destruct (dict_get pathways _) eqn:Hp; [|done].
  apply dict_keys_set_present. by rewrite Hp.
Qed.

Lemma link_all_keys (insights : list Insight.t)
    (pathways : dict PolicyPathway.t) :
  dict_keys (fold_left link_one insights pathways) = dict_keys pathways.
Proof.
  revert pathways. induction insights as [|i insights IH]; intros pw; [done|].
  simpl. by rewrite IH, link_one_keys.
Qed.

(** After all the insights are linked, a pathway carries the id of the
    last insight that names it, or its old link when none does. *)
Lemma link_all_lookup (insights : list Insight.t)
    (pathways : dict PolicyPathway.t) (pid : str) :
  dict_get (fold_left link_one insights pathways) pid
  = (fun p =>
       PolicyPathway.set_linked_insight_id p
         match last (List.filter
                       (fun i => bool_decide (Insight.source_pathway_id i = pid))
                       insights) with
         | Some i => Some (Insight.id i)
         | None => PolicyPathway.linked_insight_id p
         end)
      <$> dict_get pathways pid.
Proof.
  induction insights as [|i insights IH] using rev_ind.
  - simpl. destruct (dict_get pathways pid) as [p|]; [|done].
    simpl. by rewrite set_linked_same.
  - rewrite fold_left_app. simpl. rewrite List.filter_app. simpl.
    unfold link_one at 1.
    destruct (decide (Insight.source_pathway_id i = pid)) as [Heq|Hne].
    + rewrite bool_decide_eq_true_2 by done. rewrite last_snoc.
      subst pid.
      destruct (dict_get (fold_left link_one insights pathways)
                  (Insight.source_pathway_id i)) as [p'|] eqn:Hp'.
      * rewrite dict_get_set_eq.
        destruct (dict_get pathways (Insight.source_pathway_id i)) as [p|];
          [|done].
        simpl in *. injection IH as ->. by rewrite set_linked_twice.
      * rewrite Hp'.
        by destruct (dict_get pathways (Insight.source_pathway_id i)).
    + rewrite bool_decide_eq_false_2 by done. rewrite app_nil_r.
      destruct (dict_get (fold_left link_one insights pathways)
                  (Insight.source_pathway_id i)); [|done].
      by rewrite dict_get_set_ne.
Qed.

(** Two dicts with the same keys, in order, and the same value under
    each key are the same dict. *)
Lemma dict_eq {V} (d1 d2 : dict V) :
  NoDup (dict_keys d1) →
  dict_keys d1 = dict_keys d2 →
  (∀ k, dict_get d1 k = dict_get d2 k) →
  d1 = d2.
Proof.
  unfold dict_keys. revert d2.
  induction d1 as [|[k v] d1 IH]; intros [|[k2 v2] d2] Hnd Hkeys Hget;
    try done.
  simpl in Hkeys. injection Hkeys as <- Hkeys.
  assert (d1.*1 = d2.*1) as Hkeys' by exact Hkeys.
  apply NoDup_cons in Hnd as [Hk Hnd].
  pose proof (Hget k) as Hv. simpl in Hv. rewrite !decide_True in Hv by done.
  injection Hv as <-. f_equal. apply IH; [done..|].
  intros k'. destruct (decide (k = k')) as [<-|Hne].
  - transitivity (@None V); [|symmetry].
    + by apply dict_get_None_keys.
    + apply dict_get_None_keys. unfold dict_keys. by rewrite <-Hkeys'.
  - specialize (Hget k'). simpl in Hget. by rewrite !decide_False in Hget.
Qed.

Lemma replay_builds (s : MemoryStore.t) :
  store_wf s →
  run_ops (replay_ops s) MemoryStore.new
  = {| MemoryStore.insights := MemoryStore.insights s;
       MemoryStore.pathways :=
         fold_left link_one (dict_values (MemoryStore.insights s))
           (MemoryStore.pathways s);
       MemoryStore.evidence := MemoryStore.evidence s |}.
Proof.
  intros (Hi & Hp & He). unfold replay_ops, run_ops.
  rewrite !fold_left_app. fold (run_ops (AddEvidenceCard <$> dict_values (MemoryStore.evidence s)) MemoryStore.new).
  rewrite run_ops_add_evidence.
  match goal with
  | |- context [fold_left apply_op (AddPolicyPathway <$> ?l) ?s0] =>
      change (fold_left apply_op (AddPolicyPathway <$> l) s0)
        with (run_ops (AddPolicyPathway <$> l) s0)
  end.
  rewrite run_ops_add_pathways.
  match goal with
  | |- context [fold_left apply_op (AddInsight <$> ?l) ?s0] =>
      change (fold_left apply_op (AddInsight <$> l) s0)
        with (run_ops (AddInsight <$> l) s0)
  end.
  rewrite run_ops_add_insights. simpl.
  by rewrite !file_all_filed.
Qed.

(** *** Stores built by the operations are well formed *)

Lemma dict_set_filed {V} (id_of : V → str) (d : dict V) k v :
  filed_by_id id_of d → k = id_of v → k ≠ [] →
  filed_by_id id_of (dict_set d k v).
Proof.
  intros [Hnd Hid] Hk Hne. split.
  - destruct (dict_get d k) as [v0|] eqn:Hget.
    + rewrite dict_keys_set_present; [done | by rewrite Hget].
    + rewrite dict_keys_set_absent by done.
      apply NoDup_app. split; [done|]. split; [|apply NoDup_singleton].
      intros k' Hin Hin'. apply list_elem_of_singleton in Hin' as ->.
      by apply dict_get_None_keys in Hget.
  - clear Hnd. induction d as [|[k0 v0] d IH]; simpl.
    + by repeat constructor.
    + apply Forall_cons in Hid as [Hkv Hid].
      destruct (decide (k0 = k)) as [->|Hk0]; constructor; auto.
Qed.

Lemma store_wf_new : store_wf MemoryStore.new.
Proof. repeat split; constructor. Qed.

Lemma apply_op_wf (s : MemoryStore.t) (op : store_op) :
  op_has_id op → store_wf s → store_wf (apply_op s op).
Proof.
  intros Hop (Hi & Hp & He). destruct op as [card|pathway|insight]; simpl.
  - split; [done|]. split; [done|]. by apply dict_set_filed.
  - split; [done|]. split; [|done]. by apply dict_set_filed.
  - rewrite add_insight_store. simpl. split; [by apply dict_set_filed|].
    split; [|done]. unfold link_one.
    destruct (dict_get (MemoryStore.pathways s) _) as [p|] eqn:Hget; [|done].
    apply dict_get_Some_elem in Hget. pose proof Hp as [Hnd Hid].
    rewrite Forall_forall in Hid. destruct (Hid _ Hget) as [Hk Hne].
    simpl in *. by apply dict_set_filed.
Qed.

Lemma run_ops_wf (ops : list store_op) (s : MemoryStore.t) :
  Forall op_has_id ops → store_wf s → store_wf (run_ops ops s).
Proof.
  unfold run_ops. intros Hops. revert s.
  induction Hops as [|op ops Hop _ IH]; intros s Hs; [done|].
  simpl. by apply IH, apply_op_wf.
Qed.

(** The pathways after the replay of the insights. *)
Lemma relinked_lookup (s : MemoryStore.t) (pid : str) (p : PolicyPathway.t) :
  store_wf s →
  MemoryStore.get_policy_pathway s pid = Some p →
  dict_get
    (fold_left link_one (dict_values (MemoryStore.insights s))
       (MemoryStore.pathways s)) pid
  = Some (PolicyPathway.set_linked_insight_id p (reloaded_link s p)).
Proof.
  intros Hwf Hget. unfold MemoryStore.get_policy_pathway in Hget.
  rewrite link_all_lookup, Hget. simpl. do 2 f_equal.
  destruct Hwf as (_ & [_ Hid] & _). rewrite Forall_forall in Hid.
  destruct (Hid _ (dict_get_Some_elem _ _ _ Hget)) as [Hk _]. simpl in Hk.
  unfold reloaded_link, last_insight_naming. rewrite <-Hk.
  by destruct (last _).
Qed.

Section RoundTrip.
Context `{PyRuntime}.

(** ** MemoryStore.to_dict and MemoryStore.from_dict *)

(** C7, as the code has it.  For a store as the operations build it,
    [from_dict (to_dict store)] returns the store that replaying
    Evidence, then Pathway, then Insight builds: the same evidence and
    the same insights, the pathways under the same ids in the same
    order with the same evidence ids.  The link of each pathway is the
    id of the last insight, in the order of the insights dict, that
    names it, and the link it had when no insight names it. *)
Theorem from_dict_to_dict (s : MemoryStore.t) (w : world) :
  store_wf s →
  timestamps_round_trip s →
  ∃ s' out,
    MemoryStore.from_dict (MemoryStore.to_dict s) w = (Ok s', printed out w)
    ∧ s' = run_ops (replay_ops s) MemoryStore.new
    ∧ MemoryStore.evidence s' = MemoryStore.evidence s
    ∧ MemoryStore.insights s' = MemoryStore.insights s
    ∧ dict_keys (MemoryStore.pathways s') = dict_keys (MemoryStore.pathways s)
    ∧ ∀ pid p,
        MemoryStore.get_policy_pathway s pid = Some p →
        MemoryStore.get_policy_pathway s' pid
        = Some (PolicyPathway.set_linked_insight_id p (reloaded_link s p)).
Proof.
  intros Hwf Hts.
  destruct (from_dict_replays s w Hwf Hts) as [out Hrun].
  exists (run_ops (replay_ops s) MemoryStore.new), out.
  split; [done|]. split; [done|].
  rewrite (replay_builds s Hwf). simpl.
  split; [done|]. split; [done|]. split; [apply link_all_keys|].
  intros pid p Hget. by apply relinked_lookup.
Qed.

(** When every pathway already carries the link that a reload gives
    it, the round trip returns the store itself. *)
Lemma from_dict_to_dict_settled (s : MemoryStore.t) (w : world) :
  store_wf s → timestamps_round_trip s → links_settled s →
  ∃ out, MemoryStore.from_dict (MemoryStore.to_dict s) w = (Ok s, printed out w).
Proof.
  intros Hwf Hts Hsettled.
  destruct (from_dict_replays s w Hwf Hts) as [out Hrun].
  exists out. rewrite Hrun, (replay_builds s Hwf). do 2 f_equal.
  pose proof (relinked_lookup s) as Hlinks.
  destruct s as [si sp se]. simpl in *. f_equal.
  apply dict_eq.
  - rewrite link_all_keys. by destruct Hwf as (_ & [? _] & _).
  - apply link_all_keys.
  - intros k. destruct (dict_get sp k) as [p|] eqn:Hget.
    + rewrite (Hlinks k p Hwf Hget).
      unfold links_settled in Hsettled. rewrite Forall_forall in Hsettled.
      specialize (Hsettled _ (dict_get_Some_elem _ _ _ Hget)).
      simpl in Hsettled. by rewrite Hsettled, set_linked_same.
    + apply dict_get_None_keys. rewrite link_all_keys.
      by apply dict_get_None_keys.
Qed.
End RoundTrip.

Lemma from_dict_to_dict_witness :
  ∃ s' out,
    MemoryStore.from_dict (MemoryStore.to_dict reflected_store) world0
    = (Ok s', printed out world0)
    ∧ link_of s' (lit "p1") = Some (Some (lit "i1")).
Proof.
  destruct (from_dict_to_dict reflected_store world0)
    as (s' & out & Hrun & _ & _ & _ & _ & Hlinks).
  - apply run_ops_wf; [|apply run_ops_wf; [|apply store_wf_new]];
      repeat constructor; by vm_compute.
  - repeat constructor.
  - exists s', out. split; [exact Hrun|].
    unfold link_of. by rewrite (Hlinks (lit "p1") _ eq_refl).
Defined.

(** C7, as the claim has it, fails: an insight added before its pathway
    leaves the pathway unlinked, and the reload links it. *)
Lemma reload_links_orphan_insight :
  link_of orphan_store (lit "p1") = Some None
  ∧ match (MemoryStore.from_dict (MemoryStore.to_dict orphan_store) world0).1
    with
    | Ok reloaded => link_of reloaded (lit "p1")
    | Raise _ => None
    end
    = Some (Some (lit "i1")).
Proof. split; reflexivity. Qed.

Lemma distill_content_deterministic_witness :
  (ReflectAgent._distill_insight_content_simple_keywords sample_pathway
     evidence_store 1 world0).1
  = (ReflectAgent._distill_insight_content_simple_keywords sample_pathway
       evidence_store 1 world1).1
  ∧ (ReflectAgent._distill_insight_content_random_choice sample_pathway
       evidence_store 1 world0).1
    = (ReflectAgent._distill_insight_content_random_choice sample_pathway
         evidence_store 1 world1).1.
Proof.
  destruct (distill_content_deterministic AsciiRuntime.runtime
              AsciiRuntime.runtime sample_pathway evidence_store 1
              world0 world1) as [Hkeywords Hrandom]; [reflexivity..|].
  split; [exact Hkeywords | apply Hrandom; reflexivity].
Defined.

(** Across interpreters the keyword content is not determined by the
    pathway, the store and the outcome sign: on a pathway whose assistant
    used ToolA and then ToolB, the tool named is the first item of
    [list(set(...))], which is ToolA under one layout of the set and ToolB
    under another. *)
Lemma distill_keywords_follow_set_order :
  (@ReflectAgent._distill_insight_content_simple_keywords AsciiRuntime.runtime
     sample_pathway tools_store 1 world0).1
  = Ok (lit "Success Principle: Tools of note: ToolA. ")
  ∧ (@ReflectAgent._distill_insight_content_simple_keywords other_seed
       sample_pathway tools_store 1 world0).1
    = Ok (lit "Success Principle: Tools of note: ToolB. ")
  ∧ (@ReflectAgent._distill_insight_content_simple_keywords
       AsciiRuntime.runtime sample_pathway tools_store 1 world0).1
    ≠ (@ReflectAgent._distill_insight_content_simple_keywords other_seed
         sample_pathway tools_store 1 world0).1.
Proof. split_and!; by vm_compute. Qed.

(** The keyword strategy on the sample pathway: the cards are read in
    timestamp order, whatever the order of the ids. *)
Example distill_keywords_sample :
  (ReflectAgent._distill_insight_content_simple_keywords sample_pathway
     evidence_store 1 world0).1
  = Ok (lit "Success Principle: Context: Plan: fold protein Alpha. Key success factors: Used SuperFold with success. Tools of note: SuperFold. ").
Proof. by vm_compute. Qed.

Example distill_random_sample :
  (ReflectAgent._distill_insight_content_random_choice sample_pathway
     evidence_store (-1) world0).1
  = Ok (lit "Failure Trap (random pick): Plan: fold protein Alpha").
Proof. by vm_compute. Qed.

(** A whole reflection on the sample trajectory, filed as a failure:
    three cards, one pathway and one insight reach the negative store,
    the pathway is linked to the insight, and the positive store stays
    empty. *)
Example update_memory_sample :
  match ReflectAgent.update_memory
          {| ReflectAgent.llm_simulation_mode := lit "simple_keywords" |}
          sample_trajectory (-1) (HDPM.new, world0) with
  | (Ok (Some insight, Some pathway, cards), (h, _)) =>
      length cards = 3%nat
      ∧ HDPM.positive_memory h = MemoryStore.new
      ∧ length (MemoryStore.evidence (HDPM.negative_memory h)) = 3%nat
      ∧ link_of (HDPM.negative_memory h) (PolicyPathway.id pathway)
        = Some (Some (Insight.id insight))
      ∧ PolicyPathway.linked_insight_id pathway = Some (Insight.id insight)
      ∧ MemoryStore.get_insight (HDPM.negative_memory h) (Insight.id insight)
        = Some insight
  | _ => False
  end.
Proof. vm_compute. repeat split; reflexivity. Qed.

(** ** Lookups after a sequence of operations *)

Lemma last_filed_cons {V} (id_of : V → str) (k : str) (v : V) (vs : list V)
    (old : option V) :
  last_filed id_of k (v :: vs) old
  = last_filed id_of k vs (if decide (id_of v = k) then Some v else old).
Proof.
  unfold last_filed. cbn [List.filter].
  destruct (decide (id_of v = k)) as [Heq|Hne].
  - rewrite bool_decide_eq_true_2 by done.
    destruct (List.filter _ vs) as [|x l] eqn:E; [done|].
    by rewrite last_cons, <-E; destruct (last (List.filter _ vs)) eqn:E';
      [|rewrite E in E'; rewrite last_None in E'].
  - by rewrite bool_decide_eq_false_2 by done.
Qed.

Lemma dict_keys_set {V} (d : dict V) k v :
  dict_keys (dict_set d k v) = keys_after_set d k.
Proof.
  unfold keys_after_set. case_bool_decide as Hin.
  - apply dict_keys_set_present.
    destruct (dict_get d k) eqn:E; [done|]. by apply dict_get_None_keys in E.
  - apply dict_keys_set_absent. by apply dict_get_None_keys.
Qed.

(** X1. A lookup after any sequence of store operations returns the
    last evidence card (respectively insight) that the sequence filed under the
    id asked for, and what the store held before when the sequence filed none
    under it: an entity is replaced only by a later one with the same id, and
    operations on other ids or other levels do not disturb it. *)
Theorem lookup_returns_last_filed (ops : list store_op) (s : MemoryStore.t)
    (k : str) :
  MemoryStore.get_evidence_card (run_ops ops s) k
  = last_filed AtomicEvidenceCard.id k (added_cards ops)
      (MemoryStore.get_evidence_card s k)
  ∧ MemoryStore.get_insight (run_ops ops s) k
    = last_filed Insight.id k (added_insights ops) (MemoryStore.get_insight s k).
Proof.
  revert s. induction ops as [|op ops IH]; intros s; [done|].
  unfold run_ops in *. cbn [fold_left].
  destruct (IH (apply_op s op)) as [-> ->]. clear IH.
  destruct op as [card|pathway|insight].
  - change (added_cards (AddEvidenceCard card :: ops))
      with (card :: added_cards ops).
    rewrite last_filed_cons. split; [|done]. f_equal.
    unfold MemoryStore.get_evidence_card. cbn.
    destruct (decide (AtomicEvidenceCard.id card = k)) as [<-|Hne].
    + apply dict_get_set_eq.
    + by apply dict_get_set_ne.
  - done.
  - change (added_insights (AddInsight insight :: ops))
      with (insight :: added_insights ops).
    rewrite last_filed_cons. cbn [apply_op]. rewrite add_insight_store.
    split; [done|]. f_equal. unfold MemoryStore.get_insight. cbn.
    destruct (decide (Insight.id insight = k)) as [<-|Hne].
    + apply dict_get_set_eq.
    + by apply dict_get_set_ne.
Qed.

(** X2. Adding an entity never reorders a store: when its id is already
    a key, the keys of its dict and their order stay as they are (the entity
    takes the place of the one it replaces), and otherwise the id is appended
    as the last key.  Linking, the one other write of [add_insight], leaves
    the keys of the pathways as they are. *)
Theorem adding_keeps_iteration_order (s : MemoryStore.t)
    (card : AtomicEvidenceCard.t) (pathway : PolicyPathway.t)
    (insight : Insight.t) :
  dict_keys (MemoryStore.evidence (MemoryStore.add_evidence_card card s))
  = keys_after_set (MemoryStore.evidence s) (AtomicEvidenceCard.id card)
  ∧ dict_keys (MemoryStore.pathways (MemoryStore.add_policy_pathway pathway s))
    = keys_after_set (MemoryStore.pathways s) (PolicyPathway.id pathway)
  ∧ dict_keys (MemoryStore.insights (MemoryStore.add_insight insight s).1)
    = keys_after_set (MemoryStore.insights s) (Insight.id insight)
  ∧ dict_keys (MemoryStore.pathways (MemoryStore.add_insight insight s).1)
    = dict_keys (MemoryStore.pathways s).
Proof.
  rewrite add_insight_store. cbn.
  split_and!; try apply dict_keys_set. apply link_one_keys.
Qed.

Lemma filed_by_id_lookup {V} (id_of : V → str) (d : dict V) k v :
  filed_by_id id_of d → dict_get d k = Some v → id_of v = k ∧ k ≠ [].
Proof.
  intros [_ Hall] Hget. apply dict_get_Some_elem in Hget.
  rewrite Forall_forall in Hall. destruct (Hall _ Hget) as [Hk Hne].
  cbn in Hk, Hne. by subst k.
Qed.

(** X3. Whatever sequence of operations is applied to a store in which
    every entity sits once, under its own id, leaves such a store, provided the
    entities added have ids (as those the constructors build do): each dict
    holds a key once, and looking an id up returns nothing or an entity with
    that very id, also for a pathway that [add_insight] has relinked. *)
Theorem operations_keep_entities_under_their_ids (ops : list store_op)
    (s : MemoryStore.t) :
  Forall op_has_id ops → store_wf s →
  store_wf (run_ops ops s)
  ∧ (∀ k card, MemoryStore.get_evidence_card (run_ops ops s) k = Some card →
               AtomicEvidenceCard.id card = k)
  ∧ (∀ k pathway,
       MemoryStore.get_policy_pathway (run_ops ops s) k = Some pathway →
       PolicyPathway.id pathway = k)
  ∧ (∀ k insight, MemoryStore.get_insight (run_ops ops s) k = Some insight →
                  Insight.id insight = k).
Proof.
  intros Hops Hwf.
  pose proof (run_ops_wf ops s Hops Hwf) as Hwf'.
  split; [done|]. destruct Hwf' as (Hi & Hp & He).
  split_and!; intros k v Hget.
  - by destruct (filed_by_id_lookup _ _ _ _ He Hget).
  - by destruct (filed_by_id_lookup _ _ _ _ Hp Hget).
  - by destruct (filed_by_id_lookup _ _ _ _ Hi Hget).
Qed.

Lemma operations_keep_entities_under_their_ids_witness :
  store_wf retrieval_store
  ∧ (∀ k insight, MemoryStore.get_insight retrieval_store k = Some insight →
                  Insight.id insight = k).
Proof.
  assert (Forall op_has_id
            [AddPolicyPathway sample_pathway;
             AddPolicyPathway
               {| PolicyPathway.id := lit "p2";
                  PolicyPathway.evidence_card_ids := [];
                  PolicyPathway.linked_insight_id := None |};
             AddInsight
               {| Insight.id := lit "i2";
                  Insight.content := lit "Energy minimization helps protein Beta.";
                  Insight.source_pathway_id := lit "p2" |};
             AddInsight
               {| Insight.id := lit "i3";
                  Insight.content := lit "Protein Alpha forms an alpha-helix";
                  Insight.source_pathway_id := lit "p9" |};
             AddInsight (sample_insight "i1" "p1")]) as Hops
    by (repeat constructor; done).
  destruct (operations_keep_entities_under_their_ids _ MemoryStore.new Hops
              store_wf_new) as (Hwf & _ & _ & Hi).
  split; [exact Hwf|exact Hi].
Defined.

(** X4. For a pathway of the store whose cards that are present carry
    timestamps of one kind (all naive or all aware),
    [get_evidence_cards_for_pathway] returns exactly the cards found under the
    pathway's ids, in ascending order of timestamp with cards of equal
    timestamp in the order of the ids, and prints one warning for each id that
    is not in the store, in the order of the ids. *)
Theorem pathway_cards_in_time_order (s : MemoryStore.t) (pid : str)
    (p : PolicyPathway.t) (aware : bool) :
  MemoryStore.get_policy_pathway s pid = Some p →
  awareness aware
    (omap (MemoryStore.get_evidence_card s) (PolicyPathway.evidence_card_ids p)) →
  ∃ cards,
    MemoryStore.get_evidence_cards_for_pathway s pid
    = (Ok cards,
       (fun card_id => MemoryStore.missing_card_warning card_id pid)
         <$> List.filter
               (fun card_id =>
                  bool_decide (MemoryStore.get_evidence_card s card_id = None))
               (PolicyPathway.evidence_card_ids p))
    ∧ cards ≡ₚ omap (MemoryStore.get_evidence_card s)
                 (PolicyPathway.evidence_card_ids p)
    ∧ Sorted (fun a b => (micros_of a ≤ micros_of b)%Z) cards
    ∧ ∀ v, List.filter (fun c => (micros_of c =? v)%Z) cards
           = List.filter (fun c => (micros_of c =? v)%Z)
               (omap (MemoryStore.get_evidence_card s)
                  (PolicyPathway.evidence_card_ids p)).
Proof.
  intros Hp Haware.
  destruct (get_evidence_cards_comparable s pid p aware Hp Haware)
    as (cards & Hcards & Hrest).
  exists cards. split; [|done].
  rewrite <-Hcards, <-collect_cards_warnings.
  unfold MemoryStore.get_evidence_cards_for_pathway. rewrite Hp.
  by destruct (MemoryStore.collect_cards s pid _).
Qed.

Lemma pathway_cards_in_time_order_witness :
  ∃ cards,
    MemoryStore.get_evidence_cards_for_pathway evidence_store (lit "p1")
    = (Ok cards, [])
    ∧ AtomicEvidenceCard.id <$> cards = [lit "e1"; lit "e2"; lit "e3"].
Proof.
  destruct (pathway_cards_in_time_order evidence_store (lit "p1")
              {| PolicyPathway.id := lit "p1";
                 PolicyPathway.evidence_card_ids := [lit "e3"; lit "e1"; lit "e2"];
                 PolicyPathway.linked_insight_id := None |} false)
    as (cards & Hrun & _); [reflexivity|by repeat constructor|].
  exists cards. split; [exact Hrun|].
  vm_compute in Hrun. by simplify_eq.
Defined.

(** ** Constructors *)

Lemma id_or_fresh_run (prefix : str) (given : option str) (w : world) :
  id_or_fresh prefix given w
  = (Ok (assigned_id prefix given w), after_id given w).
Proof. by destruct given as [[|c s]|]. Qed.

(** X5. The constructors never leave an entity without an id: a given
    id that is not empty is kept and no UUID is drawn, and a missing or empty
    one is replaced by the prefix of the class (["aec_"], ["pp_"],
    ["insight_"]) followed by the next UUID of the source.  Every other field
    is stored as given; an evidence card without a timestamp gets one reading
    of the clock, taken after the id is assigned. *)
Theorem constructors_assign_ids (ids : list str) (link given : option str)
    (content agent source : str) (ts : datetime) (w : world) :
  PolicyPathway.init ids given link w
  = (Ok {| PolicyPathway.id := assigned_id (lit "pp_") given w;
           PolicyPathway.evidence_card_ids := ids;
           PolicyPathway.linked_insight_id := link |},
     after_id given w)
  ∧ Insight.init content source given w
    = (Ok {| Insight.id := assigned_id (lit "insight_") given w;
             Insight.content := content;
             Insight.source_pathway_id := source |},
       after_id given w)
  ∧ AtomicEvidenceCard.init content agent (Some ts) given w
    = (Ok {| AtomicEvidenceCard.id := assigned_id (lit "aec_") given w;
             AtomicEvidenceCard.content := content;
             AtomicEvidenceCard.agent_type := agent;
             AtomicEvidenceCard.timestamp := ts |},
       after_id given w)
  ∧ (AtomicEvidenceCard.init content agent None given w).1
    = Ok {| AtomicEvidenceCard.id := assigned_id (lit "aec_") given w;
            AtomicEvidenceCard.content := content;
            AtomicEvidenceCard.agent_type := agent;
            AtomicEvidenceCard.timestamp := naive (clock w (ticks w)) |}
  ∧ assigned_id (lit "pp_") given w ≠ []
  ∧ assigned_id (lit "insight_") given w ≠ []
  ∧ assigned_id (lit "aec_") given w ≠ [].
Proof.
  unfold PolicyPathway.init, Insight.init, AtomicEvidenceCard.init,
    mbind, ST_bind, bind.
  rewrite !id_or_fresh_run. split_and!; try done;
    by destruct given as [[|c s]|].
Qed.

Section LoadingFacts.
Context `{PyRuntime}.

(** X6. Each entity is rebuilt from its own dict exactly, and without
    touching the world, provided it has an id and, for a card, its timestamp
    survives [isoformat] and [fromisoformat]; a card dict whose timestamp text
    does not parse makes [from_dict] raise [ValueError]. *)
Theorem entities_survive_their_dicts (card : AtomicEvidenceCard.t)
    (pathway : PolicyPathway.t) (insight : Insight.t) (w : world) :
  AtomicEvidenceCard.id card ≠ [] →
  fromisoformat (isoformat (AtomicEvidenceCard.timestamp card))
  = Some (AtomicEvidenceCard.timestamp card) →
  PolicyPathway.id pathway ≠ [] →
  Insight.id insight ≠ [] →
  AtomicEvidenceCard.from_dict (AtomicEvidenceCard.to_dict card) w
  = (Ok card, w)
  ∧ PolicyPathway.from_dict (PolicyPathway.to_dict pathway) w
    = (Ok pathway, w)
  ∧ Insight.from_dict (Insight.to_dict insight) w = (Ok insight, w)
  ∧ ∀ d, fromisoformat (AtomicEvidenceCard.d_timestamp d) = None →
         AtomicEvidenceCard.from_dict d w = (Raise ValueError, w).
Proof.
  intros Hc Hts Hp Hi. split_and!.
  - by apply card_from_dict_to_dict.
  - by apply pathway_from_dict_to_dict.
  - by apply insight_from_dict_to_dict.
  - intros d Hd. unfold AtomicEvidenceCard.from_dict, mbind, ST_bind, bind.
    by rewrite Hd.
Qed.

Lemma card_from_dict_outcome (d : AtomicEvidenceCard.data) (w : world) :
  match fromisoformat (AtomicEvidenceCard.d_timestamp d) with
  | Some _ => ∃ card w', AtomicEvidenceCard.from_dict d w = (Ok card, w')
  | None => AtomicEvidenceCard.from_dict d w = (Raise ValueError, w)
  end.
Proof.
  unfold AtomicEvidenceCard.from_dict, AtomicEvidenceCard.init,
    mbind, ST_bind, bind.
  destruct (fromisoformat _) as [ts|]; [|done].
  change (ret ts w) with (Ok ts, w). cbn beta iota.
  rewrite id_or_fresh_run. by eexists _, _.
Qed.

Lemma load_evidence_malformed (items : dict AtomicEvidenceCard.data)
    (store : MemoryStore.t) (w : world) :
  Exists
    (fun kv => fromisoformat (AtomicEvidenceCard.d_timestamp kv.2) = None)
    items →
  (MemoryStore.load_evidence items store w).1 = Raise ValueError.
Proof.
  revert store w. induction items as [|[k d] items IH]; intros store w Hex.
  { by apply Exists_nil in Hex. }
  cbn [MemoryStore.load_evidence]. unfold mbind, ST_bind, bind.
  pose proof (card_from_dict_outcome d w) as Hd.
  destruct (fromisoformat (AtomicEvidenceCard.d_timestamp d)) eqn:E.
  - destruct Hd as (card & w' & ->). apply IH.
    apply Exists_cons in Hex as [Hbad|?]; [|done]. cbn in Hbad. congruence.
  - by rewrite Hd.
Qed.

(** X7. Loading a store fails as a whole on one bad record: when the
    timestamp text of some evidence record does not parse,
    [MemoryStore.from_dict] raises [ValueError], whatever the pathways and
    insights are, and so does [HDPM.from_dict] when the record is in the
    positive memory. *)
Theorem from_dict_rejects_malformed_timestamp (d : MemoryStore.data)
    (negative : option MemoryStore.data) (w : world) :
  Exists
    (fun kv => fromisoformat (AtomicEvidenceCard.d_timestamp kv.2) = None)
    (default [] (MemoryStore.d_evidence d)) →
  (MemoryStore.from_dict d w).1 = Raise ValueError
  ∧ (HDPM.from_dict
       {| HDPM.d_positive_memory := Some d;
          HDPM.d_negative_memory := negative |} w).1
    = Raise ValueError.
Proof.
  intros Hex.
  assert ((MemoryStore.from_dict d w).1 = Raise ValueError) as Hstore.
  { unfold MemoryStore.from_dict, mbind, ST_bind, bind.
    pose proof (load_evidence_malformed _ MemoryStore.new w Hex) as Hload.
    destruct (MemoryStore.load_evidence _ _ w) as [r w']. cbn [fst] in Hload.
    by subst r. }
  split; [done|].
  unfold HDPM.from_dict, mbind, ST_bind, bind.
  cbn [default from_option id HDPM.d_positive_memory].
  destruct (MemoryStore.from_dict d w) as [r w']. cbn [fst] in Hstore.
  by subst r.
Qed.

(** X8. Saving and loading the whole memory returns it as it was: for
    an HDPM instance whose two stores hold each entity under its own id, with
    timestamps that survive [isoformat] and [fromisoformat] and with every
    pathway that a stored insight names linked to the last such insight,
    [HDPM.from_dict (HDPM.to_dict hdpm)] is [hdpm] itself; the world changes
    only by the lines printed. *)
Theorem hdpm_from_dict_to_dict (h : HDPM.t) (w : world) :
  store_wf (HDPM.positive_memory h) → store_wf (HDPM.negative_memory h) →
  timestamps_round_trip (HDPM.positive_memory h) →
  timestamps_round_trip (HDPM.negative_memory h) →
  links_settled (HDPM.positive_memory h) →
  links_settled (HDPM.negative_memory h) →
  ∃ out, HDPM.from_dict (HDPM.to_dict h) w = (Ok h, printed out w).
Proof.
  intros Hwp Hwn Htp Htn Hlp Hln.
  destruct (from_dict_to_dict_settled _ w Hwp Htp Hlp) as [out1 Hpos].
  destruct (from_dict_to_dict_settled _ (printed out1 w) Hwn Htn Hln)
    as [out2 Hneg].
  exists (out1 ++ out2).
  unfold HDPM.from_dict, HDPM.to_dict, mbind, ST_bind, bind.
  cbn [default from_option id HDPM.d_positive_memory HDPM.d_negative_memory].
  rewrite Hpos, Hneg, printed_app. by destruct h.
Qed.
End LoadingFacts.

Lemma entities_survive_their_dicts_witness :
  AtomicEvidenceCard.from_dict
    (AtomicEvidenceCard.to_dict (sample_card "e1" (naive 1672567200000000)))
    world0
  = (Ok (sample_card "e1" (naive 1672567200000000)), world0)
  ∧ Insight.from_dict (Insight.to_dict (sample_insight "i1" "p1")) world0
    = (Ok (sample_insight "i1" "p1"), world0).
Proof.
  destruct (entities_survive_their_dicts
              (sample_card "e1" (naive 1672567200000000)) sample_pathway
              (sample_insight "i1" "p1") world0)
    as (Hc & _ & Hi & _); [done|reflexivity|done|done|].
  split; [exact Hc|exact Hi].
Defined.

Lemma from_dict_rejects_malformed_timestamp_witness :
  (MemoryStore.from_dict
     {| MemoryStore.d_insights := None;
        MemoryStore.d_pathways := None;
        MemoryStore.d_evidence :=
          Some [(lit "e1",
                 {| AtomicEvidenceCard.d_id := lit "e1";
                    AtomicEvidenceCard.d_content := lit "Used SuperFold";
                    AtomicEvidenceCard.d_agent_type := lit "Assistant";
                    AtomicEvidenceCard.d_timestamp := lit "yesterday" |})] |}
     world0).1
  = Raise ValueError.
Proof.
  refine (proj1 (from_dict_rejects_malformed_timestamp _ None world0 _)).
  apply Exists_cons_hd. reflexivity.
Defined.

Lemma hdpm_from_dict_to_dict_witness :
  ∃ out,
    HDPM.from_dict
      (HDPM.to_dict
         {| HDPM.positive_memory := reflected_store;
            HDPM.negative_memory := MemoryStore.new |}) world0
    = (Ok {| HDPM.positive_memory := reflected_store;
             HDPM.negative_memory := MemoryStore.new |},
       printed out world0).
Proof.
  apply (hdpm_from_dict_to_dict
           {| HDPM.positive_memory := reflected_store;
              HDPM.negative_memory := MemoryStore.new |} world0).
  - apply run_ops_wf; [|apply run_ops_wf; [|apply store_wf_new]];
      repeat constructor; by vm_compute.
  - apply store_wf_new.
  - repeat constructor.
  - constructor.
  - repeat constructor.
  - constructor.
Defined.
(** ** More on retrieval *)

Lemma list_sort_perm {A} (lt : A → A → bool) (reverse : bool) (l : list A) :
  list_sort lt reverse l ≡ₚ l.
Proof.
  unfold list_sort. destruct reverse; [|apply sort_stable_perm].
  rewrite <-Permutation_rev, sort_stable_perm. symmetry. apply Permutation_rev.
Qed.

Lemma StronglySorted_take {A} (R : relation A) (l : list A) (n : nat) :
  StronglySorted R l → StronglySorted R (take n l).
Proof.
  intros Hl. revert n. induction Hl as [|x l Hl IH Hx]; intros [|n]; cbn;
    try constructor; [apply IH|].
  rewrite Forall_forall in *. intros y Hy. apply Hx.
  apply elem_of_take in Hy as (i & Hi & _). by eapply list_elem_of_lookup_2.
Qed.

Lemma StronglySorted_filter {A} (R : relation A) (f : A → bool) (l : list A) :
  StronglySorted R l → StronglySorted R (List.filter f l).
Proof.
  induction 1 as [|x l Hl IH Hx]; cbn; [constructor|].
  destruct (f x); [|done]. constructor; [done|].
  rewrite Forall_forall in *. intros y Hy. apply Hx.
  apply list_elem_of_In, filter_In in Hy as [Hy _]. by apply list_elem_of_In.
Qed.

Lemma resolve_pathways_app (store : MemoryStore.t) (l1 l2 : list Insight.t) :
  HDPM.resolve_pathways store (l1 ++ l2)
  = ((HDPM.resolve_pathways store l1).1.1
     ++ (HDPM.resolve_pathways store l2).1.1,
     (HDPM.resolve_pathways store l1).1.2
     ++ (HDPM.resolve_pathways store l2).1.2,
     (HDPM.resolve_pathways store l1).2 ++ (HDPM.resolve_pathways store l2).2).
Proof.
  induction l1 as [|insight l1 IH]; cbn [app HDPM.resolve_pathways].
  { by destruct (HDPM.resolve_pathways store l2) as [[? ?] ?]. }
  rewrite IH.
  destruct (HDPM.resolve_pathways store l1) as [[i1 p1] o1].
  destruct (HDPM.resolve_pathways store l2) as [[i2 p2] o2]. cbn.
  by destruct (MemoryStore.get_policy_pathway store _).
Qed.

Lemma resolve_pathways_warnings (store : MemoryStore.t) (top : list Insight.t) :
  (HDPM.resolve_pathways store top).2
  = HDPM.missing_pathway_warning
      <$> List.filter (fun insight => negb (has_pathway store insight)) top.
Proof.
  induction top as [|insight top IH]; [done|].
  cbn [HDPM.resolve_pathways List.filter].
  destruct (HDPM.resolve_pathways store top) as [[kept ps] out].
  cbn [snd] in IH. unfold has_pathway at 1.
  destruct (MemoryStore.get_policy_pathway store _) eqn:E; cbn [snd].
  - by rewrite bool_decide_eq_true_2 by done.
  - rewrite bool_decide_eq_false_2 by (by intros [? ?]). cbn. by f_equal.
Qed.

Lemma resolve_pathways_stored (store : MemoryStore.t) (top : list Insight.t) :
  Forall (fun pathway => pathway ∈ dict_values (MemoryStore.pathways store))
    (HDPM.resolve_pathways store top).1.2.
Proof.
  induction top as [|insight top IH]; cbn [HDPM.resolve_pathways].
  { constructor. }
  destruct (HDPM.resolve_pathways store top) as [[kept ps] out].
  destruct (MemoryStore.get_policy_pathway store _) as [p|] eqn:E; [|done].
  constructor; [|done].
  apply dict_get_Some_elem in E. unfold dict_values.
  apply list_elem_of_fmap. by exists (Insight.source_pathway_id insight, p).
Qed.

Lemma filter_length_split {A} (f : A → bool) (l : list A) :
  (length (List.filter f l) + length (List.filter (fun a => negb (f a)) l)
   = length l)%nat.
Proof. induction l as [|a l IH]; cbn; [done|]. destruct (f a); cbn; lia. Qed.

Section MoreRetrievalFacts.
Context `{PyRuntime}.

Lemma overlap_score (query : str) (insight : Insight.t) :
  overlap query insight = Reference.score query insight.
Proof.
  unfold overlap, Reference.score. rewrite !terms_normalize.
  f_equal. apply (comm_L (∩)).
Qed.

Lemma retrieve_ranked_top (query : str) (store : MemoryStore.t) (top_k : Z) :
  HDPM._retrieve_relevant_items_from_store query store top_k
  = HDPM.resolve_pathways store (ranked_top query store top_k).
Proof.
  unfold HDPM._retrieve_relevant_items_from_store, ranked_top.
  by destruct (top_k <=? 0)%Z.
Qed.

Lemma ranked_top_take (query : str) (store : MemoryStore.t) (top_k : Z) :
  ranked_top query store top_k
  = take (Z.to_nat top_k)
      (list_sort (score_lt query) true (Reference.candidates query store)).
Proof.
  unfold ranked_top. destruct (top_k <=? 0)%Z eqn:E.
  - apply Z.leb_le in E. by replace (Z.to_nat top_k) with 0%nat by lia.
  - apply top_insights_ranked.
Qed.

(** X9. Retrieval returns only what the store holds and the query
    touches: every insight returned is an insight of the store that shares at
    least one term with the query and whose source pathway is in the store,
    and every pathway returned is a pathway of the store. *)
Theorem retrieval_returns_matching_insights (query : str)
    (store : MemoryStore.t) (top_k : Z) :
  Forall
    (fun insight =>
       insight ∈ dict_values (MemoryStore.insights store)
       ∧ 0 < overlap query insight
       ∧ is_Some (MemoryStore.get_policy_pathway store
                    (Insight.source_pathway_id insight)))
    (HDPM._retrieve_relevant_items_from_store query store top_k).1.1
  ∧ Forall
      (fun pathway => pathway ∈ dict_values (MemoryStore.pathways store))
      (HDPM._retrieve_relevant_items_from_store query store top_k).1.2.
Proof.
  rewrite retrieve_ranked_top. split; [|apply resolve_pathways_stored].
  rewrite resolve_pathways_kept, ranked_top_take.
  apply Forall_forall. intros insight Hin.
  apply list_elem_of_In, filter_In in Hin as [Hin Hp].
  apply list_elem_of_In, elem_of_take in Hin as (i & Hin & _).
  apply list_elem_of_lookup_2 in Hin.
  rewrite list_sort_perm in Hin.
  apply list_elem_of_In, filter_In in Hin as [Hin Hs].
  split_and!.
  - by apply list_elem_of_In.
  - rewrite overlap_score. apply negb_true_iff, Nat.eqb_neq in Hs. lia.
  - unfold has_pathway in Hp. by apply bool_decide_eq_true in Hp.
Qed.

(** X10. The insights are returned best first: along the list returned
    the number of terms shared with the query never increases, also after the
    insights without a pathway have been dropped. *)
Theorem retrieval_returns_best_first (query : str) (store : MemoryStore.t)
    (top_k : Z) :
  Sorted (fun a b => overlap query b ≤ overlap query a)
    (HDPM._retrieve_relevant_items_from_store query store top_k).1.1.
Proof.
  rewrite retrieve_ranked_top, resolve_pathways_kept, ranked_top_take.
  apply StronglySorted_Sorted, StronglySorted_filter, StronglySorted_take.
  apply Sorted_StronglySorted.
  { intros a b c Hab Hbc. lia. }
  eapply Sorted_weaken;
    [|apply (list_sort_reverse_sorted
               (fun insight => Z.of_nat (Reference.score query insight))),
        score_lt_key].
  intros a b Hab. cbn in Hab. rewrite !overlap_score. lia.
Qed.

(** X11. Asking for more never changes what was ranked first: for
    [top_k <= top_k'] the insights, the pathways and the warnings of the
    smaller request are a prefix of those of the larger one. *)
Theorem retrieval_grows_with_top_k (query : str) (store : MemoryStore.t)
    (top_k top_k' : Z) :
  (top_k ≤ top_k')%Z →
  (HDPM._retrieve_relevant_items_from_store query store top_k).1.1
  `prefix_of` (HDPM._retrieve_relevant_items_from_store query store top_k').1.1
  ∧ (HDPM._retrieve_relevant_items_from_store query store top_k).1.2
    `prefix_of`
      (HDPM._retrieve_relevant_items_from_store query store top_k').1.2
  ∧ (HDPM._retrieve_relevant_items_from_store query store top_k).2
    `prefix_of` (HDPM._retrieve_relevant_items_from_store query store top_k').2.
Proof.
  intros Hle. rewrite !retrieve_ranked_top, !ranked_top_take.
  set (ranked := list_sort _ _ _).
  assert (take (Z.to_nat top_k') ranked
          = take (Z.to_nat top_k) ranked
            ++ drop (Z.to_nat top_k) (take (Z.to_nat top_k') ranked)) as ->.
  { rewrite <-(take_drop (Z.to_nat top_k) (take (Z.to_nat top_k') ranked)) at 1.
    f_equal. rewrite take_take. f_equal. lia. }
  rewrite resolve_pathways_app. cbn [fst snd].
  split_and!; by apply prefix_app_r.
Qed.

(** X12. No top insight is dropped silently: the warnings printed are
    those of the insights ranked in the top [top_k] whose source pathway is
    not in the store, one each and in rank order, so that the insights
    returned and the warnings together account for every top insight. *)
Theorem retrieval_warns_for_each_dropped_insight (query : str)
    (store : MemoryStore.t) (top_k : Z) :
  (HDPM._retrieve_relevant_items_from_store query store top_k).2
  = HDPM.missing_pathway_warning
      <$> List.filter (fun insight => negb (has_pathway store insight))
            (ranked_top query store top_k)
  ∧ (length (HDPM._retrieve_relevant_items_from_store query store top_k).1.1
     + length (HDPM._retrieve_relevant_items_from_store query store top_k).2
     = length (ranked_top query store top_k))%nat.
Proof.
  rewrite retrieve_ranked_top, resolve_pathways_warnings, resolve_pathways_kept.
  split; [done|]. rewrite length_fmap. apply filter_length_split.
Qed.

Lemma retrieve_no_match (query : str) (store : MemoryStore.t) (top_k : Z) :
  Forall (fun insight => overlap query insight = 0%nat)
    (dict_values (MemoryStore.insights store)) →
  HDPM._retrieve_relevant_items_from_store query store top_k = ([], [], []).
Proof.
  intros Hnone. rewrite retrieve_ranked_top, ranked_top_take.
  assert (Reference.candidates query store = []) as ->;
    [|by destruct (Z.to_nat top_k)].
  unfold Reference.candidates.
  induction Hnone as [|insight l Hi Hl IH]; [done|]. cbn.
  by rewrite <-overlap_score, Hi.
Qed.

(** X13. A query that shares no term with any stored insight (in
    particular any query on a store without insights, and a query without
    terms) retrieves nothing and prints nothing, whatever [top_k] is, from
    one store and so from both. *)
Theorem retrieval_without_match_is_empty (query : str) (h : HDPM.t)
    (top_k : Z) :
  Forall (fun insight => overlap query insight = 0%nat)
    (dict_values (MemoryStore.insights (HDPM.positive_memory h))) →
  Forall (fun insight => overlap query insight = 0%nat)
    (dict_values (MemoryStore.insights (HDPM.negative_memory h))) →
  HDPM._retrieve_relevant_items_from_store query (HDPM.positive_memory h)
    top_k = ([], [], [])
  ∧ HDPM.global_co_retrieval h query top_k = ([], [], [], [], []).
Proof.
  intros Hpos Hneg. unfold HDPM.global_co_retrieval.
  by rewrite !retrieve_no_match.
Qed.
End MoreRetrievalFacts.

Lemma retrieval_grows_with_top_k_witness :
  Insight.id
    <$> (HDPM._retrieve_relevant_items_from_store
           (lit "protein Alpha SuperFold") retrieval_store 1).1.1
  `prefix_of`
    Insight.id
      <$> (HDPM._retrieve_relevant_items_from_store
             (lit "protein Alpha SuperFold") retrieval_store 3).1.1.
Proof.
  destruct (retrieval_grows_with_top_k (lit "protein Alpha SuperFold")
              retrieval_store 1 3) as ([rest Hrest] & _); [lia|].
  exists (Insight.id <$> rest). by rewrite Hrest, fmap_app.
Defined.

Lemma retrieval_without_match_is_empty_witness :
  HDPM.global_co_retrieval
    {| HDPM.positive_memory := retrieval_store;
       HDPM.negative_memory := MemoryStore.new |}
    (lit "ligand docking - QuickBind!") 5
  = ([], [], [], [], []).
Proof.
  refine (proj2 (retrieval_without_match_is_empty _
                   {| HDPM.positive_memory := retrieval_store;
                      HDPM.negative_memory := MemoryStore.new |} 5 _ _)).
  - repeat constructor.
  - constructor.
Defined.
(** ** More on the reflection pipeline *)

Lemma world_eq (w : world) c t u d r o :
  c = clock w → t = ticks w → u = uuids w → d = drawn w → r = rng w →
  o = stdout w →
  {| clock := c; ticks := t; uuids := u; drawn := d; rng := r; stdout := o |}
  = w.
Proof. intros -> -> -> -> -> ->. by destruct w. Qed.

Section AtomizeCards.
Context `{PyRuntime}.

(** One turn of the loop, relative to the world it starts in. *)
Lemma atomize_event_card (n i : nat) (ev : event) (w : world) :
  ReflectAgent.atomize_event n i ev w
  = (Ok {| AtomicEvidenceCard.id := lit "aec_" ++ uuids w (drawn w);
           AtomicEvidenceCard.content := step_content i ev;
           AtomicEvidenceCard.agent_type := step_agent ev;
           AtomicEvidenceCard.timestamp :=
             step_timestamp n i ev (clock w (ticks w)) |},
     after_atomize w [ev]).
Proof.
  unfold ReflectAgent.atomize_event, try_except, after_atomize, step_content,
    step_agent, step_warnings, clock_reads, unprocessable, lacks_timestamp,
    step_timestamp, step_error.
  destruct ev as [ac agent [[[|c s]|[|]]|]|];
    unfold mbind, ST_bind, bind; cbn -[lit];
    try (destruct (fromisoformat (c :: s)) as [d|] eqn:Hd; cbn -[lit]).
  all: repeat (progress (unfold ReflectAgent.synthetic_timestamp, mbind,
                           ST_bind, bind; cbn -[lit])).
  all: f_equal; f_equal; cbn -[lit]; rewrite ?Nat.add_0_r, ?app_nil_r;
    try done; lia.
Qed.

Lemma clock_reads_one (ev : event) :
  clock_reads [ev] = if lacks_timestamp ev then 1 else 0.
Proof. rewrite clock_reads_cons. unfold clock_reads. cbn. lia. Qed.

Lemma step_warnings_cons (ev : event) (steps : list event) :
  step_warnings (ev :: steps) = step_warnings [ev] ++ step_warnings steps.
Proof. unfold step_warnings. cbn. by destruct (step_error ev). Qed.

Lemma after_atomize_nil (w : world) : after_atomize w [] = w.
Proof.
  apply world_eq; cbn; unfold clock_reads; cbn;
    rewrite ?Nat.add_0_r, ?app_nil_r; done.
Qed.

Lemma after_atomize_cons (w : world) (ev : event) (steps : list event) :
  after_atomize (after_atomize w [ev]) steps = after_atomize w (ev :: steps).
Proof.
  unfold after_atomize. cbn [clock ticks uuids drawn rng stdout length].
  rewrite (clock_reads_cons ev steps), clock_reads_one,
    (step_warnings_cons ev steps), <-app_assoc.
  f_equal; lia.
Qed.

Lemma atomize_loop_cards (n : nat) (trajectory : list event) (i : nat)
    (w : world) :
  ∃ raw,
    ReflectAgent.atomize_loop n i trajectory w
    = (Ok raw, after_atomize w trajectory)
    ∧ length raw = length trajectory
    ∧ ∀ j ev, trajectory !! j = Some ev →
        raw !! j
        = Some {| AtomicEvidenceCard.id := lit "aec_" ++ uuids w (drawn w + j);
                  AtomicEvidenceCard.content := step_content (i + j) ev;
                  AtomicEvidenceCard.agent_type := step_agent ev;
                  AtomicEvidenceCard.timestamp :=
                    step_timestamp n (i + j) ev
                      (clock w (ticks w + clock_reads (take j trajectory))) |}.
Proof.
  revert i w. induction trajectory as [|ev steps IH]; intros i w.
  - exists []. split; [|done]. by rewrite after_atomize_nil.
  - destruct (IH (S i) (after_atomize w [ev])) as (raw & Hloop & Hlen & Hraw).
    eexists (_ :: raw). split; [|split].
    + cbn [ReflectAgent.atomize_loop]. unfold mbind, ST_bind, bind.
      rewrite atomize_event_card, Hloop. cbn beta iota zeta.
      by rewrite after_atomize_cons.
    + cbn [length]. by rewrite Hlen.
    + intros [|j] ev' Hev; rewrite lookup_cons in Hev; rewrite lookup_cons.
      * injection Hev as <-. cbn [take]. unfold clock_reads at 1.
        cbn [List.filter length]. by rewrite !Nat.add_0_r.
      * rewrite (Hraw j ev' Hev). cbn [take].
        rewrite (clock_reads_cons ev (take j steps)).
        unfold after_atomize. cbn [clock ticks uuids drawn length].
        rewrite clock_reads_one.
        replace (drawn w + 1 + j)%nat with (drawn w + S j)%nat by lia.
        replace (S i + j)%nat with (i + S j)%nat by lia.
        by rewrite Nat.add_assoc.
Qed.

Lemma atomize_loop_step_cards (trajectory : list event) (w : world) :
  ReflectAgent.atomize_loop (length trajectory) 0 trajectory w
  = (Ok (step_cards w trajectory), after_atomize w trajectory).
Proof.
  destruct (atomize_loop_cards (length trajectory) trajectory 0 w)
    as (raw & -> & Hlen & Hraw).
  do 2 f_equal. apply list_eq. intros j. unfold step_cards.
  rewrite list_lookup_imap.
  destruct (trajectory !! j) as [ev|] eqn:Hev; cbn.
  - by rewrite (Hraw j ev Hev).
  - apply lookup_ge_None. rewrite Hlen. by apply lookup_ge_None.
Qed.
End AtomizeCards.

Lemma micros_lt_key (a b : AtomicEvidenceCard.t) :
  micros_lt a b = (micros_of a <? micros_of b)%Z.
Proof. done. Qed.

Lemma sort_stable_of_sorted {A} (key : A → Z) (lt : A → A → bool)
    (l : list A) :
  (∀ a b, lt a b = (key a <? key b)%Z) →
  Sorted (fun a b => (key a ≤ key b)%Z) l → sort_stable lt l = l.
Proof.
  intros Hlt. induction 1 as [|x l Hl IH Hx]; [done|].
  cbn [sort_stable]. rewrite IH.
  destruct Hx as [|y l' Hxy]; [done|]. cbn [sort_insert].
  rewrite Hlt. by rewrite (proj2 (Z.ltb_ge _ _)) by lia.
Qed.

Lemma awareness_perm (aware : bool) (l1 l2 : list AtomicEvidenceCard.t) :
  l1 ≡ₚ l2 → awareness aware l1 → awareness aware l2.
Proof. unfold awareness. by intros ->. Qed.

(** What a sort by timestamp that returns says about its input. *)
Lemma sorted_by_timestamp_inv (cards sorted : list AtomicEvidenceCard.t) :
  sorted_by_timestamp cards = Ok sorted →
  sorted = sort_stable micros_lt cards ∧ ∃ aware, awareness aware cards.
Proof.
  intros Hsorted.
  assert (∃ aware, awareness aware cards) as [aware Haware].
  { destruct (decide (awareness true cards)) as [?|Ht]; [by exists true|].
    destruct (decide (awareness false cards)) as [?|Hf]; [by exists false|].
    apply not_Forall_Exists in Ht; [|solve_decision].
    apply not_Forall_Exists in Hf; [|solve_decision].
    rewrite sorted_by_timestamp_mixed in Hsorted; [done| |].
    - eapply Exists_impl; [exact Hf|]. cbn. intros c Hc.
      by destruct (dt_aware _).
    - eapply Exists_impl; [exact Ht|]. cbn. intros c Hc.
      by destruct (dt_aware _). }
  split; [|by exists aware].
  rewrite (sorted_by_timestamp_ok aware) in Hsorted by done. congruence.
Qed.

Section AtomizeOutcome.
Context `{PyRuntime}.

Lemma atomize_run (trajectory : list event) (w : world) :
  ReflectAgent.atomize trajectory w
  = (sorted_by_timestamp (step_cards w trajectory),
     after_atomize w trajectory).
Proof.
  unfold ReflectAgent.atomize, mbind, ST_bind, bind.
  by rewrite atomize_loop_step_cards.
Qed.

Lemma step_cards_lookup (w : world) (trajectory : list event) (j : nat)
    (ev : event) :
  trajectory !! j = Some ev →
  step_cards w trajectory !! j = Some (step_card w trajectory j ev).
Proof. intros Hev. unfold step_cards. by rewrite list_lookup_imap, Hev. Qed.

Lemma step_cards_awareness (w : world) (trajectory : list event) :
  comparable_timestamps trajectory →
  ∃ aware, awareness aware (step_cards w trajectory).
Proof.
  intros Hcmp. eapply atomize_loop_awareness; [done|].
  apply atomize_loop_step_cards.
Qed.

(** X14. For a trajectory whose timestamps can be ordered, [atomize]
    returns the cards of the steps in ascending order of timestamp, cards of
    equal timestamp in step order.  The card of step [j] (from 0) has the id
    ["aec_"] followed by the [j]-th UUID drawn, the content and role of the
    step, with ["Step j+1 content missing"] and ["UnknownAgent"] for a missing
    one, and for a step that cannot be processed the placeholder content and
    the role ["SystemError"].  Afterwards one UUID has been drawn per step,
    the clock has been read once per step without a timestamp, and one warning
    has been printed per step that could not be processed. *)
Theorem atomize_returns_step_cards_in_time_order (trajectory : list event)
    (w : world) :
  comparable_timestamps trajectory →
  ∃ cards,
    ReflectAgent.atomize trajectory w = (Ok cards, after_atomize w trajectory)
    ∧ cards ≡ₚ step_cards w trajectory
    ∧ Sorted (fun a b => (micros_of a ≤ micros_of b)%Z) cards
    ∧ ∀ v, List.filter (fun c => (micros_of c =? v)%Z) cards
           = List.filter (fun c => (micros_of c =? v)%Z)
               (step_cards w trajectory).
Proof.
  intros Hcmp. destruct (step_cards_awareness w trajectory Hcmp) as [aware Ha].
  exists (sort_stable micros_lt (step_cards w trajectory)).
  rewrite atomize_run, (sorted_by_timestamp_ok aware) by done.
  split_and!; [done|apply sort_stable_perm| |].
  - apply (sort_stable_sorted micros_of), micros_lt_key.
  - intros v. apply (sort_stable_filter_key micros_of), micros_lt_key.
Qed.

Lemma step_card_aware (w : world) (trajectory : list event) (j : nat)
    (ev : event) :
  dt_aware (AtomicEvidenceCard.timestamp (step_card w trajectory j ev))
  = match supplied_timestamp ev with
    | Some d => dt_aware d
    | None => false
    end.
Proof.
  unfold step_card, step_timestamp. cbn. by destruct (supplied_timestamp ev).
Qed.

Lemma step_cards_mixed (w : world) (trajectory : list event) :
  Exists stamped_aware trajectory → Exists stamped_naive trajectory →
  sorted_by_timestamp (step_cards w trajectory) = Raise TypeError.
Proof.
  intros Haware Hnaive. apply sorted_by_timestamp_mixed.
  - apply Exists_exists in Haware as (ev & Hin & d & Hd & Hda).
    apply list_elem_of_lookup in Hin as [j Hj].
    apply Exists_exists. exists (step_card w trajectory j ev). split.
    + eapply list_elem_of_lookup_2. by apply step_cards_lookup.
    + by rewrite step_card_aware, Hd.
  - apply Exists_exists in Hnaive as (ev & Hin & Hev).
    apply list_elem_of_lookup in Hin as [j Hj].
    apply Exists_exists. exists (step_card w trajectory j ev). split.
    + eapply list_elem_of_lookup_2. by apply step_cards_lookup.
    + rewrite step_card_aware.
      destruct (supplied_timestamp ev) as [d|] eqn:Hd; [|done]. by apply Hev.
Qed.

Lemma comparable_or_mixed (trajectory : list event) :
  comparable_timestamps trajectory
  ∨ (Exists stamped_aware trajectory ∧ Exists stamped_naive trajectory).
Proof.
  assert (∀ ev, Decision (stamped_aware ev)) as Hdec.
  { intros ev. unfold stamped_aware.
    destruct (supplied_timestamp ev) as [d|]; [destruct (dt_aware d) eqn:E|].
    - left. by exists d.
    - right. intros (d' & [= <-] & Hd'). congruence.
    - right. by intros (d' & [=] & _). }
  assert (∀ ev, ¬ stamped_aware ev → stamped_naive ev) as Hnot.
  { intros ev Hn d Hd. destruct (dt_aware d) eqn:E; [|done].
    destruct Hn. by exists d. }
  destruct (decide (Exists stamped_aware trajectory)) as [Haware|Hnone].
  - destruct (decide (Forall stamped_aware trajectory)) as [Hall|Hsome].
    + left. right. intros ev Hin. rewrite Forall_forall in Hall. by apply Hall.
    + right. split; [done|].
      apply not_Forall_Exists in Hsome; [|done].
      eapply Exists_impl; [exact Hsome|]. intros ev. apply Hnot.
  - left. left. intros ev d Hin Hd.
    apply (Hnot ev); [|done]. intros Hev. apply Hnone.
    apply Exists_exists. by exists ev.
Qed.

(** X15. [atomize] fails in one way only: it returns for a trajectory
    whose timestamps can be ordered, and raises [TypeError], from its final
    sort, for every other one, that is when some step is stamped with a UTC
    offset and some other step is stamped without one or gets its timestamp
    from the clock.  Also when it raises, a UUID has been drawn for each step
    and the warnings have been printed. *)
Theorem atomize_raises_only_on_mixed_timestamps (trajectory : list event)
    (w : world) :
  (comparable_timestamps trajectory
   ∧ ∃ cards,
       ReflectAgent.atomize trajectory w
       = (Ok cards, after_atomize w trajectory))
  ∨ (Exists stamped_aware trajectory ∧ Exists stamped_naive trajectory
     ∧ ReflectAgent.atomize trajectory w
       = (Raise TypeError, after_atomize w trajectory)).
Proof.
  destruct (comparable_or_mixed trajectory) as [Hcmp|[Haware Hnaive]].
  - left. split; [done|].
    destruct (step_cards_awareness w trajectory Hcmp) as [aware Ha].
    eexists. by rewrite atomize_run, (sorted_by_timestamp_ok aware).
  - right. split_and!; [done..|].
    by rewrite atomize_run, step_cards_mixed.
Qed.

(** X16. [serialize] returns a pathway exactly when the timestamps of
    the cards can be ordered (all with a UTC offset or all without): the
    pathway lists the ids of the cards in ascending order of timestamp, cards
    of equal timestamp in the order given, under a fresh id ["pp_"] followed
    by the next UUID and without a link; for cards that are already in time
    order, as [atomize] returns them, the ids are in the order of the cards,
    and for no cards the list is empty.  For cards of both kinds it raises
    [TypeError], from its sort, before a UUID is drawn. *)
Theorem serialize_lists_ids_in_time_order
    (evidence_cards : list AtomicEvidenceCard.t) (w : world) :
  (∃ aware sorted_cards,
     awareness aware evidence_cards
     ∧ ReflectAgent.serialize evidence_cards w
       = (Ok {| PolicyPathway.id := lit "pp_" ++ uuids w (drawn w);
                PolicyPathway.evidence_card_ids :=
                  AtomicEvidenceCard.id <$> sorted_cards;
                PolicyPathway.linked_insight_id := None |},
          drew w)
     ∧ sorted_cards ≡ₚ evidence_cards
     ∧ Sorted (fun a b => (micros_of a ≤ micros_of b)%Z) sorted_cards
     ∧ (∀ v, List.filter (fun c => (micros_of c =? v)%Z) sorted_cards
             = List.filter (fun c => (micros_of c =? v)%Z) evidence_cards)
     ∧ (Sorted (fun a b => (micros_of a ≤ micros_of b)%Z) evidence_cards →
        sorted_cards = evidence_cards))
  ∨ (Exists (fun c => dt_aware (AtomicEvidenceCard.timestamp c) = true)
       evidence_cards
     ∧ Exists (fun c => dt_aware (AtomicEvidenceCard.timestamp c) = false)
         evidence_cards
     ∧ ReflectAgent.serialize evidence_cards w = (Raise TypeError, w)).
Proof.
  destruct (decide (awareness true evidence_cards)) as [Ha|Ht];
    [|destruct (decide (awareness false evidence_cards)) as [Ha|Hf]].
  1, 2: left; eexists _, (sort_stable micros_lt evidence_cards);
    (split; [exact Ha|]); split_and!.
  1, 6: unfold ReflectAgent.serialize;
    destruct evidence_cards as [|card cards]; [done|];
    unfold mbind, ST_bind, bind, lift;
    by erewrite sorted_by_timestamp_ok.
  1, 5: apply sort_stable_perm.
  1, 4: apply (sort_stable_sorted micros_of), micros_lt_key.
  1, 3: intros v; apply (sort_stable_filter_key micros_of), micros_lt_key.
  1, 2: apply (sort_stable_of_sorted micros_of), micros_lt_key.
  right.
  apply not_Forall_Exists in Ht; [|solve_decision].
  apply not_Forall_Exists in Hf; [|solve_decision].
  assert (Exists (fun c => dt_aware (AtomicEvidenceCard.timestamp c) = true)
            evidence_cards) as Haware.
  { eapply Exists_impl; [exact Hf|]. cbn. intros c Hc.
    by destruct (dt_aware _). }
  assert (Exists (fun c => dt_aware (AtomicEvidenceCard.timestamp c) = false)
            evidence_cards) as Hnaive.
  { eapply Exists_impl; [exact Ht|]. cbn. intros c Hc.
    by destruct (dt_aware _). }
  split_and!; [done..|].
  unfold ReflectAgent.serialize.
  destruct evidence_cards as [|card cards]; [by apply Exists_nil in Haware|].
  unfold mbind, ST_bind, bind, lift.
  by rewrite sorted_by_timestamp_mixed.
Qed.
End AtomizeOutcome.


Lemma atomize_returns_step_cards_in_time_order_witness :
  ∃ cards,
    ReflectAgent.atomize sample_trajectory world0
    = (Ok cards, after_atomize world0 sample_trajectory)
    ∧ cards ≡ₚ step_cards world0 sample_trajectory
    ∧ Sorted (fun a b => (micros_of a ≤ micros_of b)%Z) cards.
Proof.
  destruct (atomize_returns_step_cards_in_time_order sample_trajectory world0)
    as (cards & Hrun & Hperm & Hsorted & _).
  - left. intros ev d Hev Hd.
    repeat (apply elem_of_cons in Hev as [->|Hev]);
      [vm_compute in Hd; by simplify_eq ..|].
    by apply elem_of_nil in Hev.
  - by exists cards.
Defined.

Lemma serialize_lists_ids_in_time_order_witness :
  (∃ sorted_cards,
     ReflectAgent.serialize
       [card_at "e3" "Critic" "Outcome is good" 1672567800000000;
        card_at "e1" "Planner" "Plan: fold protein Alpha" 1672567200000000]
       world0
     = (Ok {| PolicyPathway.id := lit "pp_" ++ uuids world0 (drawn world0);
              PolicyPathway.evidence_card_ids :=
                AtomicEvidenceCard.id <$> sorted_cards;
              PolicyPathway.linked_insight_id := None |},
        drew world0)
     ∧ Sorted (fun a b => (micros_of a ≤ micros_of b)%Z) sorted_cards)
  ∧ ReflectAgent.serialize
      [sample_card "e1"
         {| dt_aware := true; dt_micros := 1672567200000000 |};
       sample_card "e2" (naive 1672567500000000)]
      world0
    = (Raise TypeError, world0).
Proof.
  split.
  - destruct (serialize_lists_ids_in_time_order
                [card_at "e3" "Critic" "Outcome is good" 1672567800000000;
                 card_at "e1" "Planner" "Plan: fold protein Alpha"
                   1672567200000000] world0)
      as [(aware & sorted & _ & Hrun & _ & Hsorted & _)|(Haware & _)].
    + by exists sorted.
    + exfalso. apply Exists_cons in Haware as [Ha|Ha]; [done|].
      apply Exists_cons in Ha as [Ha|Ha]; [done|]. by apply Exists_nil in Ha.
  - destruct (serialize_lists_ids_in_time_order
                [sample_card "e1"
                   {| dt_aware := true; dt_micros := 1672567200000000 |};
                 sample_card "e2" (naive 1672567500000000)] world0)
      as [(aware & sorted & Ha & _)|(_ & _ & Hrun)]; [exfalso|exact Hrun].
    apply Forall_cons in Ha as [Ha1 Ha]. apply Forall_cons in Ha as [Ha2 _].
    cbn in Ha1, Ha2. congruence.
Defined.
(** ** Distillation *)

Lemma str_startswith_app (prefix rest : str) :
  str_startswith prefix (prefix ++ rest) = true.
Proof.
  induction prefix as [|c prefix IH]; [done|]. cbn. by rewrite N.eqb_refl.
Qed.

Lemma str_startswith_take (n : nat) (prefix rest : str) :
  length prefix ≤ n → str_startswith prefix (take n (prefix ++ rest)) = true.
Proof.
  intros Hle. rewrite take_app, (take_ge prefix) by done.
  apply str_startswith_app.
Qed.

Section DistillFacts.
Context `{PyRuntime}.

Lemma compose_keywords_prefix (cards : list AtomicEvidenceCard.t)
    (result : Z) :
  ∃ rest,
    ReflectAgent.compose_keywords cards result
    = take 300 (outcome_prefix result ++ rest).
Proof.
  unfold ReflectAgent.compose_keywords, outcome_prefix.
  repeat case_match; rewrite <-?app_assoc; by eexists.
Qed.

Lemma keywords_run (pathway : PolicyPathway.t) (store : MemoryStore.t)
    (result : Z) (w : world) :
  ReflectAgent._distill_insight_content_simple_keywords pathway store result w
  = (match (MemoryStore.get_evidence_cards_for_pathway store
              (PolicyPathway.id pathway)).1 with
     | Ok [] =>
         Ok (lit "No evidence cards found for this pathway to distill insight.")
     | Ok (card :: cards) =>
         Ok (ReflectAgent.compose_keywords (card :: cards) result)
     | Raise e => Raise e
     end,
     printed (MemoryStore.get_evidence_cards_for_pathway store
                (PolicyPathway.id pathway)).2 w).
Proof.
  unfold ReflectAgent._distill_insight_content_simple_keywords,
    mbind, ST_bind, bind.
  rewrite fetch_cards_run.
  by destruct (MemoryStore.get_evidence_cards_for_pathway store _).1
    as [[|card cards]|e].
Qed.

Lemma random_choice_run {A} (x : A) (seq : list A) (w : world) :
  ∃ chosen g,
    chosen ∈ x :: seq
    ∧ random_choice x seq w = (Ok chosen, reseeded g w).
Proof.
  unfold random_choice.
  destruct (randbelow (rng w) (length (x :: seq))) as [k g].
  eexists _, g. split; [|done].
  apply list_elem_of_In, nth_In, Nat.mod_upper_bound. done.
Qed.

Lemma random_pick_run (pathway : PolicyPathway.t) (store : MemoryStore.t)
    (result : Z) (w : world) :
  match (MemoryStore.get_evidence_cards_for_pathway store
           (PolicyPathway.id pathway)).1 with
  | Ok [] =>
      ReflectAgent._distill_insight_content_random_choice pathway store
        result w
      = (Ok (lit "No cards in pathway to distill insight from."),
         printed (MemoryStore.get_evidence_cards_for_pathway store
                    (PolicyPathway.id pathway)).2 w)
  | Ok (card :: cards) =>
      ∃ chosen g,
        chosen ∈ card :: cards
        ∧ ReflectAgent._distill_insight_content_random_choice pathway store
            result w
          = (Ok (random_pick_prefix result
                 ++ take 150 (AtomicEvidenceCard.content chosen)),
             reseeded g
               (printed (MemoryStore.get_evidence_cards_for_pathway store
                           (PolicyPathway.id pathway)).2 w))
  | Raise e =>
      ReflectAgent._distill_insight_content_random_choice pathway store
        result w
      = (Raise e,
         printed (MemoryStore.get_evidence_cards_for_pathway store
                    (PolicyPathway.id pathway)).2 w)
  end.
Proof.
  unfold ReflectAgent._distill_insight_content_random_choice,
    mbind, ST_bind, bind.
  rewrite fetch_cards_run.
  destruct (MemoryStore.get_evidence_cards_for_pathway store _).1
    as [[|card cards]|e]; [done| |done].
  destruct (random_choice_run card cards
              (printed (MemoryStore.get_evidence_cards_for_pathway store
                          (PolicyPathway.id pathway)).2 w))
    as (chosen & g & Hin & ->).
  by exists chosen, g.
Qed.

(** X17. The keyword strategy on cards whose content is text, as
    [AtomicEvidenceCard] types it.  For a pathway without cards in the store
    it returns the fixed text ["No evidence cards found for this pathway to
    distill insight."]; for a pathway with such cards it returns a text of at
    most 300 characters that opens with ["Success Principle: "] for the
    outcome 1 and with ["Failure Trap: "] for every other outcome; and when
    the lookup of the cards raises, it raises the same exception. *)
Theorem keyword_content_is_bounded_and_labelled (pathway : PolicyPathway.t)
    (store : MemoryStore.t) (result : Z) (w : world) :
  match (MemoryStore.get_evidence_cards_for_pathway store
           (PolicyPathway.id pathway)).1 with
  | Ok [] =>
      (ReflectAgent._distill_insight_content_simple_keywords pathway store
         result w).1
      = Ok (lit "No evidence cards found for this pathway to distill insight.")
  | Ok (_ :: _) =>
      ∃ content,
        (ReflectAgent._distill_insight_content_simple_keywords pathway store
           result w).1 = Ok content
        ∧ length content ≤ 300
        ∧ str_startswith
            (if (result =? 1)%Z then lit "Success Principle: "
             else lit "Failure Trap: ") content = true
  | Raise e =>
      (ReflectAgent._distill_insight_content_simple_keywords pathway store
         result w).1 = Raise e
  end.
Proof.
  rewrite keywords_run.
  destruct (MemoryStore.get_evidence_cards_for_pathway store _).1
    as [[|card cards]|e]; [done| |done].
  eexists. split; [done|].
  destruct (compose_keywords_prefix (card :: cards) result) as [rest ->].
  split; [rewrite length_take; lia|].
  apply str_startswith_take. unfold outcome_prefix.
  destruct (result =? 1)%Z; cbn; lia.
Qed.

(** X18. The random strategy quotes a card of the pathway: for a
    pathway with cards in the store its text is the label for the outcome
    followed by the first 150 characters of the content of one of these cards,
    and drawing it changes nothing in the world but the state of the
    generator (and the output of the lookup); for a pathway without cards it
    is the fixed text ["No cards in pathway to distill insight from."]. *)
Theorem random_content_quotes_a_card (pathway : PolicyPathway.t)
    (store : MemoryStore.t) (result : Z) (w : world) :
  match MemoryStore.get_evidence_cards_for_pathway store
          (PolicyPathway.id pathway) with
  | (Ok [], out) =>
      ReflectAgent._distill_insight_content_random_choice pathway store
        result w
      = (Ok (lit "No cards in pathway to distill insight from."),
         printed out w)
  | (Ok (card :: cards), out) =>
      ∃ chosen g,
        chosen ∈ card :: cards
        ∧ ReflectAgent._distill_insight_content_random_choice pathway store
            result w
          = (Ok ((if (result =? 1)%Z
                  then lit "Success Principle (random pick): "
                  else lit "Failure Trap (random pick): ")
                 ++ take 150 (AtomicEvidenceCard.content chosen)),
             reseeded g (printed out w))
  | (Raise e, out) =>
      ReflectAgent._distill_insight_content_random_choice pathway store
        result w
      = (Raise e, printed out w)
  end.
Proof.
  pose proof (random_pick_run pathway store result w) as Hrun.
  by destruct (MemoryStore.get_evidence_cards_for_pathway store _)
    as [[[|card cards]|e] out].
Qed.
End DistillFacts.

(** ** What the lookups and the sort can raise *)

Lemma sort_insert_raising_TypeError (x : AtomicEvidenceCard.t)
    (l : list AtomicEvidenceCard.t) (e : exn) :
  sort_insert_raising
    (fun a b => dt_lt (AtomicEvidenceCard.timestamp a)
                  (AtomicEvidenceCard.timestamp b)) x l
  = Raise e →
  e = TypeError.
Proof.
  induction l as [|y l IH]; [done|]. cbn [sort_insert_raising].
  unfold dt_lt at 1. destruct (eqb _ _); [|congruence].
  destruct (_ <? _)%Z; [|done].
  destruct (sort_insert_raising _ x l); [done|]. intros [= <-]. by apply IH.
Qed.

Lemma sorted_by_timestamp_TypeError (cards : list AtomicEvidenceCard.t)
    (e : exn) :
  sorted_by_timestamp cards = Raise e → e = TypeError.
Proof.
  unfold sorted_by_timestamp.
  induction cards as [|card cards IH]; [done|]. cbn [sorted_raising].
  destruct (sorted_raising _ cards) as [sorted|e'].
  - apply sort_insert_raising_TypeError.
  - intros [= <-]. by apply IH.
Qed.

Lemma get_evidence_cards_TypeError (store : MemoryStore.t) (pid : str)
    (e : exn) :
  (MemoryStore.get_evidence_cards_for_pathway store pid).1 = Raise e →
  e = TypeError.
Proof.
  unfold MemoryStore.get_evidence_cards_for_pathway.
  destruct (MemoryStore.get_policy_pathway store pid) as [p|]; [|done].
  destruct (MemoryStore.collect_cards store pid _) as [cards out]. cbn.
  apply sorted_by_timestamp_TypeError.
Qed.

Section DistillOutcome.
Context `{PyRuntime}.

(** The content strategies leave the UUID source alone. *)
Lemma distill_content_run (self : ReflectAgent.t) (pathway : PolicyPathway.t)
    (store : MemoryStore.t) (result : Z) (w : world) :
  let content_of :=
    if bool_decide (ReflectAgent.llm_simulation_mode self
                    = lit "simple_keywords")
    then ReflectAgent._distill_insight_content_simple_keywords pathway store
           result
    else if bool_decide (ReflectAgent.llm_simulation_mode self
                         = lit "random_choice")
    then ReflectAgent._distill_insight_content_random_choice pathway store
           result
    else ret (lit "Distillation mode '"
              ++ ReflectAgent.llm_simulation_mode self
              ++ lit "' not recognized. Default insight generated.") in
  ∃ r g,
    content_of w
    = (r, reseeded g
            (printed
               (if bool_decide (ReflectAgent.llm_simulation_mode self
                                = lit "simple_keywords")
                   || bool_decide (ReflectAgent.llm_simulation_mode self
                                   = lit "random_choice")
                then (MemoryStore.get_evidence_cards_for_pathway store
                        (PolicyPathway.id pathway)).2
                else []) w))
    ∧ match r with
      | Ok _ =>
          (bool_decide (ReflectAgent.llm_simulation_mode self
                        = lit "simple_keywords")
           || bool_decide (ReflectAgent.llm_simulation_mode self
                           = lit "random_choice") = true →
           ∃ cards,
             (MemoryStore.get_evidence_cards_for_pathway store
                (PolicyPathway.id pathway)).1 = Ok cards)
      | Raise e =>
          (MemoryStore.get_evidence_cards_for_pathway store
             (PolicyPathway.id pathway)).1 = Raise e
      end.
Proof.
  cbn zeta.
  assert (∀ out w, reseeded (rng w) (printed out w) = printed out w) as Hsame
    by (by intros ? []).
  destruct (bool_decide (ReflectAgent.llm_simulation_mode self
                         = lit "simple_keywords")); cbn [orb];
    [|destruct (bool_decide (ReflectAgent.llm_simulation_mode self
                             = lit "random_choice"))].
  - rewrite keywords_run. eexists _, (rng w). rewrite Hsame.
    split; [done|].
    destruct (MemoryStore.get_evidence_cards_for_pathway store _).1
      as [[|card cards]|e]; [intros _; by eexists..|done].
  - pose proof (random_pick_run pathway store result w) as Hrun.
    destruct (MemoryStore.get_evidence_cards_for_pathway store _).1
      as [[|card cards]|e].
    + rewrite Hrun. eexists _, (rng w). rewrite Hsame.
      split; [done|]. intros _. by eexists.
    + destruct Hrun as (chosen & g & _ & ->). eexists _, g.
      split; [done|]. intros _. by eexists.
    + rewrite Hrun. eexists _, (rng w). by rewrite Hsame.
  - eexists _, (rng w). by rewrite Hsame, printed_nil.
Qed.

Lemma distill_run (self : ReflectAgent.t) (pathway : PolicyPathway.t)
    (store : MemoryStore.t) (result : Z) (w : world) :
  (∃ content w',
     ReflectAgent.distill self pathway store result w
     = (Ok {| Insight.id := lit "insight_" ++ uuids w (drawn w);
              Insight.content := content;
              Insight.source_pathway_id := PolicyPathway.id pathway |}, w')
     ∧ clock w' = clock w ∧ ticks w' = ticks w ∧ uuids w' = uuids w
     ∧ drawn w' = S (drawn w)
     ∧ stdout w'
       = stdout w
         ++ (if bool_decide (ReflectAgent.llm_simulation_mode self
                             = lit "simple_keywords")
                || bool_decide (ReflectAgent.llm_simulation_mode self
                                = lit "random_choice")
             then (MemoryStore.get_evidence_cards_for_pathway store
                     (PolicyPathway.id pathway)).2
             else []))
  ∨ (∃ w',
       ReflectAgent.distill self pathway store result w
       = (Raise TypeError, w')
       ∧ (MemoryStore.get_evidence_cards_for_pathway store
            (PolicyPathway.id pathway)).1 = Raise TypeError
       ∧ drawn w' = drawn w).
Proof.
  destruct (distill_content_run self pathway store result w)
    as (r & g & Hrun & Hr).
  unfold ReflectAgent.distill, mbind, ST_bind, bind. cbn zeta in Hrun.
  rewrite Hrun. destruct r as [content|e].
  - left. eexists content, _. split; [reflexivity|]. by cbn.
  - right. pose proof (get_evidence_cards_TypeError _ _ _ Hr) as ->.
    by eexists.
Qed.

(** X19. The insight [distill] returns names the pathway it was given:
    it has that pathway's id as its source and the id ["insight_"] followed by
    the next UUID, which is the one UUID drawn; when [distill] raises, no UUID
    has been drawn.  In the modes ["simple_keywords"] and ["random_choice"] an
    exception raised by the lookup of the pathway's cards is passed on; with
    any other mode [distill] makes no lookup and returns the text that names
    the unrecognized mode. *)
Theorem distill_names_its_pathway (self : ReflectAgent.t)
    (pathway : PolicyPathway.t) (store : MemoryStore.t) (result : Z)
    (w : world) :
  match ReflectAgent.distill self pathway store result w with
  | (Ok insight, w') =>
      Insight.source_pathway_id insight = PolicyPathway.id pathway
      ∧ Insight.id insight = lit "insight_" ++ uuids w (drawn w)
      ∧ drawn w' = S (drawn w)
  | (Raise _, w') => drawn w' = drawn w
  end
  ∧ (∀ e,
       (MemoryStore.get_evidence_cards_for_pathway store
          (PolicyPathway.id pathway)).1 = Raise e →
       ReflectAgent.llm_simulation_mode self = lit "simple_keywords"
       ∨ ReflectAgent.llm_simulation_mode self = lit "random_choice" →
       (ReflectAgent.distill self pathway store result w).1 = Raise e)
  ∧ (ReflectAgent.llm_simulation_mode self ≠ lit "simple_keywords" →
     ReflectAgent.llm_simulation_mode self ≠ lit "random_choice" →
     ReflectAgent.distill self pathway store result w
     = (Ok {| Insight.id := lit "insight_" ++ uuids w (drawn w);
              Insight.content :=
                lit "Distillation mode '"
                ++ ReflectAgent.llm_simulation_mode self
                ++ lit "' not recognized. Default insight generated.";
              Insight.source_pathway_id := PolicyPathway.id pathway |},
        drew w)).
Proof.
  split_and!.
  - destruct (distill_run self pathway store result w)
      as [(content & w' & -> & _ & _ & _ & Hdrawn & _)|(w' & -> & Hr & Hd)];
      by cbn.
  - intros e He Hmode.
    unfold ReflectAgent.distill, mbind, ST_bind, bind.
    destruct Hmode as [Hmode|Hmode].
    + rewrite (bool_decide_eq_true_2 _ Hmode), keywords_run, He. done.
    + destruct (bool_decide (ReflectAgent.llm_simulation_mode self
                             = lit "simple_keywords")).
      * by rewrite keywords_run, He.
      * rewrite (bool_decide_eq_true_2 _ Hmode).
        pose proof (random_pick_run pathway store result w) as Hrun.
        rewrite He in Hrun. by rewrite Hrun.
  - intros Hk Hr. unfold ReflectAgent.distill, mbind, ST_bind, bind.
    by rewrite !bool_decide_eq_false_2 by done.
Qed.
End DistillOutcome.
(** ** ReflectAgent.update_memory, beyond the empty trajectory *)

Lemma file_all_lookup {V} (id_of : V → str) (vs : list V) (d : dict V)
    (k : str) :
  dict_get (file_all id_of vs d) k = last_filed id_of k vs (dict_get d k).
Proof.
  revert d. induction vs as [|v vs IH]; intros d; [done|].
  unfold file_all in *. cbn [fold_left]. rewrite IH, last_filed_cons. f_equal.
  destruct (decide (id_of v = k)) as [<-|Hne].
  - apply dict_get_set_eq.
  - by apply dict_get_set_ne.
Qed.

Lemma last_filed_elem {V} (id_of : V → str) (vs : list V) (old : option V)
    (v : V) :
  v ∈ vs →
  ∃ v', last_filed id_of (id_of v) vs old = Some v'
        ∧ v' ∈ vs ∧ id_of v' = id_of v.
Proof.
  intros Hin. unfold last_filed.
  destruct (last (List.filter _ vs)) as [v'|] eqn:Hlast.
  - exists v'. split; [done|].
    apply last_Some_elem_of, list_elem_of_In, filter_In in Hlast
      as [Hv' Hid].
    split; [by apply list_elem_of_In|]. by apply bool_decide_eq_true in Hid.
  - apply last_None in Hlast.
    assert (In v (List.filter
                    (fun v' => bool_decide (id_of v' = id_of v)) vs)) as Hv.
    { apply filter_In. split; [by apply list_elem_of_In|].
      by apply bool_decide_eq_true. }
    by rewrite Hlast in Hv.
Qed.

Lemma add_cards_run_ops (cards : list AtomicEvidenceCard.t)
    (store : MemoryStore.t) :
  fold_left (fun s card => MemoryStore.add_evidence_card card s) cards store
  = run_ops (AddEvidenceCard <$> cards) store.
Proof.
  revert store. induction cards as [|card cards IH]; intros store; [done|].
  cbn. apply IH.
Qed.

(** After its cards and the pathway are filed, the pathway resolves to
    cards that were filed with it. *)
Lemma filed_pathway_resolves (cards : list AtomicEvidenceCard.t)
    (pathway : PolicyPathway.t) (store : MemoryStore.t) (aware : bool) :
  PolicyPathway.evidence_card_ids pathway = AtomicEvidenceCard.id <$> cards →
  awareness aware cards →
  ∃ found,
    MemoryStore.get_evidence_cards_for_pathway
      (MemoryStore.add_policy_pathway pathway
         (run_ops (AddEvidenceCard <$> cards) store))
      (PolicyPathway.id pathway)
    = (Ok found, [])
    ∧ length found = length cards.
Proof.
  intros Hids Haware.
  set (s1 := run_ops (AddEvidenceCard <$> cards) store).
  set (s2 := MemoryStore.add_policy_pathway pathway s1).
  assert (MemoryStore.get_policy_pathway s2 (PolicyPathway.id pathway)
          = Some pathway) as Hp by apply dict_get_set_eq.
  assert (∀ card, card ∈ cards →
            ∃ card', MemoryStore.get_evidence_card s2
                       (AtomicEvidenceCard.id card) = Some card'
                     ∧ card' ∈ cards) as Hget.
  { intros card Hin. unfold MemoryStore.get_evidence_card, s2, s1.
    rewrite run_ops_add_evidence. cbn. rewrite file_all_lookup.
    destruct (last_filed_elem AtomicEvidenceCard.id cards
                (dict_get (MemoryStore.evidence store)
                   (AtomicEvidenceCard.id card)) card Hin)
      as (card' & -> & Hin' & _).
    by exists card'. }
  assert (∀ l, l ⊆ cards →
            ∃ found,
              omap (MemoryStore.get_evidence_card s2)
                (AtomicEvidenceCard.id <$> l) = found
              ∧ length found = length l ∧ found ⊆ cards
              ∧ List.filter
                  (fun card_id =>
                     bool_decide
                       (MemoryStore.get_evidence_card s2 card_id = None))
                  (AtomicEvidenceCard.id <$> l) = []) as Hall.
  { induction l as [|card l IH]; intros Hl.
    { exists []. by split_and!. }
    destruct IH as (found & Hfound & Hlen & Hsub & Hnone).
    { intros x Hx. apply Hl. by right. }
    destruct (Hget card) as (card' & Hcard' & Hin').
    { apply Hl. by left. }
    exists (card' :: found). rewrite fmap_cons. split_and!.
    - csimpl. rewrite Hcard'. csimpl. by rewrite Hfound.
    - cbn [length]. by rewrite Hlen.
    - intros x Hx. apply elem_of_cons in Hx as [->|Hx]; [done|by apply Hsub].
    - cbn [List.filter]. by rewrite Hcard', bool_decide_eq_false_2. }
  destruct (Hall cards) as (found & Hfound & Hlen & Hsub & Hnone); [done|].
  assert (awareness aware found) as Hfa.
  { unfold awareness in *. rewrite Forall_forall in *. intros c Hc.
    by apply Haware, Hsub. }
  exists (sort_stable micros_lt found). split.
  - unfold MemoryStore.get_evidence_cards_for_pathway. rewrite Hp, Hids.
    pose proof (collect_cards_found s2 (PolicyPathway.id pathway)
                  (AtomicEvidenceCard.id <$> cards)) as H1.
    pose proof (collect_cards_warnings s2 (PolicyPathway.id pathway)
                  (AtomicEvidenceCard.id <$> cards)) as H2.
    destruct (MemoryStore.collect_cards s2 _ _) as [cs out].
    cbn [fst snd] in H1, H2. rewrite H1, H2, Hfound, Hnone.
    by rewrite (sorted_by_timestamp_ok aware).
  - by rewrite (Permutation_length (sort_stable_perm _ _)).
Qed.

Lemma bind_run {S A B} (m : ST S A) (f : A → ST S B) (s s' : S) (a : A) :
  m s = (Ok a, s') → (m ≫= f) s = f a s'.
Proof. intros Hm. unfold mbind, ST_bind, bind. by rewrite Hm. Qed.

Lemma bind_raise {S A B} (m : ST S A) (f : A → ST S B) (s s' : S) (e : exn) :
  m s = (Raise e, s') → (m ≫= f) s = (Raise e, s').
Proof. intros Hm. unfold mbind, ST_bind, bind. by rewrite Hm. Qed.

Section UpdateMemory.
Context `{PyRuntime}.

Lemma on_world_run {A} (m : M A) (h : HDPM.t) (w w' : world) (r : result A) :
  m w = (r, w') → ReflectAgent.on_world m (h, w) = (r, (h, w')).
Proof. intros Hm. unfold ReflectAgent.on_world. by rewrite Hm. Qed.

Lemma serialize_run (cards : list AtomicEvidenceCard.t) (aware : bool)
    (w : world) :
  awareness aware cards →
  ReflectAgent.serialize cards w
  = (Ok {| PolicyPathway.id := lit "pp_" ++ uuids w (drawn w);
           PolicyPathway.evidence_card_ids :=
             AtomicEvidenceCard.id <$> sort_stable micros_lt cards;
           PolicyPathway.linked_insight_id := None |},
     drew w).
Proof.
  intros Ha. unfold ReflectAgent.serialize.
  destruct cards as [|card cards]; [done|].
  unfold mbind, ST_bind, bind, lift.
  by rewrite (sorted_by_timestamp_ok aware).
Qed.

Lemma target_set_target (result : Z) (store : MemoryStore.t) (h : HDPM.t) :
  ReflectAgent.target_memory_store result
    (ReflectAgent.set_target_memory_store result store h) = store.
Proof.
  unfold ReflectAgent.target_memory_store,
    ReflectAgent.set_target_memory_store.
  by destruct (result =? 1)%Z.
Qed.

Lemma set_target_twice (result : Z) (s s' : MemoryStore.t) (h : HDPM.t) :
  ReflectAgent.set_target_memory_store result s
    (ReflectAgent.set_target_memory_store result s' h)
  = ReflectAgent.set_target_memory_store result s h.
Proof.
  unfold ReflectAgent.set_target_memory_store. by destruct (result =? 1)%Z.
Qed.

Lemma other_set_target (result : Z) (store : MemoryStore.t) (h : HDPM.t) :
  other_memory_store result
    (ReflectAgent.set_target_memory_store result store h)
  = other_memory_store result h.
Proof.
  unfold other_memory_store, ReflectAgent.set_target_memory_store.
  by destruct (result =? 1)%Z.
Qed.

Lemma add_insight_linked (insight : Insight.t) (store : MemoryStore.t)
    (pathway : PolicyPathway.t) :
  MemoryStore.get_policy_pathway store (Insight.source_pathway_id insight)
  = Some pathway →
  MemoryStore.add_insight insight store
  = (apply_op store (AddInsight insight), []).
Proof.
  intros Hp. unfold apply_op, MemoryStore.add_insight.
  unfold MemoryStore.get_policy_pathway in Hp. by rewrite Hp.
Qed.

Lemma run_filing_ops (cards : list AtomicEvidenceCard.t)
    (pathway : PolicyPathway.t) (insight : Insight.t) (store : MemoryStore.t) :
  run_ops (filing_ops cards pathway insight) store
  = apply_op
      (MemoryStore.add_policy_pathway pathway
         (run_ops (AddEvidenceCard <$> cards) store))
      (AddInsight insight).
Proof. unfold run_ops, filing_ops. by rewrite fold_left_app. Qed.

(** The run of [update_memory] once [atomize] has returned. *)
Lemma update_memory_run (self : ReflectAgent.t) (trajectory : list event)
    (result : Z) (h : HDPM.t) (w : world)
    (cards : list AtomicEvidenceCard.t) :
  trajectory ≠ [] →
  sorted_by_timestamp (step_cards w trajectory) = Ok cards →
  ∃ content w',
    ReflectAgent.update_memory self trajectory result (h, w)
    = (Ok (Some (experience_insight w trajectory content),
           Some (PolicyPathway.set_linked_insight_id
                   (experience_pathway w trajectory cards)
                   (Some (Insight.id
                            (experience_insight w trajectory content)))),
           cards),
       (ReflectAgent.set_target_memory_store result
          (run_ops
             (filing_ops cards (experience_pathway w trajectory cards)
                (experience_insight w trajectory content))
             (ReflectAgent.target_memory_store result h)) h,
        w'))
    ∧ clock w' = clock w
    ∧ ticks w' = ticks w + clock_reads trajectory
    ∧ uuids w' = uuids w
    ∧ drawn w' = drawn w + length trajectory + 2
    ∧ stdout w'
      = stdout w ++ step_warnings trajectory
        ++ [ReflectAgent.updated_message result
              (experience_insight w trajectory content)
              (experience_pathway w trajectory cards) (length trajectory)].
Proof.
  intros Hne Hsorted.
  destruct (sorted_by_timestamp_inv _ _ Hsorted) as [Hcards [aware Haware]].
  assert (cards ≡ₚ step_cards w trajectory) as Hperm
    by (rewrite Hcards; apply sort_stable_perm).
  assert (length cards = length trajectory) as Hlen.
  { rewrite Hperm. unfold step_cards. apply length_imap. }
  assert (awareness aware cards) as Hca
    by (eapply awareness_perm; [symmetry; exact Hperm|done]).
  assert (sort_stable micros_lt cards = cards) as Hidem.
  { apply (sort_stable_of_sorted micros_of); [apply micros_lt_key|].
    rewrite Hcards. apply (sort_stable_sorted micros_of), micros_lt_key. }
  assert (ReflectAgent.is_empty trajectory = false) as Het
    by (by destruct trajectory).
  assert (ReflectAgent.is_empty cards = false) as Hec.
  { destruct cards; [|done]. destruct trajectory; done. }
  set (w1 := after_atomize w trajectory).
  set (pathway := experience_pathway w trajectory cards).
  set (s0 := ReflectAgent.target_memory_store result h).
  set (s1 := run_ops (AddEvidenceCard <$> cards) s0).
  set (s2 := MemoryStore.add_policy_pathway pathway s1).
  destruct (filed_pathway_resolves cards pathway s0 aware eq_refl Hca)
    as (found & Hfound & Hflen).
  fold s1 s2 in Hfound.
  destruct (distill_run self pathway s2 result (drew w1))
    as [(content & w3 & Hdistill & Hc3 & Ht3 & Hu3 & Hd3 & Ho3)
       |(w3 & _ & Hraise & _)];
    [|by rewrite Hfound in Hraise].
  exists content.
  set (insight := experience_insight w trajectory content).
  assert ({| Insight.id := lit "insight_" ++ uuids (drew w1) (drawn (drew w1));
             Insight.content := content;
             Insight.source_pathway_id := PolicyPathway.id pathway |}
          = insight) as Hinsight.
  { unfold insight, experience_insight, pathway, experience_pathway, w1.
    cbn -[lit]. by rewrite <-Nat.add_1_r. }
  rewrite Hinsight in Hdistill.
  eexists. split.
  - unfold ReflectAgent.update_memory. rewrite Het.
    erewrite bind_run;
      [|apply on_world_run; rewrite atomize_run, Hsorted; reflexivity].
    rewrite Hec.
    erewrite bind_run;
      [|apply on_world_run; rewrite (serialize_run cards aware) by done;
        reflexivity].
    rewrite Hidem. fold w1.
    change {| PolicyPathway.id := lit "pp_" ++ uuids w1 (drawn w1);
              PolicyPathway.evidence_card_ids :=
                AtomicEvidenceCard.id <$> cards;
              PolicyPathway.linked_insight_id := None |} with pathway.
    erewrite bind_run; [|reflexivity].
    erewrite bind_run; [|reflexivity].
    erewrite bind_run; [|reflexivity].
    erewrite bind_run; [|reflexivity].
    erewrite bind_run; [|reflexivity].
    rewrite !target_set_target, !set_target_twice, add_cards_run_ops.
    fold s0. fold s1. fold s2.
    erewrite bind_run; [|apply on_world_run; exact Hdistill].
    erewrite bind_run; [|reflexivity].
    rewrite target_set_target, (add_insight_linked insight s2 pathway)
      by apply dict_get_set_eq.
    erewrite bind_run; [|reflexivity].
    erewrite bind_run; [|apply on_world_run, print_all_run].
    erewrite bind_run; [|apply on_world_run, print_run].
    rewrite set_target_twice, run_filing_ops. fold s1. fold s2.
    reflexivity.
  - rewrite Hfound in Ho3. cbn [snd] in Ho3.
    cbn -[lit]. rewrite Hc3, Ht3, Hu3, Hd3, Ho3, Hlen. cbn -[lit].
    split_and!; try done; [lia|].
    rewrite <-!app_assoc. do 2 f_equal.
    by destruct (_ || _).
Qed.
End UpdateMemory.

Section UpdateMemoryOutcome.
Context `{PyRuntime}.

(** X20. What a reflection files.  For a trajectory that is not empty
    and whose timestamps can be ordered, [update_memory] returns the cards
    that [atomize] makes of it, a pathway that lists the ids of these cards
    in their order, and an insight whose source is that pathway; the pathway
    returned is linked to the insight.  The store chosen by the outcome (the
    positive one for 1, the negative one for every other value) is left as by
    adding the cards, then the pathway, then the insight: the insight and the
    linked pathway are found under their ids, and every id of a card leads to
    a card of the trajectory.  The other store is left as it was.  Two UUIDs
    are drawn after those of the cards, and the last line printed reports the
    update. *)
Theorem update_memory_files_experience (self : ReflectAgent.t)
    (trajectory : list event) (result : Z) (h : HDPM.t) (w : world) :
  trajectory ≠ [] →
  comparable_timestamps trajectory →
  ∃ cards content h' w',
    let pathway := experience_pathway w trajectory cards in
    let insight := experience_insight w trajectory content in
    let linked :=
      PolicyPathway.set_linked_insight_id pathway (Some (Insight.id insight)) in
    let store := ReflectAgent.target_memory_store result h' in
    (ReflectAgent.atomize trajectory w).1 = Ok cards
    ∧ ReflectAgent.update_memory self trajectory result (h, w)
      = (Ok (Some insight, Some linked, cards), (h', w'))
    ∧ store
      = run_ops (filing_ops cards pathway insight)
          (ReflectAgent.target_memory_store result h)
    ∧ other_memory_store result h' = other_memory_store result h
    ∧ MemoryStore.get_insight store (Insight.id insight) = Some insight
    ∧ MemoryStore.get_policy_pathway store (PolicyPathway.id pathway)
      = Some linked
    ∧ Forall
        (fun card =>
           ∃ card', MemoryStore.get_evidence_card store
                      (AtomicEvidenceCard.id card) = Some card'
                    ∧ card' ∈ cards)
        cards
    ∧ drawn w' = drawn w + length trajectory + 2
    ∧ stdout w'
      = stdout w ++ step_warnings trajectory
        ++ [ReflectAgent.updated_message result insight pathway
              (length trajectory)].
Proof.
  intros Hne Hcmp.
  destruct (step_cards_awareness w trajectory Hcmp) as [aware Haware].
  pose proof (sorted_by_timestamp_ok aware _ Haware) as Hsorted.
  destruct (update_memory_run self trajectory result h w _ Hne Hsorted)
    as (content & w' & Hrun & _ & _ & _ & Hdrawn & Hout).
  eexists _, content, _, w'. cbn zeta.
  split; [by rewrite atomize_run|]. split; [exact Hrun|].
  rewrite target_set_target, other_set_target. split; [done|]. split; [done|].
  set (cards := sort_stable micros_lt (step_cards w trajectory)).
  set (pathway := experience_pathway w trajectory cards).
  set (insight := experience_insight w trajectory content).
  rewrite run_filing_ops. cbn [apply_op]. rewrite add_insight_store.
  unfold MemoryStore.get_insight, MemoryStore.get_policy_pathway,
    MemoryStore.get_evidence_card.
  cbn [MemoryStore.insights MemoryStore.pathways MemoryStore.evidence].
  split_and!; [apply dict_get_set_eq| | |done..].
  - unfold link_one.
    change (Insight.source_pathway_id insight) with (PolicyPathway.id pathway).
    cbn [MemoryStore.add_policy_pathway MemoryStore.pathways].
    rewrite dict_get_set_eq. apply dict_get_set_eq.
  - cbn [MemoryStore.add_policy_pathway MemoryStore.evidence].
    rewrite run_ops_add_evidence. cbn [MemoryStore.evidence].
    apply Forall_forall. intros card Hin. rewrite file_all_lookup.
    destruct (last_filed_elem AtomicEvidenceCard.id cards
                (dict_get
                   (MemoryStore.evidence
                      (ReflectAgent.target_memory_store result h))
                   (AtomicEvidenceCard.id card)) card Hin)
      as (card' & -> & Hin' & _).
    by exists card'.
Qed.

(** X21. [update_memory] never touches the store it does not target:
    whether it returns or raises, the store that the outcome does not select
    is as it was.  When it returns [(None, None, [])] the trajectory was empty
    and the memory is as it was; when it returns an insight, a pathway and
    cards, the trajectory was not empty, its timestamps can be ordered, and
    there is one card per step; it returns nothing else, and it does not raise
    on the empty trajectory.  A trajectory in which some step is stamped with
    a UTC offset and another is not makes it raise [TypeError], from the sort
    of [atomize], before anything is filed: both stores are as they were, and
    the world is as [atomize] leaves it. *)
Theorem update_memory_spares_other_store (self : ReflectAgent.t)
    (trajectory : list event) (result : Z) (h : HDPM.t) (w : world) :
  let '(r, (h', w')) :=
    ReflectAgent.update_memory self trajectory result (h, w) in
  other_memory_store result h' = other_memory_store result h
  ∧ match r with
    | Ok (None, None, []) => trajectory = [] ∧ h' = h
    | Ok (Some insight, Some pathway, cards) =>
        trajectory ≠ [] ∧ comparable_timestamps trajectory
        ∧ length cards = length trajectory
    | Ok _ => False
    | Raise _ => trajectory ≠ []
    end
  ∧ (Exists stamped_aware trajectory → Exists stamped_naive trajectory →
     r = Raise TypeError ∧ h' = h ∧ w' = after_atomize w trajectory).
Proof.
  destruct (decide (trajectory = [])) as [->|Hne].
  { split_and!; [done..|]. intros Ha. by apply Exists_nil in Ha. }
  destruct (comparable_or_mixed trajectory) as [Hcmp|[Haware Hnaive]].
  - destruct (step_cards_awareness w trajectory Hcmp) as [aware Ha].
    pose proof (sorted_by_timestamp_ok aware _ Ha) as Hsorted.
    destruct (update_memory_run self trajectory result h w _ Hne Hsorted)
      as (content & w' & -> & _).
    rewrite other_set_target. split; [done|]. split.
    + split_and!; [done..|].
      rewrite (Permutation_length (sort_stable_perm _ _)).
      unfold step_cards. apply length_imap.
    + intros Haware Hnaive.
      pose proof (step_cards_mixed w trajectory Haware Hnaive) as Hmixed.
      congruence.
  - unfold ReflectAgent.update_memory.
    replace (ReflectAgent.is_empty trajectory) with false
      by (by destruct trajectory).
    erewrite bind_raise;
      [|apply on_world_run; rewrite atomize_run, step_cards_mixed by done;
        reflexivity].
    done.
Qed.
End UpdateMemoryOutcome.

Lemma update_memory_files_experience_witness :
  ∃ cards content h' w',
    ReflectAgent.update_memory
      {| ReflectAgent.llm_simulation_mode := lit "simple_keywords" |}
      sample_trajectory (-1) (HDPM.new, world0)
    = (Ok (Some (experience_insight world0 sample_trajectory content),
           Some (PolicyPathway.set_linked_insight_id
                   (experience_pathway world0 sample_trajectory cards)
                   (Some (Insight.id
                            (experience_insight world0 sample_trajectory
                               content)))),
           cards), (h', w'))
    ∧ HDPM.positive_memory h' = MemoryStore.new.
Proof.
  destruct (update_memory_files_experience
              {| ReflectAgent.llm_simulation_mode := lit "simple_keywords" |}
              sample_trajectory (-1) HDPM.new world0)
    as (cards & content & h' & w' & _ & Hrun & _ & Hother & _).
  - done.
  - left. intros ev d Hev Hd.
    repeat (apply elem_of_cons in Hev as [->|Hev]);
      [vm_compute in Hd; by simplify_eq ..|].
    by apply elem_of_nil in Hev.
  - by exists cards, content, h', w'.
Defined.

Lemma update_memory_spares_other_store_witness :
  ReflectAgent.update_memory
    {| ReflectAgent.llm_simulation_mode := lit "simple_keywords" |}
    mixed_trajectory 1 (HDPM.new, world0)
  = (Raise TypeError, (HDPM.new, after_atomize world0 mixed_trajectory)).
Proof.
  pose proof (update_memory_spares_other_store
                {| ReflectAgent.llm_simulation_mode := lit "simple_keywords" |}
                mixed_trajectory 1 HDPM.new world0) as Hrun.
  destruct (ReflectAgent.update_memory _ mixed_trajectory 1 _)
    as [r [h' w']].
  destruct Hrun as (_ & _ & Hmixed).
  destruct Hmixed as (-> & -> & ->); [| |reflexivity].
  - apply Exists_cons_hd.
    exists {| dt_aware := true; dt_micros := 1672567200000000 |}.
    split; reflexivity.
  - apply Exists_cons_tl, Exists_cons_hd. intros d Hd.
    vm_compute in Hd. by simplify_eq.
Defined.

(** ** Scaffolds *)

Lemma str_startswith_refl (s : str) : str_startswith s s = true.
Proof. induction s as [|c s IH]; [done|]. cbn. by rewrite N.eqb_refl. Qed.

Lemma str_startswith_app_l (needle hay rest : str) :
  str_startswith needle hay = true →
  str_startswith needle (hay ++ rest) = true.
Proof.
  revert hay. induction needle as [|c needle IH]; intros [|d hay]; cbn;
    try done.
  intros [-> Hrest]%andb_true_iff. by rewrite IH.
Qed.

Lemma str_contains_refl (s : str) : str_contains s s = true.
Proof. destruct s; cbn; [done|]. by rewrite N.eqb_refl, str_startswith_refl. Qed.

Lemma str_contains_app_l (needle hay rest : str) :
  str_contains needle hay = true → str_contains needle (hay ++ rest) = true.
Proof.
  induction hay as [|c hay IH]; cbn [str_contains app].
  - rewrite orb_false_r. intros Hn.
    destruct needle; [|done]. by destruct rest.
  - intros [Hs|Hc]%orb_true_iff.
    + change (c :: hay ++ rest) with ((c :: hay) ++ rest).
      by rewrite str_startswith_app_l.
    + rewrite IH by done. apply orb_true_r.
Qed.

Lemma str_contains_app_r (needle before hay : str) :
  str_contains needle hay = true → str_contains needle (before ++ hay) = true.
Proof.
  intros Hn. induction before as [|c before IH]; [done|].
  cbn [str_contains app]. rewrite IH. apply orb_true_r.
Qed.

Lemma fold_left_append {A} (f : A → str) (l : list A) (init : str) :
  fold_left (fun acc a => acc ++ f a) l init = init ++ mjoin (f <$> l).
Proof.
  revert init. induction l as [|a l IH]; intros init; cbn.
  - by rewrite app_nil_r.
  - by rewrite IH, <-app_assoc.
Qed.

Lemma str_contains_mjoin (needle line : str) (lines : list str) :
  line ∈ lines → str_contains needle line = true →
  str_contains needle (mjoin lines) = true.
Proof.
  intros Hin Hn. induction Hin as [line lines|line line' lines Hin IH].
  - change (mjoin (line :: lines)) with (line ++ mjoin lines).
    by apply str_contains_app_l.
  - change (mjoin (line' :: lines)) with (line' ++ mjoin lines).
    by apply str_contains_app_r, IH.
Qed.

Lemma insight_bullet_contains (insight : Insight.t) :
  str_contains
    (lit "- " ++ Insight.content insight ++ lit " (Source Pathway: "
     ++ Insight.source_pathway_id insight ++ lit ")")
    (HDPM.insight_bullet insight) = true.
Proof.
  replace (HDPM.insight_bullet insight)
    with ((lit "- " ++ Insight.content insight ++ lit " (Source Pathway: "
           ++ Insight.source_pathway_id insight ++ lit ")") ++ HDPM.nl).
  - apply str_contains_app_l, str_contains_refl.
  - unfold HDPM.insight_bullet. by rewrite <-!app_assoc.
Qed.

Lemma bullets_contain (insight : Insight.t) (insights : list Insight.t)
    (init : str) :
  insight ∈ insights →
  str_contains
    (lit "- " ++ Insight.content insight ++ lit " (Source Pathway: "
     ++ Insight.source_pathway_id insight ++ lit ")")
    (fold_left (fun scaffold insight => scaffold ++ HDPM.insight_bullet insight)
       insights init) = true.
Proof.
  intros Hin. rewrite fold_left_append. apply str_contains_app_r.
  eapply str_contains_mjoin; [|apply insight_bullet_contains].
  by apply list_elem_of_fmap_2.
Qed.

Lemma bullets_keep (needle : str) (insights : list Insight.t) (init : str) :
  str_contains needle init = true →
  str_contains needle
    (fold_left (fun scaffold insight => scaffold ++ HDPM.insight_bullet insight)
       insights init) = true.
Proof. intros Hn. rewrite fold_left_append. by apply str_contains_app_l. Qed.

(** X22. The planner scaffold shows everything it is given: the line
    of every insight passed in, positive or negative, with its content and the
    id of its source pathway, occurs in the text, and so does the query
    between double quotes. *)
Theorem planner_scaffold_shows_insights_and_query
    (positive_insights negative_insights : list Insight.t) (query : str) :
  Forall
    (fun insight =>
       str_contains
         (lit "- " ++ Insight.content insight ++ lit " (Source Pathway: "
          ++ Insight.source_pathway_id insight ++ lit ")")
         (HDPM.build_planner_scaffold positive_insights negative_insights
            query) = true)
    (positive_insights ++ negative_insights)
  ∧ str_contains (HDPM.quote ++ query ++ HDPM.quote)
      (HDPM.build_planner_scaffold positive_insights negative_insights query)
    = true.
Proof.
  unfold HDPM.build_planner_scaffold. split.
  - apply Forall_app. split; apply Forall_forall; intros insight Hin;
      apply str_contains_app_l.
    + destruct positive_insights as [|i0 pos]; [by apply elem_of_nil in Hin|].
      destruct negative_insights as [|j0 neg].
      * by apply str_contains_app_l, bullets_contain.
      * by apply bullets_keep, str_contains_app_l, bullets_contain.
    + destruct negative_insights as [|j0 neg]; [by apply elem_of_nil in Hin|].
      by apply bullets_contain.
  - apply str_contains_app_r, str_contains_app_r, str_contains_app_r.
    replace (HDPM.quote ++ query ++ HDPM.quote ++ HDPM.nl)
      with ((HDPM.quote ++ query ++ HDPM.quote) ++ HDPM.nl)
      by (by rewrite <-!app_assoc).
    apply str_contains_app_l, str_contains_refl.
Qed.

Section EvidenceScaffold.
Variable strftime : datetime → str.

Lemma examples_app (a b : list chunk) : examples (a ++ b) = examples a ++ examples b.
Proof. unfold examples. apply omap_app. Qed.

Lemma examples_lines (cards : list AtomicEvidenceCard.t) :
  examples (ExampleLine <$> cards) = cards.
Proof. induction cards as [|c cards IH]; [done|]. cbn. by f_equal. Qed.

Lemma of_role_app (agent_role : str) (a b : list AtomicEvidenceCard.t) :
  of_role agent_role (a ++ b) = of_role agent_role a ++ of_role agent_role b.
Proof. unfold of_role. apply List.filter_app. Qed.

Lemma take_app_taken {A} (m : nat) (a b : list A) :
  take m (a ++ b) = take m a ++ take (m - length (take m a)) b.
Proof.
  rewrite take_app, length_take. f_equal.
  destruct (decide (length a ≤ m)).
  - f_equal. lia.
  - replace (m - length a) with 0 by lia. by replace (m - m `min` length a) with 0 by lia.
Qed.

(** The inner loop appends the lines of the first cards of the role,
    as many as the limit still allows. *)
Lemma format_cards_spec (agent_role : str)
    (cards : list AtomicEvidenceCard.t) (text : str) (card_count : nat) :
  HDPM.format_cards strftime agent_role cards text card_count
  = (text
     ++ mjoin (HDPM.example_line strftime
                 <$> take (3 - card_count) (of_role agent_role cards)),
     card_count
     + length (take (3 - card_count) (of_role agent_role cards))).
Proof.
  revert text card_count.
  induction cards as [|card cards IH]; intros text n;
    cbn [HDPM.format_cards of_role List.filter].
  { rewrite take_nil. cbn. by rewrite app_nil_r, Nat.add_0_r. }
  unfold HDPM.max_cards_per_role.
  destruct (3 <=? n) eqn:Hn.
  { apply Nat.leb_le in Hn. replace (3 - n) with 0 by lia. cbn.
    by rewrite app_nil_r, Nat.add_0_r. }
  apply Nat.leb_gt in Hn. fold (of_role agent_role cards).
  destruct (bool_decide (AtomicEvidenceCard.agent_type card = agent_role)).
  - rewrite IH. replace (3 - n) with (S (3 - S n)) by lia. cbn [take].
    rewrite fmap_cons.
    change (mjoin (?x :: ?l)) with (x ++ mjoin l).
    rewrite <-app_assoc. cbn [length]. f_equal. lia.
  - apply IH.
Qed.

(** The outer loop, when every lookup returns. *)
Lemma format_pathways_spec (store : MemoryStore.t) (agent_role : str)
    (pathways : list PolicyPathway.t) (text : str) (card_count : nat) :
  Forall
    (fun pathway =>
       ∃ cards,
         (MemoryStore.get_evidence_cards_for_pathway store
            (PolicyPathway.id pathway)).1 = Ok cards)
    pathways →
  ∃ chunks,
    (HDPM.format_pathways strftime store agent_role pathways text
       card_count).1
    = Ok (text ++ mjoin (render strftime <$> chunks),
          card_count + length (examples chunks))
    ∧ examples chunks
      = take (3 - card_count)
          (of_role agent_role (mjoin (evidence_of store <$> pathways)))
    ∧ Forall
        (fun c =>
           match c with
           | ExampleLine _ => True
           | SeparatorLine pathway => pathway ∈ pathways
           end)
        chunks.
Proof.
  intros Hok. revert text card_count.
  induction Hok as [|pathway pathways [cards Hcards] Hok IH];
    intros text n; cbn [HDPM.format_pathways].
  { exists []. cbn. by rewrite app_nil_r, Nat.add_0_r, take_nil. }
  unfold HDPM.max_cards_per_role.
  destruct (3 <=? n) eqn:Hn.
  { apply Nat.leb_le in Hn. exists []. replace (3 - n) with 0 by lia. cbn.
    by rewrite app_nil_r, Nat.add_0_r. }
  apply Nat.leb_gt in Hn.
  rewrite fmap_cons.
  change (mjoin (?x :: ?l)) with (x ++ mjoin l).
  unfold evidence_of at 1. rewrite Hcards.
  destruct (MemoryStore.get_evidence_cards_for_pathway store
              (PolicyPathway.id pathway)) as [r out].
  cbn [fst] in Hcards. subst r. cbn [HDPM.and_then].
  rewrite format_cards_spec.
  set (taken := take (3 - n) (of_role agent_role cards)).
  set (closing :=
         match cards with
         | _ :: _ =>
             if (n + length taken <? 3) then [SeparatorLine pathway] else []
         | [] => []
         end).
  destruct (IH ((text ++ mjoin (HDPM.example_line strftime <$> taken))
                ++ mjoin (render strftime <$> closing))
              (n + length taken)) as (rest & Hrest & Hex & Hsep).
  exists ((ExampleLine <$> taken) ++ closing ++ rest).
  assert (examples closing = []) as Hclosing.
  { unfold closing. destruct cards; [done|]. by destruct (_ <? _). }
  split_and!.
  - replace (match cards with
             | [] => text ++ mjoin (HDPM.example_line strftime <$> taken)
             | _ :: _ =>
                 if n + length taken <? 3
                 then (text ++ mjoin (HDPM.example_line strftime <$> taken))
                      ++ HDPM.pathway_separator pathway
                 else text ++ mjoin (HDPM.example_line strftime <$> taken)
             end)
      with ((text ++ mjoin (HDPM.example_line strftime <$> taken))
            ++ mjoin (render strftime <$> closing)).
    2:{ unfold closing. destruct cards; [apply app_nil_r|].
        destruct (_ <? _); [|apply app_nil_r].
        change (mjoin (render strftime <$> [SeparatorLine pathway]))
          with (HDPM.pathway_separator pathway ++ []).
        by rewrite app_nil_r. }
    destruct (HDPM.format_pathways strftime store agent_role pathways _ _)
      as [r' out'].
    cbn [fst] in Hrest |- *. rewrite Hrest. f_equal. f_equal.
    + rewrite !fmap_app, !join_app, <-!app_assoc. do 2 f_equal.
      rewrite <-list_fmap_compose. done.
    + rewrite !examples_app, examples_lines, Hclosing, length_app. cbn. lia.
  - rewrite !examples_app, examples_lines, Hclosing, Hex. cbn [app].
    rewrite of_role_app, take_app_taken. fold taken. do 2 f_equal. lia.
  - apply Forall_app. split; [|apply Forall_app; split].
    + apply Forall_fmap, Forall_true. done.
    + unfold closing. destruct cards; [done|].
      destruct (_ <? _); repeat constructor.
    + eapply Forall_impl; [exact Hsep|]. intros [card|p]; [done|].
      intros Hp. by right.
Qed.

(** X23. Evidence for a role, when every lookup returns: the text is
    made of the lines of cards and of lines that close the cards of a pathway;
    the cards shown are the first three cards of the role, taking the pathways
    in the order given and the cards of each in time order, so that never more
    than three are shown; and the text ["No specific examples of this type
    retrieved."] stands in exactly when nothing at all was appended. *)
Theorem evidence_scaffold_shows_first_three (pathways : list PolicyPathway.t)
    (store : MemoryStore.t) (agent_role : str) :
  Forall
    (fun pathway =>
       ∃ cards,
         (MemoryStore.get_evidence_cards_for_pathway store
            (PolicyPathway.id pathway)).1 = Ok cards)
    pathways →
  ∃ chunks,
    (HDPM._format_evidence_for_scaffold strftime pathways store agent_role).1
    = Ok match chunks with
         | [] => HDPM.no_examples
         | _ :: _ => mjoin (render strftime <$> chunks)
         end
    ∧ examples chunks
      = take 3 (of_role agent_role (mjoin (evidence_of store <$> pathways)))
    ∧ length (examples chunks) ≤ 3
    ∧ Forall
        (fun c =>
           match c with
           | ExampleLine card =>
               AtomicEvidenceCard.agent_type card = agent_role
           | SeparatorLine pathway => pathway ∈ pathways
           end)
        chunks.
Proof.
  intros Hok.
  destruct (format_pathways_spec store agent_role pathways [] 0 Hok)
    as (chunks & Hrun & Hex & Hsep).
  exists chunks. split_and!.
  - unfold HDPM._format_evidence_for_scaffold.
    destruct (HDPM.format_pathways strftime store agent_role pathways [] 0)
      as [r out].
    cbn [fst] in Hrun. subst r. cbn.
    destruct chunks as [|[card|pathway] chunks]; done.
  - done.
  - rewrite Hex, length_take. lia.
  - apply Forall_forall. intros [card|pathway] Hin.
    + assert (card ∈ examples chunks) as Hcard.
      { unfold examples. apply list_elem_of_omap. by exists (ExampleLine card). }
      rewrite Hex in Hcard.
      apply elem_of_take in Hcard as (i & Hi & _).
      apply list_elem_of_lookup_2, list_elem_of_In, filter_In in Hi as [_ Hi].
      by apply bool_decide_eq_true in Hi.
    + rewrite Forall_forall in Hsep. by apply (Hsep (SeparatorLine pathway)).
Qed.
End EvidenceScaffold.

Section Prompts.
Context `{PyRuntime}.
Variable strftime : datetime → str.

(** X24. When no stored insight shares a term with the query, the
    three prompts are the fixed texts for "nothing retrieved", whatever
    [top_k_retrieval] is: the planner prompt names the missing success
    principles and failure traps and ends with the query, and the assistant
    and critic prompts carry the line ["No specific examples of this type
    retrieved."] in both of their sections.  Nothing is printed. *)
Theorem prompts_without_match (h : HDPM.t) (query : str)
    (top_k_retrieval : Z) :
  Forall (fun insight => overlap query insight = 0%nat)
    (dict_values (MemoryStore.insights (HDPM.positive_memory h))) →
  Forall (fun insight => overlap query insight = 0%nat)
    (dict_values (MemoryStore.insights (HDPM.negative_memory h))) →
  HDPM.generate_role_specific_prompts strftime h query top_k_retrieval
  = (Ok [(lit "Planner",
          lit "### Planner Strategic Briefing ###" ++ HDPM.nl
          ++ lit "# No specific success principles retrieved for this query."
          ++ HDPM.nl
          ++ lit "# No specific failure traps retrieved for this query."
          ++ HDPM.nl ++ HDPM.nl
          ++ lit "# Based on the above, and your general knowledge, formulate a high-level strategic plan for the query: "
          ++ HDPM.quote ++ query ++ HDPM.quote ++ HDPM.nl);
         (lit "Assistant",
          lit "### Assistant Execution Handbook ###" ++ HDPM.nl
          ++ lit "# Successful Tool Usage Examples (from positive pathways):"
          ++ HDPM.nl
          ++ lit "  - No specific examples of this type retrieved." ++ HDPM.nl
          ++ HDPM.nl
          ++ lit "# Caution - Past Issues & Failed Tool Usage (from negative pathways):"
          ++ HDPM.nl
          ++ lit "  - No specific examples of this type retrieved." ++ HDPM.nl
          ++ HDPM.nl
          ++ lit "# When executing the new plan, aim to replicate successful patterns and strictly avoid known failure modes related to tool usage or parameters."
          ++ HDPM.nl);
         (lit "Critic",
          lit "### Critic Evaluation Essentials ###" ++ HDPM.nl
          ++ lit "# Key Indicators from Successful Evaluations (from positive pathways):"
          ++ HDPM.nl
          ++ lit "  - No specific examples of this type retrieved." ++ HDPM.nl
          ++ HDPM.nl
          ++ lit "# Common Pitfalls & Defect Signatures from Failed Cases (from negative pathways):"
          ++ HDPM.nl
          ++ lit "  - No specific examples of this type retrieved." ++ HDPM.nl
          ++ HDPM.nl
          ++ lit "# During your evaluation, pay close attention to replicating conditions that led to success and be vigilant for any signs of previously observed failure characteristics."
          ++ HDPM.nl)], []).
Proof.
  intros Hpos Hneg.
  unfold HDPM.generate_role_specific_prompts, HDPM.global_co_retrieval.
  rewrite !retrieve_no_match by done.
  reflexivity.
Qed.

Lemma format_evidence_raises (pathway : PolicyPathway.t)
    (pathways : list PolicyPathway.t) (store : MemoryStore.t)
    (agent_role : str) (e : exn) :
  (MemoryStore.get_evidence_cards_for_pathway store
     (PolicyPathway.id pathway)).1 = Raise e →
  (HDPM._format_evidence_for_scaffold strftime (pathway :: pathways) store
     agent_role).1 = Raise e.
Proof.
  intros Hraise.
  unfold HDPM._format_evidence_for_scaffold. cbn [HDPM.format_pathways].
  destruct (MemoryStore.get_evidence_cards_for_pathway store _) as [r out].
  cbn [fst] in Hraise. by subst r.
Qed.

(** X25. One unsortable pathway blocks the prompts: when the first
    positive pathway retrieved for the query has cards whose timestamps cannot
    be ordered, so that its lookup raises, [generate_role_specific_prompts]
    raises the same exception instead of returning prompts. *)
Theorem prompts_fail_on_unsortable_pathway (h : HDPM.t) (query : str)
    (top_k_retrieval : Z) (pathway : PolicyPathway.t) (e : exn) :
  head (HDPM.global_co_retrieval h query
          (if (top_k_retrieval <=? 0)%Z then 1%Z else top_k_retrieval)).1.1.1.2
  = Some pathway →
  (MemoryStore.get_evidence_cards_for_pathway (HDPM.positive_memory h)
     (PolicyPathway.id pathway)).1 = Raise e →
  (HDPM.generate_role_specific_prompts strftime h query top_k_retrieval).1
  = Raise e.
Proof.
  intros Hhead Hraise. unfold HDPM.generate_role_specific_prompts.
  destruct (HDPM.global_co_retrieval h query _)
    as [[[[pos_insights pos_pathways] neg_insights] neg_pathways] out].
  cbn [fst snd] in Hhead.
  destruct pos_pathways as [|p pos_pathways]; [done|].
  injection Hhead as ->.
  pose proof (format_evidence_raises pathway pos_pathways
                (HDPM.positive_memory h) (lit "Assistant") e Hraise) as Hf.
  unfold HDPM.build_assistant_scaffold.
  destruct (HDPM._format_evidence_for_scaffold strftime _ _ (lit "Assistant"))
    as [r out'].
  cbn [fst] in Hf. by subst r.
Qed.
End Prompts.

Lemma evidence_scaffold_shows_first_three_witness :
  ∃ chunks,
    (HDPM._format_evidence_for_scaffold strftime_minutes [sample_pathway]
       evidence_store (lit "Assistant")).1
    = Ok match chunks with
         | [] => HDPM.no_examples
         | _ :: _ => mjoin (render strftime_minutes <$> chunks)
         end
    ∧ examples chunks
      = take 3 (of_role (lit "Assistant")
                  (mjoin (evidence_of evidence_store <$> [sample_pathway]))).
Proof.
  destruct (evidence_scaffold_shows_first_three strftime_minutes
              [sample_pathway] evidence_store (lit "Assistant"))
    as (chunks & Hrun & Hex & _).
  - repeat constructor. by eexists.
  - by exists chunks.
Defined.

Lemma prompts_without_match_witness :
  dict_keys
    match (HDPM.generate_role_specific_prompts strftime_minutes
             {| HDPM.positive_memory := retrieval_store;
                HDPM.negative_memory := MemoryStore.new |}
             (lit "ligand docking - QuickBind!") 0).1 with
    | Ok prompts => prompts
    | Raise _ => []
    end
  = [lit "Planner"; lit "Assistant"; lit "Critic"].
Proof.
  rewrite (prompts_without_match strftime_minutes
             {| HDPM.positive_memory := retrieval_store;
                HDPM.negative_memory := MemoryStore.new |}
             (lit "ligand docking - QuickBind!") 0).
  - reflexivity.
  - repeat constructor.
  - constructor.
Defined.

Lemma prompts_fail_on_unsortable_pathway_witness :
  (HDPM.generate_role_specific_prompts strftime_minutes mixed_memory
     (lit "SuperFold") 1).1
  = Raise TypeError.
Proof.
  apply (prompts_fail_on_unsortable_pathway strftime_minutes mixed_memory
           (lit "SuperFold") 1
           (PolicyPathway.set_linked_insight_id
              {| PolicyPathway.id := lit "p1";
                 PolicyPathway.evidence_card_ids := [lit "e1"; lit "e2"];
                 PolicyPathway.linked_insight_id := None |}
              (Some (lit "i1")))).
  - reflexivity.
  - reflexivity.
Defined.

(** ** Reflection and persistence together *)

Lemma dict_set_twice {V} (d : dict V) k v v' :
  dict_set (dict_set d k v) k v' = dict_set d k v'.
Proof.
  induction d as [|[k0 v0] d IH]; cbn.
  - by rewrite decide_True.
  - destruct (decide (k0 = k)) as [->|Hne]; cbn.
    + by rewrite decide_True.
    + rewrite decide_False by done. by rewrite IH.
Qed.

Lemma dict_values_set {V} (P : V → Prop) (d : dict V) k v :
  Forall P (dict_values d) → P v → Forall P (dict_values (dict_set d k v)).
Proof.
  intros Hd Hv. induction d as [|[k0 v0] d IH]; cbn.
  - by constructor.
  - apply Forall_cons in Hd as [H0 Hd].
    destruct (decide (k0 = k)); cbn; constructor; auto.
Qed.

Lemma file_all_values {V} (P : V → Prop) (id_of : V → str) (vs : list V)
    (d : dict V) :
  Forall P (dict_values d) → Forall P vs →
  Forall P (dict_values (file_all id_of vs d)).
Proof.
  intros Hd Hvs. revert d Hd. induction Hvs as [|v vs Hv Hvs IH]; intros d Hd.
  - done.
  - unfold file_all. cbn [fold_left]. apply IH. by apply dict_values_set.
Qed.

(** Filing an experience whose pathway and insight are new to the
    store keeps the links settled. *)
Lemma filing_keeps_links_settled (cards : list AtomicEvidenceCard.t)
    (pathway : PolicyPathway.t) (insight : Insight.t) (s : MemoryStore.t) :
  store_wf s → links_settled s →
  PolicyPathway.id pathway ∉ dict_keys (MemoryStore.pathways s) →
  Insight.id insight ∉ dict_keys (MemoryStore.insights s) →
  Insight.source_pathway_id insight = PolicyPathway.id pathway →
  links_settled (run_ops (filing_ops cards pathway insight) s).
Proof.
  intros (_ & [_ Hfiled] & _) Hsettled Hp Hi Hsrc.
  rewrite run_filing_ops. cbn [apply_op]. rewrite add_insight_store.
  rewrite run_ops_add_evidence.
  cbn [MemoryStore.add_policy_pathway MemoryStore.insights
         MemoryStore.pathways MemoryStore.evidence].
  unfold link_one. rewrite Hsrc, dict_get_set_eq, dict_set_twice.
  rewrite !dict_set_absent by done.
  unfold links_settled, reloaded_link, last_insight_naming in *.
  cbn [MemoryStore.insights MemoryStore.pathways].
  unfold dict_values. rewrite fmap_app. cbn [fmap list_fmap snd].
  apply Forall_app. split.
  - rewrite Forall_forall in *. intros [k q] Hin.
    specialize (Hsettled _ Hin). specialize (Hfiled _ Hin).
    cbn [fst snd] in *. destruct Hfiled as [Hk _].
    rewrite List.filter_app. cbn [List.filter].
    rewrite bool_decide_eq_false_2, app_nil_r; [done|].
    rewrite Hsrc, <-Hk. intros Heq. apply Hp. rewrite Heq.
    apply list_elem_of_fmap. by exists (k, q).
  - constructor; [|constructor]. cbn [fst snd].
    rewrite List.filter_app. cbn [List.filter].
    rewrite bool_decide_eq_true_2 by done.
    by rewrite last_snoc.
Qed.

Lemma NoDup_fmap_elem {A B} (f : A → B) (l : list A) (x y : A) :
  NoDup (f <$> l) → x ∈ l → y ∈ l → f x = f y → x = y.
Proof.
  intros Hnd Hx Hy Hf.
  apply list_elem_of_lookup in Hx as [i Hi].
  apply list_elem_of_lookup in Hy as [j Hj].
  assert (i = j) as ->; [|congruence].
  eapply NoDup_lookup; [exact Hnd| |];
    rewrite list_lookup_fmap; [by rewrite Hi|by rewrite Hj, Hf].
Qed.

Lemma last_filed_unique {V} (id_of : V → str) (vs : list V) (old : option V)
    (v : V) :
  NoDup (id_of <$> vs) → v ∈ vs →
  last_filed id_of (id_of v) vs old = Some v.
Proof.
  intros Hnd Hin.
  destruct (last_filed_elem id_of vs old v Hin) as (v' & -> & Hin' & Hid).
  f_equal. by eapply NoDup_fmap_elem.
Qed.

Section ReflectionPersists.
Context `{PyRuntime}.

Lemma step_cards_elem (w : world) (trajectory : list event)
    (card : AtomicEvidenceCard.t) :
  card ∈ step_cards w trajectory →
  ∃ j ev, trajectory !! j = Some ev ∧ card = step_card w trajectory j ev.
Proof.
  intros Hin. apply elem_of_lookup_imap in Hin as (j & ev & -> & Hev).
  by exists j, ev.
Qed.

Lemma step_cards_distinct (w : world) (trajectory : list event) :
  distinct_uuids w (length trajectory) →
  NoDup (AtomicEvidenceCard.id <$> step_cards w trajectory).
Proof.
  intros Hdistinct. apply NoDup_alt. intros i j k Hi Hj.
  rewrite list_lookup_fmap in Hi, Hj.
  unfold step_cards in Hi, Hj. rewrite list_lookup_imap in Hi, Hj.
  destruct (trajectory !! i) as [evi|] eqn:Hevi; [|done].
  destruct (trajectory !! j) as [evj|] eqn:Hevj; [|done].
  cbn -[lit] in Hi, Hj. rewrite <-Hj in Hi.
  assert (lit "aec_" ++ uuids w (drawn w + i)
          = lit "aec_" ++ uuids w (drawn w + j)) as Hid by congruence.
  apply app_inv_head in Hid.
  apply Hdistinct; [by eapply lookup_lt_Some..|done].
Qed.

(** X26. A store that reloads as it is still does after a reflection:
    when the target store holds every entity under its own id, with timestamps
    that survive the ISO codec and with settled links, and the ids drawn for
    the new pathway and insight are not yet in it, then after [update_memory]
    on a trajectory (not empty, with timestamps that can be ordered and survive
    the codec) the target store is again of this kind, so that
    [from_dict (to_dict store)] returns it exactly, the new pathway linked to
    the new insight. *)
Theorem update_memory_keeps_store_reloadable (self : ReflectAgent.t)
    (trajectory : list event) (result : Z) (h : HDPM.t) (w : world) :
  trajectory ≠ [] →
  comparable_timestamps trajectory →
  reloadable (ReflectAgent.target_memory_store result h) →
  Forall
    (fun card =>
       fromisoformat (isoformat (AtomicEvidenceCard.timestamp card))
       = Some (AtomicEvidenceCard.timestamp card))
    (step_cards w trajectory) →
  lit "pp_" ++ uuids w (drawn w + length trajectory)
  ∉ dict_keys (MemoryStore.pathways (ReflectAgent.target_memory_store result h)) →
  lit "insight_" ++ uuids w (drawn w + length trajectory + 1)
  ∉ dict_keys (MemoryStore.insights (ReflectAgent.target_memory_store result h)) →
  ∃ v h' w',
    ReflectAgent.update_memory self trajectory result (h, w)
    = (Ok v, (h', w'))
    ∧ reloadable (ReflectAgent.target_memory_store result h')
    ∧ ∀ w2, ∃ out,
        MemoryStore.from_dict
          (MemoryStore.to_dict (ReflectAgent.target_memory_store result h')) w2
        = (Ok (ReflectAgent.target_memory_store result h'), printed out w2).
Proof.
  intros Hne Hcmp (Hwf & Hts & Hsettled) Hcodec Hp Hi.
  destruct (step_cards_awareness w trajectory Hcmp) as [aware Haware].
  pose proof (sorted_by_timestamp_ok aware _ Haware) as Hsorted.
  destruct (update_memory_run self trajectory result h w _ Hne Hsorted)
    as (content & w' & Hrun & _).
  eexists _, _, w'. split; [exact Hrun|].
  rewrite target_set_target.
  set (cards := sort_stable micros_lt (step_cards w trajectory)) in *.
  assert (cards ≡ₚ step_cards w trajectory) as Hperm
    by apply sort_stable_perm.
  assert (reloadable
            (run_ops
               (filing_ops cards (experience_pathway w trajectory cards)
                  (experience_insight w trajectory content))
               (ReflectAgent.target_memory_store result h))) as Hreload.
  { split_and!.
    - apply run_ops_wf; [|done]. unfold filing_ops.
      apply Forall_app. split; [|by repeat constructor].
      apply Forall_fmap, Forall_forall. intros card Hin. cbn.
      rewrite Hperm in Hin.
      by apply step_cards_elem in Hin as (j & ev & _ & ->).
    - unfold timestamps_round_trip. rewrite run_filing_ops. cbn [apply_op].
      rewrite add_insight_store, run_ops_add_evidence.
      cbn [MemoryStore.add_policy_pathway MemoryStore.evidence].
      apply file_all_values; [done|]. by rewrite Hperm.
    - by apply filing_keeps_links_settled. }
  split; [done|]. intros w2.
  destruct Hreload as (Hwf' & Hts' & Hsettled').
  by apply from_dict_to_dict_settled.
Qed.

(** X27. What a reflection files can be read back: when the UUID
    source gives each step an id of its own, the cards returned by
    [update_memory] have distinct ids, each is found in the target store under
    its id, and looking the new pathway up with
    [get_evidence_cards_for_pathway] returns exactly these cards, in the order
    returned and without a warning. *)
Theorem filed_pathway_resolves_to_its_cards (self : ReflectAgent.t)
    (trajectory : list event) (result : Z) (h : HDPM.t) (w : world) :
  trajectory ≠ [] →
  comparable_timestamps trajectory →
  distinct_uuids w (length trajectory) →
  ∃ insight pathway cards h' w',
    ReflectAgent.update_memory self trajectory result (h, w)
    = (Ok (Some insight, Some pathway, cards), (h', w'))
    ∧ NoDup (AtomicEvidenceCard.id <$> cards)
    ∧ Forall
        (fun card =>
           MemoryStore.get_evidence_card
             (ReflectAgent.target_memory_store result h')
             (AtomicEvidenceCard.id card) = Some card)
        cards
    ∧ MemoryStore.get_evidence_cards_for_pathway
        (ReflectAgent.target_memory_store result h') (PolicyPathway.id pathway)
      = (Ok cards, []).
Proof.
  intros Hne Hcmp Hdistinct.
  destruct (step_cards_awareness w trajectory Hcmp) as [aware Haware].
  pose proof (sorted_by_timestamp_ok aware _ Haware) as Hsorted.
  destruct (update_memory_run self trajectory result h w _ Hne Hsorted)
    as (content & w' & Hrun & _).
  eexists _, _, _, _, w'. split; [exact Hrun|].
  rewrite target_set_target.
  set (cards := sort_stable micros_lt (step_cards w trajectory)) in *.
  set (pathway := experience_pathway w trajectory cards).
  set (insight := experience_insight w trajectory content).
  set (s0 := ReflectAgent.target_memory_store result h).
  assert (cards ≡ₚ step_cards w trajectory) as Hperm
    by apply sort_stable_perm.
  assert (NoDup (AtomicEvidenceCard.id <$> cards)) as Hnd.
  { rewrite Hperm. by apply step_cards_distinct. }
  assert (∀ card, card ∈ cards →
            MemoryStore.get_evidence_card
              (run_ops (filing_ops cards pathway insight) s0)
              (AtomicEvidenceCard.id card) = Some card) as Hget.
  { intros card Hin. rewrite run_filing_ops. cbn [apply_op].
    rewrite add_insight_store, run_ops_add_evidence.
    unfold MemoryStore.get_evidence_card.
    cbn [MemoryStore.add_policy_pathway MemoryStore.evidence].
    rewrite file_all_lookup. by apply last_filed_unique. }
  split; [done|]. split; [by apply Forall_forall|].
  assert (MemoryStore.get_policy_pathway
            (run_ops (filing_ops cards pathway insight) s0)
            (PolicyPathway.id pathway)
          = Some (PolicyPathway.set_linked_insight_id pathway
                    (Some (Insight.id insight)))) as Hp.
  { rewrite run_filing_ops. cbn [apply_op]. rewrite add_insight_store.
    unfold MemoryStore.get_policy_pathway, link_one.
    cbn [MemoryStore.add_policy_pathway MemoryStore.pathways].
    change (Insight.source_pathway_id insight) with (PolicyPathway.id pathway).
    rewrite dict_get_set_eq. apply dict_get_set_eq. }
  unfold MemoryStore.get_evidence_cards_for_pathway.
  change (PolicyPathway.id
            (PolicyPathway.set_linked_insight_id pathway
               (Some (Insight.id insight))))
    with (PolicyPathway.id pathway).
  rewrite Hp. cbn [PolicyPathway.set_linked_insight_id
                     PolicyPathway.evidence_card_ids pathway
                     experience_pathway].
  set (s' := run_ops (filing_ops cards pathway insight) s0) in *.
  pose proof (collect_cards_found s' (PolicyPathway.id pathway)
                (AtomicEvidenceCard.id <$> cards)) as H1.
  pose proof (collect_cards_warnings s' (PolicyPathway.id pathway)
                (AtomicEvidenceCard.id <$> cards)) as H2.
  destruct (MemoryStore.collect_cards s' _ _) as [found out].
  cbn [fst snd] in H1, H2.
  assert (∀ l, l ⊆ cards →
            omap (MemoryStore.get_evidence_card s')
              (AtomicEvidenceCard.id <$> l) = l
            ∧ List.filter
                (fun card_id =>
                   bool_decide
                     (MemoryStore.get_evidence_card s' card_id = None))
                (AtomicEvidenceCard.id <$> l) = []) as Hall.
  { induction l as [|card l IH]; intros Hl; [done|].
    destruct IH as [IH1 IH2]. { intros x Hx. apply Hl. by right. }
    rewrite fmap_cons. split.
    - csimpl. rewrite (Hget card) by (apply Hl; by left). csimpl.
      by rewrite IH1.
    - cbn [List.filter]. rewrite (Hget card) by (apply Hl; by left).
      by rewrite bool_decide_eq_false_2. }
  destruct (Hall cards) as [Hfound Hnone]; [done|].
  rewrite H1, H2, Hfound, Hnone.
  assert (awareness aware cards) as Hca
    by (eapply awareness_perm; [symmetry; exact Hperm|done]).
  rewrite (sorted_by_timestamp_ok aware) by done.
  do 2 f_equal. apply (sort_stable_of_sorted micros_of);
    [apply micros_lt_key|].
  apply (sort_stable_sorted micros_of), micros_lt_key.
Qed.

End ReflectionPersists.

Lemma update_memory_keeps_store_reloadable_witness :
  ∃ v h' w',
    ReflectAgent.update_memory
      {| ReflectAgent.llm_simulation_mode := lit "random_choice" |}
      sample_trajectory (-1) (HDPM.new, world0)
    = (Ok v, (h', w'))
    ∧ reloadable (ReflectAgent.target_memory_store (-1) h').
Proof.
  destruct (update_memory_keeps_store_reloadable
              {| ReflectAgent.llm_simulation_mode := lit "random_choice" |}
              sample_trajectory (-1) HDPM.new world0)
    as (v & h' & w' & Hrun & Hreload & _).
  - done.
  - left. intros ev d Hev Hd.
    repeat (apply elem_of_cons in Hev as [->|Hev]);
      [vm_compute in Hd; by simplify_eq ..|].
    by apply elem_of_nil in Hev.
  - split_and!; [apply store_wf_new|constructor|constructor].
  - repeat constructor.
  - apply not_elem_of_nil.
  - apply not_elem_of_nil.
  - by exists v, h', w'.
Defined.

Lemma filed_pathway_resolves_to_its_cards_witness :
  ∃ insight pathway cards h' w',
    ReflectAgent.update_memory
      {| ReflectAgent.llm_simulation_mode := lit "simple_keywords" |}
      sample_trajectory 1 (HDPM.new, world0)
    = (Ok (Some insight, Some pathway, cards), (h', w'))
    ∧ MemoryStore.get_evidence_cards_for_pathway
        (ReflectAgent.target_memory_store 1 h') (PolicyPathway.id pathway)
      = (Ok cards, []).
Proof.
  destruct (filed_pathway_resolves_to_its_cards
              {| ReflectAgent.llm_simulation_mode := lit "simple_keywords" |}
              sample_trajectory 1 HDPM.new world0)
    as (insight & pathway & cards & h' & w' & Hrun & _ & _ & Hcards).
  - done.
  - left. intros ev d Hev Hd.
    repeat (apply elem_of_cons in Hev as [->|Hev]);
      [vm_compute in Hd; by simplify_eq ..|].
    by apply elem_of_nil in Hev.
  - intros [|[|[|i]]] [|[|[|j]]] Hi Hj Huuid; cbn in Hi, Hj; try lia;
      try done; vm_compute in Huuid; by simplify_eq.
  - by exists insight, pathway, cards, h', w'.
Defined.

(** ** Loading goes by the ids of the records *)

Lemma Forall2_elem_l {A B} (P : A → B → Prop) (l : list A) (k : list B)
    (x : A) :
  Forall2 P l k → x ∈ l → ∃ y, y ∈ k ∧ P x y.
Proof.
  intros Hall Hin. apply list_elem_of_lookup in Hin as [i Hi].
  destruct (Forall2_lookup_l _ _ _ _ _ Hall Hi) as (y & Hy & HP).
  exists y. split; [by eapply list_elem_of_lookup_2|done].
Qed.

Lemma Forall2_elem_r {A B} (P : A → B → Prop) (l : list A) (k : list B)
    (y : B) :
  Forall2 P l k → y ∈ k → ∃ x, x ∈ l ∧ P x y.
Proof.
  intros Hall Hin. apply list_elem_of_lookup in Hin as [i Hi].
  destruct (Forall2_lookup_r _ _ _ _ _ Hall Hi) as (x & Hx & HP).
  exists x. split; [by eapply list_elem_of_lookup_2|done].
Qed.

Lemma last_filed_found {V} (id_of : V → str) (k : str) (vs : list V)
    (v : V) :
  last_filed id_of k vs None = Some v → v ∈ vs ∧ id_of v = k.
Proof.
  unfold last_filed.
  destruct (last (List.filter _ vs)) as [v'|] eqn:Hlast; [|done].
  intros [= <-].
  apply last_Some_elem_of, list_elem_of_In, filter_In in Hlast as [Hv Hid].
  split; [by apply list_elem_of_In|]. by apply bool_decide_eq_true in Hid.
Qed.

Lemma dict_keys_found {V} (d : dict V) (k : str) :
  k ∈ dict_keys d → is_Some (dict_get d k).
Proof.
  intros Hk. destruct (dict_get d k) eqn:Hget; [done|].
  by apply dict_get_None_keys in Hget.
Qed.

Section RecordFacts.
Context `{PyRuntime}.

Lemma card_of_record_id (r : AtomicEvidenceCard.data)
    (card : AtomicEvidenceCard.t) :
  card_of_record r = Some card →
  AtomicEvidenceCard.id card = AtomicEvidenceCard.d_id r.
Proof.
  unfold card_of_record.
  destruct (fromisoformat _); [|done]. by intros [= <-].
Qed.

Lemma card_from_record (r : AtomicEvidenceCard.data)
    (card : AtomicEvidenceCard.t) (w : world) :
  AtomicEvidenceCard.d_id r ≠ [] → card_of_record r = Some card →
  AtomicEvidenceCard.from_dict r w = (Ok card, w).
Proof.
  intros Hid. unfold card_of_record, AtomicEvidenceCard.from_dict.
  destruct r as [[|c rid] content agent ts]; [done|]. cbn.
  unfold mbind, ST_bind, bind.
  destruct (fromisoformat ts); [|done]. by intros [= <-].
Qed.

Lemma pathway_from_record (r : PolicyPathway.data) (w : world) :
  PolicyPathway.d_id r ≠ [] →
  PolicyPathway.from_dict r w = (Ok (pathway_of_record r), w).
Proof. intros Hid. by destruct r as [[|c rid] ids link]. Qed.

Lemma insight_from_record (r : Insight.data) (w : world) :
  Insight.d_id r ≠ [] →
  Insight.from_dict r w = (Ok (insight_of_record r), w).
Proof. intros Hid. by destruct r as [[|c rid] content source]. Qed.

Lemma load_evidence_records (items : dict AtomicEvidenceCard.data)
    (cards : list AtomicEvidenceCard.t) (store : MemoryStore.t) (w : world) :
  Forall (fun r => AtomicEvidenceCard.d_id r ≠ []) (dict_values items) →
  Forall2 (fun r card => card_of_record r = Some card)
    (dict_values items) cards →
  MemoryStore.load_evidence items store w
  = (Ok (run_ops (AddEvidenceCard <$> cards) store), w).
Proof.
  revert cards store. induction items as [|[k r] items IH];
    intros cards store Hids Hcards.
  - by apply Forall2_nil_inv_l in Hcards as ->.
  - apply Forall2_cons_inv_l in Hcards as (card & rest & Hcard & Hrest & ->).
    apply Forall_cons in Hids as [Hid Hids].
    cbn [MemoryStore.load_evidence]. unfold mbind, ST_bind, bind.
    rewrite (card_from_record r card) by done. by rewrite (IH rest).
Qed.

Lemma load_pathways_records (items : dict PolicyPathway.data)
    (store : MemoryStore.t) (w : world) :
  Forall (fun r => PolicyPathway.d_id r ≠ []) (dict_values items) →
  MemoryStore.load_pathways items store w
  = (Ok (run_ops
           (AddPolicyPathway <$> (pathway_of_record <$> dict_values items))
           store), w).
Proof.
  revert store. induction items as [|[k r] items IH]; intros store Hids;
    [done|].
  apply Forall_cons in Hids as [Hid Hids].
  cbn [MemoryStore.load_pathways]. unfold mbind, ST_bind, bind.
  rewrite pathway_from_record by done. by rewrite IH.
Qed.

Lemma load_insights_records (items : dict Insight.data)
    (store : MemoryStore.t) (w : world) :
  Forall (fun r => Insight.d_id r ≠ []) (dict_values items) →
  ∃ out,
    MemoryStore.load_insights items store w
    = (Ok (run_ops (AddInsight <$> (insight_of_record <$> dict_values items))
             store), printed out w).
Proof.
  revert store w. induction items as [|[k r] items IH]; intros store w Hids.
  - exists []. by rewrite printed_nil.
  - apply Forall_cons in Hids as [Hid Hids].
    cbn [MemoryStore.load_insights]. unfold mbind, ST_bind, bind.
    rewrite insight_from_record by done.
    destruct (MemoryStore.add_insight (insight_of_record r) store)
      as [store' out] eqn:Hadd.
    rewrite print_all_run.
    destruct (IH store' (printed out w) Hids) as [out' ->].
    exists (out ++ out'). rewrite printed_app.
    unfold run_ops. cbn. by rewrite Hadd.
Qed.

Lemma record_ops_store (cards : list AtomicEvidenceCard.t)
    (d : MemoryStore.data) :
  run_ops (record_ops cards d) MemoryStore.new
  = {| MemoryStore.insights :=
         file_all Insight.id (insight_of_record <$> insight_records d) [];
       MemoryStore.pathways :=
         fold_left link_one (insight_of_record <$> insight_records d)
           (file_all PolicyPathway.id
              (pathway_of_record <$> pathway_records d) []);
       MemoryStore.evidence := file_all AtomicEvidenceCard.id cards [] |}.
Proof.
  unfold record_ops, run_ops. rewrite !fold_left_app.
  fold (run_ops (AddEvidenceCard <$> cards) MemoryStore.new).
  rewrite run_ops_add_evidence.
  match goal with
  | |- context [fold_left apply_op (AddPolicyPathway <$> ?l) ?s0] =>
      change (fold_left apply_op (AddPolicyPathway <$> l) s0)
        with (run_ops (AddPolicyPathway <$> l) s0)
  end.
  rewrite run_ops_add_pathways.
  match goal with
  | |- context [fold_left apply_op (AddInsight <$> ?l) ?s0] =>
      change (fold_left apply_op (AddInsight <$> l) s0)
        with (run_ops (AddInsight <$> l) s0)
  end.
  by rewrite run_ops_add_insights.
Qed.

(** X28. Loading goes by the ids inside the records, not by the keys
    the records are kept under.  When every record carries an id and the
    timestamps of the card records parse, [from_dict] returns the store built
    by adding the cards, then the pathways, then the insights that the records
    describe, in the order of the sections, and prints only what [add_insight]
    prints.  In that store every entity sits under its own id: each record is
    found under the id it carries (as the entity of that id filed last), and
    every key of the three dicts is the id of a record of that section, so a
    key of a section that is not the id of a record is not a key of the store
    loaded. *)
Theorem from_dict_files_records_under_their_ids (d : MemoryStore.data)
    (cards : list AtomicEvidenceCard.t) (w : world) :
  records_have_ids d →
  mapM card_of_record (card_records d) = Some cards →
  ∃ s out,
    MemoryStore.from_dict d w = (Ok s, printed out w)
    ∧ s = run_ops (record_ops cards d) MemoryStore.new
    ∧ store_wf s
    ∧ (∀ r, r ∈ card_records d →
         ∃ card,
           MemoryStore.get_evidence_card s (AtomicEvidenceCard.d_id r)
           = Some card
           ∧ AtomicEvidenceCard.id card = AtomicEvidenceCard.d_id r)
    ∧ (∀ r, r ∈ pathway_records d →
         ∃ pathway,
           MemoryStore.get_policy_pathway s (PolicyPathway.d_id r)
           = Some pathway
           ∧ PolicyPathway.id pathway = PolicyPathway.d_id r)
    ∧ (∀ r, r ∈ insight_records d →
         ∃ insight,
           MemoryStore.get_insight s (Insight.d_id r) = Some insight
           ∧ Insight.id insight = Insight.d_id r)
    ∧ (∀ k, k ∈ dict_keys (MemoryStore.evidence s) →
            k ∈ AtomicEvidenceCard.d_id <$> card_records d)
    ∧ (∀ k, k ∈ dict_keys (MemoryStore.pathways s) →
            k ∈ PolicyPathway.d_id <$> pathway_records d)
    ∧ (∀ k, k ∈ dict_keys (MemoryStore.insights s) →
            k ∈ Insight.d_id <$> insight_records d).
Proof.
  intros (Hcards & Hpathways & Hinsights) Hload.
  apply mapM_Some in Hload.
  destruct (load_insights_records (default [] (MemoryStore.d_insights d))
              (run_ops
                 (AddPolicyPathway <$>
                    (pathway_of_record <$> pathway_records d))
                 (run_ops (AddEvidenceCard <$> cards) MemoryStore.new)) w)
    as [out Hrun]; [done|].
  exists (run_ops (record_ops cards d) MemoryStore.new), out. split_and!.
  - unfold MemoryStore.from_dict, mbind, ST_bind, bind.
    rewrite (load_evidence_records _ cards) by done.
    rewrite load_pathways_records by done.
    fold (pathway_records d). rewrite Hrun.
    unfold record_ops, run_ops. by rewrite !fold_left_app.
  - done.
  - apply run_ops_wf; [|apply store_wf_new].
    unfold record_ops. rewrite !Forall_app, !Forall_fmap. split_and!.
    + apply Forall_forall. intros card Hin. cbn.
      destruct (Forall2_elem_r _ _ _ _ Hload Hin) as (r & Hr & Hcard).
      rewrite (card_of_record_id r card Hcard).
      rewrite Forall_forall in Hcards. by apply Hcards.
    + eapply Forall_impl; [exact Hpathways|]. by intros r.
    + eapply Forall_impl; [exact Hinsights|]. by intros r.
  - intros r Hr. rewrite record_ops_store.
    unfold MemoryStore.get_evidence_card. cbn [MemoryStore.evidence].
    destruct (Forall2_elem_l _ _ _ _ Hload Hr) as (card & Hin & Hcard).
    rewrite file_all_lookup.
    destruct (last_filed_elem AtomicEvidenceCard.id cards None card Hin)
      as (card' & Hget & _ & Hid).
    exists card'. rewrite <-(card_of_record_id r card Hcard). by split.
  - intros r Hr. rewrite record_ops_store.
    unfold MemoryStore.get_policy_pathway. cbn [MemoryStore.pathways].
    rewrite link_all_lookup, file_all_lookup. cbn [dict_get].
    destruct (last_filed_elem PolicyPathway.id
                (pathway_of_record <$> pathway_records d) None
                (pathway_of_record r)) as (p & Hget & _ & Hid);
      [by apply list_elem_of_fmap_2|].
    cbn [pathway_of_record PolicyPathway.id] in Hget, Hid.
    rewrite Hget. cbn. eexists. split; [done|]. exact Hid.
  - intros r Hr. rewrite record_ops_store.
    unfold MemoryStore.get_insight. cbn [MemoryStore.insights].
    rewrite file_all_lookup.
    destruct (last_filed_elem Insight.id
                (insight_of_record <$> insight_records d) None
                (insight_of_record r)) as (i & Hget & _ & Hid);
      [by apply list_elem_of_fmap_2|].
    cbn [insight_of_record Insight.id] in Hget, Hid.
    exists i. by split.
  - intros k Hk. rewrite record_ops_store in Hk.
    cbn [MemoryStore.evidence] in Hk.
    destruct (dict_keys_found _ _ Hk) as [card Hget].
    rewrite file_all_lookup in Hget.
    apply last_filed_found in Hget as [Hin <-].
    destruct (Forall2_elem_r _ _ _ _ Hload Hin) as (r & Hr & Hcard).
    rewrite (card_of_record_id r card Hcard). by apply list_elem_of_fmap_2.
  - intros k Hk. rewrite record_ops_store in Hk.
    cbn [MemoryStore.pathways] in Hk. rewrite link_all_keys in Hk.
    destruct (dict_keys_found _ _ Hk) as [p Hget].
    rewrite file_all_lookup in Hget.
    apply last_filed_found in Hget as [Hin <-].
    apply list_elem_of_fmap in Hin as (r & -> & Hr).
    exact (list_elem_of_fmap_2 PolicyPathway.d_id _ _ Hr).
  - intros k Hk. rewrite record_ops_store in Hk.
    cbn [MemoryStore.insights] in Hk.
    destruct (dict_keys_found _ _ Hk) as [i Hget].
    rewrite file_all_lookup in Hget.
    apply last_filed_found in Hget as [Hin <-].
    apply list_elem_of_fmap in Hin as (r & -> & Hr).
    exact (list_elem_of_fmap_2 Insight.d_id _ _ Hr).
Qed.
End RecordFacts.

Lemma from_dict_files_records_under_their_ids_witness :
  ∃ s out,
    MemoryStore.from_dict misfiled_data world0 = (Ok s, printed out world0)
    ∧ (∃ pathway,
         MemoryStore.get_policy_pathway s (lit "p1") = Some pathway
         ∧ PolicyPathway.id pathway = lit "p1")
    ∧ MemoryStore.get_policy_pathway s (lit "some key") = None.
Proof.
  destruct (from_dict_files_records_under_their_ids misfiled_data [] world0)
    as (s & out & Hrun & _ & _ & _ & Hpathways & _ & _ & Hkeys & _).
  - split_and!; [constructor| |constructor].
    by repeat constructor.
  - reflexivity.
  - exists s, out. split; [exact Hrun|]. split.
    + apply (Hpathways (PolicyPathway.to_dict sample_pathway)).
      by apply list_elem_of_here.
    + apply dict_get_None_keys. intros Hk. apply Hkeys in Hk.
      apply list_elem_of_singleton in Hk. by vm_compute in Hk.
Defined.

(** ** Prompts and retrieval, end to end *)

Section PromptOutcome.
Context `{PyRuntime}.
Variable strftime : datetime → str.

Lemma format_pathways_TypeError (store : MemoryStore.t) (agent_role : str)
    (pathways : list PolicyPathway.t) (text : str) (card_count : nat)
    (e : exn) :
  (HDPM.format_pathways strftime store agent_role pathways text card_count).1
  = Raise e →
  e = TypeError.
Proof.
  revert text card_count.
  induction pathways as [|pathway pathways IH]; intros text n;
    cbn [HDPM.format_pathways]; [done|].
  destruct (_ <=? _); [done|].
  pose proof (get_evidence_cards_TypeError store (PolicyPathway.id pathway))
    as Hget.
  destruct (MemoryStore.get_evidence_cards_for_pathway store _)
    as [[cards|e'] out]; cbn [HDPM.and_then fst] in *.
  - destruct (HDPM.format_cards strftime agent_role cards text n)
      as [text' n'].
    specialize (IH (match cards with
                    | [] => text'
                    | _ :: _ =>
                        if n' <? HDPM.max_cards_per_role
                        then text' ++ HDPM.pathway_separator pathway
                        else text'
                    end) n').
    destruct (HDPM.format_pathways strftime store agent_role pathways _ n')
      as [r out'].
    exact IH.
  - intros [= <-]. by apply Hget.
Qed.

Lemma format_evidence_TypeError (pathways : list PolicyPathway.t)
    (store : MemoryStore.t) (agent_role : str) (e : exn) :
  (HDPM._format_evidence_for_scaffold strftime pathways store agent_role).1
  = Raise e →
  e = TypeError.
Proof.
  unfold HDPM._format_evidence_for_scaffold.
  pose proof (format_pathways_TypeError store agent_role pathways [] 0 e)
    as Hloop.
  destruct (HDPM.format_pathways strftime store agent_role pathways [] 0)
    as [[[text n]|e'] out]; cbn [HDPM.and_then fst] in *; [done|].
  intros [= <-]. by apply Hloop.
Qed.

Lemma and_then_outcome {A B} (m : result A * list str)
    (f : A → result B * list str) :
  (HDPM.and_then m f).1
  = match m.1 with
    | Ok a => (f a).1
    | Raise e => Raise e
    end.
Proof.
  destruct m as [[a|e] out]; cbn; [|done]. by destruct (f a).
Qed.

(** X29. [generate_role_specific_prompts] returns a dict with exactly
    the keys ["Planner"], ["Assistant"] and ["Critic"], in this order, the
    planner prompt being the planner scaffold of the insights retrieved, or it
    raises [TypeError], which it does only when a card lookup for a role
    scaffold raises; a request for [top_k_retrieval <= 0] is served as a
    request for 1. *)
Theorem prompts_have_three_keys_or_raise_TypeError (h : HDPM.t) (query : str)
    (top_k_retrieval : Z) :
  match (HDPM.generate_role_specific_prompts strftime h query
           top_k_retrieval).1 with
  | Ok prompts =>
      dict_keys prompts = [lit "Planner"; lit "Assistant"; lit "Critic"]
      ∧ dict_get prompts (lit "Planner")
        = Some
            (HDPM.build_planner_scaffold
               (HDPM._retrieve_relevant_items_from_store query
                  (HDPM.positive_memory h) (Z.max 1 top_k_retrieval)).1.1
               (HDPM._retrieve_relevant_items_from_store query
                  (HDPM.negative_memory h) (Z.max 1 top_k_retrieval)).1.1
               query)
  | Raise e => e = TypeError
  end
  ∧ ((top_k_retrieval ≤ 0)%Z →
     HDPM.generate_role_specific_prompts strftime h query top_k_retrieval
     = HDPM.generate_role_specific_prompts strftime h query 1).
Proof.
  split.
  - unfold HDPM.generate_role_specific_prompts, HDPM.global_co_retrieval.
    replace (if (top_k_retrieval <=? 0)%Z then 1%Z else top_k_retrieval)
      with (Z.max 1 top_k_retrieval)
      by (destruct (Z.leb_spec top_k_retrieval 0); lia).
    destruct (HDPM._retrieve_relevant_items_from_store query
                (HDPM.positive_memory h) _) as [[pi pp] out1].
    destruct (HDPM._retrieve_relevant_items_from_store query
                (HDPM.negative_memory h) _) as [[ni np] out2].
    rewrite and_then_outcome. cbn [fst].
    rewrite and_then_outcome.
    unfold HDPM.build_assistant_scaffold, HDPM.build_critic_scaffold.
    rewrite !and_then_outcome.
    pose proof (format_evidence_TypeError pp (HDPM.positive_memory h)
                  (lit "Assistant")) as Ha1.
    destruct (HDPM._format_evidence_for_scaffold strftime pp
                (HDPM.positive_memory h) (lit "Assistant")).1
      as [a1|e]; [|by apply Ha1].
    rewrite !and_then_outcome.
    pose proof (format_evidence_TypeError np (HDPM.negative_memory h)
                  (lit "Assistant")) as Ha2.
    destruct (HDPM._format_evidence_for_scaffold strftime np
                (HDPM.negative_memory h) (lit "Assistant")).1
      as [a2|e]; [|by apply Ha2].
    cbn [fst]. rewrite !and_then_outcome.
    pose proof (format_evidence_TypeError pp (HDPM.positive_memory h)
                  (lit "Critic")) as Hc1.
    destruct (HDPM._format_evidence_for_scaffold strftime pp
                (HDPM.positive_memory h) (lit "Critic")).1
      as [c1|e]; [|by apply Hc1].
    rewrite !and_then_outcome.
    pose proof (format_evidence_TypeError np (HDPM.negative_memory h)
                  (lit "Critic")) as Hc2.
    destruct (HDPM._format_evidence_for_scaffold strftime np
                (HDPM.negative_memory h) (lit "Critic")).1
      as [c2|e]; [|by apply Hc2].
    done.
  - intros Hle. unfold HDPM.generate_role_specific_prompts.
    by rewrite (proj2 (Z.leb_le _ _) Hle).
Qed.
End PromptOutcome.

Lemma resolve_pathways_mapped (s s' : MemoryStore.t)
    (f : PolicyPathway.t → PolicyPathway.t) (top : list Insight.t) :
  (∀ pid, MemoryStore.get_policy_pathway s' pid
          = f <$> MemoryStore.get_policy_pathway s pid) →
  HDPM.resolve_pathways s' top
  = ((HDPM.resolve_pathways s top).1.1,
     f <$> (HDPM.resolve_pathways s top).1.2,
     (HDPM.resolve_pathways s top).2).
Proof.
  intros Hget. induction top as [|insight top IH]; [done|].
  cbn [HDPM.resolve_pathways]. rewrite IH, Hget.
  destruct (HDPM.resolve_pathways s top) as [[kept ps] out].
  by destruct (MemoryStore.get_policy_pathway s _).
Qed.

Section ReloadRetrieval.
Context `{PyRuntime}.

(** X30. Retrieval does not notice a reload: for a store that holds
    every entity under its own id, with timestamps that survive the ISO codec,
    [from_dict (to_dict store)] returns a store from which every query and
    [top_k] retrieve the same insights and print the same warnings as from the
    original, and the same pathways up to the insight link that the reload
    sets. *)
Theorem retrieval_survives_reload (s : MemoryStore.t) (w : world) :
  store_wf s → timestamps_round_trip s →
  ∃ s' out,
    MemoryStore.from_dict (MemoryStore.to_dict s) w = (Ok s', printed out w)
    ∧ ∀ query top_k,
        HDPM._retrieve_relevant_items_from_store query s' top_k
        = ((HDPM._retrieve_relevant_items_from_store query s top_k).1.1,
           (fun p => PolicyPathway.set_linked_insight_id p (reloaded_link s p))
             <$> (HDPM._retrieve_relevant_items_from_store query s top_k).1.2,
           (HDPM._retrieve_relevant_items_from_store query s top_k).2).
Proof.
  intros Hwf Hts.
  destruct (from_dict_replays s w Hwf Hts) as [out Hrun].
  eexists _, out. split; [exact Hrun|]. intros query top_k.
  rewrite (replay_builds s Hwf).
  unfold HDPM._retrieve_relevant_items_from_store.
  destruct (top_k <=? 0)%Z; [done|].
  unfold HDPM.top_insights. cbn [MemoryStore.insights].
  apply resolve_pathways_mapped. intros pid.
  unfold MemoryStore.get_policy_pathway at 1. cbn [MemoryStore.pathways].
  destruct (MemoryStore.get_policy_pathway s pid) as [p|] eqn:Hp.
  - by rewrite (relinked_lookup s pid p Hwf Hp).
  - cbn. apply dict_get_None_keys. rewrite link_all_keys.
    by apply dict_get_None_keys.
Qed.
End ReloadRetrieval.

Lemma retrieval_survives_reload_witness :
  ∃ s' out,
    MemoryStore.from_dict (MemoryStore.to_dict orphan_store) world0
    = (Ok s', printed out world0)
    ∧ (HDPM._retrieve_relevant_items_from_store (lit "protein Alpha") s' 1).1.1
      = (HDPM._retrieve_relevant_items_from_store (lit "protein Alpha")
           orphan_store 1).1.1.
Proof.
  destruct (retrieval_survives_reload orphan_store world0)
    as (s' & out & Hrun & Hsame).
  - apply run_ops_wf; [|apply store_wf_new]. repeat constructor; by vm_compute.
  - constructor.
  - exists s', out. split; [exact Hrun|]. by rewrite Hsame.
Defined.
